(** * TeddyCloud Custom Tag Helper: a shallow embedding of the front end

    The development follows the layout of the repository:

    - [Js]                 the fragment of JavaScript semantics the code relies
                           on (truthiness, [a || b], default parameters);
    - [Client]             [frontend/src/api/client.js]: the axios instance, its
                           response interceptor and the endpoint tables;
    - [Fetch]              the call sites that bypass the client with [fetch];
    - [TAFLibraryContext]  [frontend/src/context/TAFLibraryContext.jsx];
    - [TAFLibraryContextV1] the earlier revision of the same provider;
    - [RFIDTagsView]       [frontend/src/components/RFIDTagsView.jsx];
    - [TonieEditor]        [frontend/src/components/TonieEditor.jsx];
    - [Reconcile], [FilenameParser]  the back-end engine, which is not part of
                           the sources at hand and is modelled from the
                           specification.

    Numbers are integers ([Z]): every number the code handles here is a count,
    a page index, a page size or a duration in milliseconds. *)

From Stdlib Require Import ZArith String Ascii List Bool Lia DecimalString.
Import ListNotations.

Local Set Warnings "-register-all".
Local Open Scope string_scope.
Local Open Scope Z_scope.

(* ================================================================== *)
(** ** JavaScript fragment *)

Module Js.

(** Truthiness of a typed value: [0], [""], [false] and an absent field
    (JSON [null] / [undefined], modelled as [None]) are falsy. *)
Class Truthy (A : Type) := truthy : A -> bool.

#[global] Instance truthy_Z : Truthy Z := fun n => negb (n =? 0).
#[global] Instance truthy_string : Truthy string :=
  fun s => negb (String.eqb s "").
#[global] Instance truthy_bool : Truthy bool := fun b => b.
(** Arrays and objects are always truthy. *)
#[global] Instance truthy_list {A} : Truthy (list A) := fun _ => true.
#[global] Instance truthy_option {A} `{Truthy A} : Truthy (option A) :=
  fun o => match o with Some a => truthy a | None => false end.

(** [a || b] on two values of one type. *)
Definition or {A} `{Truthy A} (a b : A) : A := if truthy a then a else b.

(** [a || d] where [a] may be absent and [d] is a literal of the field's
    type: the usual defaulting idiom [data.x || 0]. *)
Definition or_default {A} `{Truthy A} (a : option A) (d : A) : A :=
  match a with
  | Some x => if truthy x then x else d
  | None => d
  end.

(** Untyped values, as they travel in argument lists, query parameters and
    request bodies. *)
Inductive value : Type :=
| Undefined
| Null
| Bool (b : bool)
| Num (n : Z)
| Str (s : string)
| Arr (xs : list value)
| Obj (fields : list (string * value)).

(** The [i]-th actual argument of a call; a missing argument is
    [undefined], surplus arguments are simply never read. *)
Definition arg (i : nat) (args : list value) : value := nth i args Undefined.

(** A formal parameter with a default, [(x = d) => ...]. *)
Definition param_default (v d : value) : value :=
  match v with Undefined => d | _ => v end.

(** Property lookup in an object literal. *)
Fixpoint get (k : string) (fields : list (string * value)) : option value :=
  match fields with
  | [] => None
  | (k', v) :: rest => if String.eqb k k' then Some v else get k rest
  end.

(** Decimal rendering of a number inside a template literal. *)
Definition show (n : Z) : string := NilZero.string_of_int (Z.to_int n).

(** [s.startsWith(p)] *)
Definition startsWith (s p : string) : bool := String.prefix p s.

(** [s.substring(n)] *)
Definition substring_from (n : nat) (s : string) : string :=
  String.substring n (String.length s - n) s.

End Js.

Import Js.
Declare Scope js_scope.
Delimit Scope js_scope with js.
Notation "a ||| b" := (Js.or a b) (at level 50, left associativity) : js_scope.
Notation "a ||? d" :=
  (Js.or_default a d) (at level 50, left associativity) : js_scope.
Local Open Scope js_scope.

(* ================================================================== *)
(** ** [frontend/src/api/client.js] *)

Module Client.

Inductive Method := GET | POST | PUT | DELETE.

(** A request as it leaves the browser.  [timeout] is the bound in
    milliseconds after which the transport gives up ([None]: no bound). *)
Record Request := mkRequest {
  method  : Method;
  url     : string;
  params  : list (string * value);
  body    : value;
  headers : list (string * string);
  timeout : option Z
}.

(** Per-call configuration, the last argument of [client.get] and friends. *)
Record Config := mkConfig {
  cfg_params  : list (string * value);
  cfg_headers : list (string * string)
}.

Definition no_config : Config := mkConfig [] [].

Section Instance.

(** [const API_BASE = getApiUrl();] comes from [config/apiConfig]. *)
Variable API_BASE : string.

Definition baseURL : string := API_BASE ++ "/api".
Definition default_timeout : Z := 30000.
Definition default_headers : list (string * string) :=
  [("Content-Type", "application/json")].

(** axios merges the instance defaults with the call configuration;
    headers of the call take precedence. *)
Definition merge_headers (call : list (string * string)) :=
  match call with [] => default_headers | _ => call end.

Definition client (m : Method) (path : string) (data : value)
           (cfg : Config) : Request :=
  {| method := m;
     url := baseURL ++ path;
     params := cfg_params cfg;
     body := data;
     headers := merge_headers (cfg_headers cfg);
     timeout := Some default_timeout |}.

Definition client_get path cfg := client GET path Undefined cfg.
Definition client_post path data cfg := client POST path data cfg.
Definition client_put path data cfg := client PUT path data cfg.
Definition client_delete path cfg := client DELETE path Undefined cfg.

Definition with_params ps := mkConfig ps [].

(** *** Endpoint tables.  Every function receives the JavaScript argument
    list of the call, so that arity mismatches behave as they do at run
    time. *)

(* toniesAPI *)
Definition toniesAPI_getAll (args : list value) : Request :=
  let skip := param_default (arg 0 args) (Num 0) in
  let limit := param_default (arg 1 args) (Num 50) in
  client_get "/tonies/" (with_params [("skip", skip); ("limit", limit)]).
Definition toniesAPI_getOne (no : string) :=
  client_get ("/tonies/" ++ no) no_config.
Definition toniesAPI_create (data : value) :=
  client_post "/tonies/" data no_config.
Definition toniesAPI_update (no : string) (data : value) :=
  client_put ("/tonies/" ++ no) data no_config.
Definition toniesAPI_delete (no : string) :=
  client_delete ("/tonies/" ++ no) no_config.
Definition toniesAPI_preview (data : value) :=
  client_post "/tonies/preview" data no_config.

(* tafLibraryAPI *)
Definition tafLibraryAPI_getAll (args : list value) : Request :=
  let skip := param_default (arg 0 args) (Num 0) in
  let limit := param_default (arg 1 args) (Num 50) in
  client_get "/taf-library/"
             (with_params [("skip", skip); ("limit", limit)]).

(* tafMetadataAPI *)
Definition tafMetadataAPI_parse (tafFilename : value) :=
  client_post "/taf-metadata/parse" Null
              (with_params [("taf_filename", tafFilename)]).
Definition tafMetadataAPI_searchCovers (args : list value) :=
  let searchTerm := arg 0 args in
  let limit := param_default (arg 1 args) (Num 5) in
  client_post "/taf-metadata/search-covers"
              (Obj [("search_term", searchTerm); ("limit", limit)])
              no_config.
Definition tafMetadataAPI_downloadCover (imageUrl : value) :=
  client_post "/taf-metadata/download-cover"
              (Obj [("image_url", imageUrl)]) no_config.

(* rfidTagsAPI *)
Definition rfidTagsAPI_getAll (args : list value) : Request :=
  let skip := param_default (arg 0 args) (Num 0) in
  let limit := param_default (arg 1 args) (Num 50) in
  client_get "/rfid-tags/" (with_params [("skip", skip); ("limit", limit)]).
Definition rfidTagsAPI_getNextModelNumber :=
  client_get "/rfid-tags/next-model-number" no_config.
Definition rfidTagsAPI_getTonieboxes :=
  client_get "/rfid-tags/tonieboxes" no_config.
Definition rfidTagsAPI_linkTag (tagUid boxId model tafPath : value) :=
  client_post "/rfid-tags/link"
              (Obj [("tag_uid", tagUid); ("box_id", boxId);
                    ("model", model); ("taf_path", tafPath)])
              no_config.
Definition rfidTagsAPI_getBoxTags (boxId : string) :=
  client_get ("/rfid-tags/box/" ++ boxId) no_config.
Definition rfidTagsAPI_getBoxLastRuid (boxId : string) :=
  client_get ("/rfid-tags/box/" ++ boxId ++ "/last-ruid") no_config.

(* libraryAPI *)
Definition libraryAPI_browse (args : list value) :=
  let path := param_default (arg 0 args) (Str "") in
  client_get "/library/browse" (with_params [("path", path)]).
Definition libraryAPI_parseTAF (path : value) :=
  client_post "/library/parse-taf" (Obj [("path", path)]) no_config.

(* uploadsAPI; the multipart body is kept abstract as [formData]. *)
Definition uploadsAPI_uploadCover (formData : value) :=
  client_post "/uploads/cover" formData
              (mkConfig [] [("Content-Type", "multipart/form-data")]).
Definition uploadsAPI_listCovers :=
  client_get "/uploads/covers" no_config.

(* systemAPI *)
Definition systemAPI_getStatus := client_get "/status" no_config.
Definition systemAPI_getConfig := client_get "/config" no_config.

(* setupAPI *)
Definition setupAPI_checkStatus := client_get "/setup/status" no_config.
Definition setupAPI_detectDataAccess :=
  client_get "/setup/detect" no_config.
Definition setupAPI_testTeddyCloud (u : value) :=
  client_post "/setup/test-teddycloud" (Obj [("url", u)]) no_config.
Definition setupAPI_saveConfiguration (config : value) :=
  client_post "/setup/save" config no_config.

(** The calls of the module, reified: one constructor per exported
    endpoint, carrying the actual arguments. *)
Inductive ApiCall : Type :=
| ToniesGetAll (args : list value)
| ToniesGetOne (no : string)
| ToniesCreate (data : value)
| ToniesUpdate (no : string) (data : value)
| ToniesDelete (no : string)
| ToniesPreview (data : value)
| TafLibraryGetAll (args : list value)
| TafMetadataParse (tafFilename : value)
| TafMetadataSearchCovers (args : list value)
| TafMetadataDownloadCover (imageUrl : value)
| RfidGetAll (args : list value)
| RfidGetNextModelNumber
| RfidGetTonieboxes
| RfidLinkTag (tagUid boxId model tafPath : value)
| RfidGetBoxTags (boxId : string)
| RfidGetBoxLastRuid (boxId : string)
| LibraryBrowse (args : list value)
| LibraryParseTAF (path : value)
| UploadsUploadCover (formData : value)
| UploadsListCovers
| SystemGetStatus
| SystemGetConfig
| SetupCheckStatus
| SetupDetectDataAccess
| SetupTestTeddyCloud (u : value)
| SetupSaveConfiguration (config : value).

Definition request_of (c : ApiCall) : Request :=
  match c with
  | ToniesGetAll args => toniesAPI_getAll args
  | ToniesGetOne no => toniesAPI_getOne no
  | ToniesCreate d => toniesAPI_create d
  | ToniesUpdate no d => toniesAPI_update no d
  | ToniesDelete no => toniesAPI_delete no
  | ToniesPreview d => toniesAPI_preview d
  | TafLibraryGetAll args => tafLibraryAPI_getAll args
  | TafMetadataParse f => tafMetadataAPI_parse f
  | TafMetadataSearchCovers args => tafMetadataAPI_searchCovers args
  | TafMetadataDownloadCover u => tafMetadataAPI_downloadCover u
  | RfidGetAll args => rfidTagsAPI_getAll args
  | RfidGetNextModelNumber => rfidTagsAPI_getNextModelNumber
  | RfidGetTonieboxes => rfidTagsAPI_getTonieboxes
  | RfidLinkTag a b c d => rfidTagsAPI_linkTag a b c d
  | RfidGetBoxTags b => rfidTagsAPI_getBoxTags b
  | RfidGetBoxLastRuid b => rfidTagsAPI_getBoxLastRuid b
  | LibraryBrowse args => libraryAPI_browse args
  | LibraryParseTAF p => libraryAPI_parseTAF p
  | UploadsUploadCover f => uploadsAPI_uploadCover f
  | UploadsListCovers => uploadsAPI_listCovers
  | SystemGetStatus => systemAPI_getStatus
  | SystemGetConfig => systemAPI_getConfig
  | SetupCheckStatus => setupAPI_checkStatus
  | SetupDetectDataAccess => setupAPI_detectDataAccess
  | SetupTestTeddyCloud u => setupAPI_testTeddyCloud u
  | SetupSaveConfiguration c => setupAPI_saveConfiguration c
  end.

End Instance.

(** *** Errors and the response interceptor *)

(** The error object of a rejected request.  [detail] stands for
    [error.response?.data?.detail]: absent when there is no response (a
    network failure or an expired timeout) or no such field. *)
Record Error := mkError {
  message     : option string;
  detail      : option string;
  userMessage : option string
}.

(** [new Error(msg)] *)
Definition new_Error (msg : string) : Error :=
  mkError (Some msg) None None.

(** The rejection handler installed with
    [client.interceptors.response.use]. *)
Definition interceptor_rejected (error : Error) : Error :=
  let message := (detail error ||| message error) ||? "Request failed" in
  {| message := Client.message error;
     detail := detail error;
     userMessage := Some message |}.

(** How a request made through the client settles, as seen by the awaiting
    caller: the fulfilment handler is the identity, the rejection handler
    is [interceptor_rejected]. *)
Inductive Settled (R : Type) : Type :=
| Fulfilled (data : R)
| Rejected (error : Error).
Arguments Fulfilled {R} data.
Arguments Rejected {R} error.

Definition through_interceptor {R} (s : Settled R) : Settled R :=
  match s with
  | Fulfilled d => Fulfilled d
  | Rejected e => Rejected (interceptor_rejected e)
  end.

(** [err.userMessage || err.message], the text the callers display. *)
Definition display_message (err : Error) : option string :=
  userMessage err ||| message err.

End Client.

(* ================================================================== *)
(** ** Call sites that use [fetch] directly *)

Module Fetch.
Import Client.

(** The second argument of [fetch]; [signal] holds the delay of
    [AbortSignal.timeout(ms)] when one is passed. *)
Record Init := mkInit {
  init_method  : Method;
  init_headers : list (string * string);
  init_body    : value;
  init_signal  : option Z
}.

Definition no_init : Init := mkInit GET [] Undefined None.
Definition json_headers : list (string * string) :=
  [("Content-Type", "application/json")].

Definition fetch (resource : string) (init : Init) : Request :=
  {| method := init_method init;
     url := resource;
     params := [];
     body := init_body init;
     headers := init_headers init;
     timeout := init_signal init |}.

(** One constructor per [fetch(...)] expression of the front end, named
    after the component and the enclosing function. *)
Inductive FetchCall : Type :=
| SettingsDialog_loadConfig
| SettingsDialog_loadBoxes
| SettingsDialog_handleTestConnection (config : value)
| SettingsDialog_handleSave (config : value)
| SettingsDialog_restart
| TagStatusField_lastRuid (selectedBox : string)
| TagStatusField_boxTags (selectedBox : string)
| CoverSelector_handleCustomSearch (customSearch : string)
| TagSetupDialog_link (tag_uid box_id model taf_path : value)
| TagSetupDialog_getNextModelNumber
| SetupWizard_loadBoxes
| SetupWizard_loadExistingConfig
| Dashboard_loadConfig
| Dashboard_loadRfidTags
| StatusBar_handleReloadTeddyCloud
| RFIDTagsView_loadRFIDTags (skip newPageSize : Z).

Section Sites.

(** [import { API_URL } from '../config/apiConfig';] *)
Variable API_URL : string.

Definition request_of (c : FetchCall) : Request :=
  match c with
  | SettingsDialog_loadConfig => fetch (API_URL ++ "/api/config") no_init
  | SettingsDialog_loadBoxes =>
      fetch (API_URL ++ "/api/rfid-tags/tonieboxes") no_init
  | SettingsDialog_handleTestConnection config =>
      fetch (API_URL ++ "/api/test-connection")
            (mkInit POST json_headers config None)
  | SettingsDialog_handleSave config =>
      fetch (API_URL ++ "/api/config") (mkInit PUT json_headers config None)
  | SettingsDialog_restart =>
      fetch (API_URL ++ "/api/restart") (mkInit POST [] Undefined (Some 2000))
  | TagStatusField_lastRuid selectedBox =>
      fetch (API_URL ++ "/api/rfid-tags/box/" ++ selectedBox ++ "/last-ruid")
            no_init
  | TagStatusField_boxTags selectedBox =>
      fetch (API_URL ++ "/api/rfid-tags/box/" ++ selectedBox) no_init
  | CoverSelector_handleCustomSearch customSearch =>
      fetch (API_URL ++ "/api/taf-metadata/search-covers")
            (mkInit POST json_headers
                    (Obj [("search_term", Str customSearch);
                          ("limit", Num 10)]) None)
  | TagSetupDialog_link tag_uid box_id model taf_path =>
      fetch (API_URL ++ "/api/rfid-tags/link")
            (mkInit POST json_headers
                    (Obj [("tag_uid", tag_uid); ("box_id", box_id);
                          ("model", model); ("taf_path", taf_path)]) None)
  | TagSetupDialog_getNextModelNumber =>
      fetch (API_URL ++ "/api/rfid-tags/next-model-number") no_init
  | SetupWizard_loadBoxes =>
      fetch (API_URL ++ "/api/rfid-tags/tonieboxes") no_init
  | SetupWizard_loadExistingConfig =>
      fetch (API_URL ++ "/api/config") no_init
  | Dashboard_loadConfig => fetch (API_URL ++ "/api/config") no_init
  | Dashboard_loadRfidTags => fetch (API_URL ++ "/api/rfid-tags") no_init
  | StatusBar_handleReloadTeddyCloud =>
      fetch (API_URL ++ "/api/reload-teddycloud")
            (mkInit POST [] Undefined None)
  | RFIDTagsView_loadRFIDTags skip newPageSize =>
      fetch (API_URL ++ "/api/rfid-tags/?skip=" ++ show skip
                     ++ "&limit=" ++ show newPageSize) no_init
  end.

End Sites.

End Fetch.

(** Every remote call the front end can make: through the shared client or
    through [fetch]. *)
Inductive RemoteCall : Type :=
| ViaClient (c : Client.ApiCall)
| ViaFetch (c : Fetch.FetchCall).

Definition remote_request (API_BASE API_URL : string) (c : RemoteCall)
  : Client.Request :=
  match c with
  | ViaClient c => Client.request_of API_BASE c
  | ViaFetch c => Fetch.request_of API_URL c
  end.

(** A call carries a bounded timeout when its request has one. *)
Definition bounded_timeout (r : Client.Request) : Prop :=
  exists ms, Client.timeout r = Some ms /\ 0 < ms.

(* ================================================================== *)
(** ** Response schemas shared by the views *)

Module Schema.

(** [linked_tonie] of a TAF file or of a tag. *)
Record LinkedTonie := mkLinkedTonie {
  lt_model    : string;
  lt_series   : string;
  lt_episodes : string;
  lt_category : string;
  lt_pic      : string
}.

(** One element of [data.taf_files]. *)
Record TafFile := mkTafFile {
  name         : string;
  path         : string;
  size         : Z;
  audio_id     : option Z;
  hash         : option string;
  is_linked    : bool;
  linked_tonie : option LinkedTonie
}.

(** The body of a [/taf-library/] response.  A field that may be missing
    from the JSON document is an [option]. *)
Record TAFLibraryResponse := mkTAFLibraryResponse {
  success        : option bool;
  error          : option string;
  taf_files      : option (list TafFile);
  total_count    : option Z;
  linked_count   : option Z;
  orphaned_count : option Z;
  filtered_count : option Z;
  page           : option Z;
  page_size      : option Z;
  has_next       : option bool;
  has_prev       : option bool
}.

End Schema.

(* ================================================================== *)
(** ** [frontend/src/context/TAFLibraryContext.jsx] *)

Module TAFLibraryContext.
Import Client.

Definition DEFAULT_PAGE_SIZE : Z := 50.

Record Stats := mkStats { total : Z; linked : Z; orphaned : Z }.

(** The [useState] cells of [TAFLibraryProvider]. *)
Record State := mkState {
  tafFiles    : list Schema.TafFile;
  stats       : Stats;
  loading     : bool;
  error       : option string;
  lastUpdated : option Z;
  page        : Z;
  pageSize    : Z;
  totalCount  : Z;
  hasNext     : bool;
  hasPrev     : bool;
  filter      : string
}.

(** The state of the first render. *)
Definition initial : State :=
  mkState [] (mkStats 0 0 0) true None None 1 DEFAULT_PAGE_SIZE 0 false false
          "all".

(** The setters. *)
Definition setTafFiles v (s : State) :=
  mkState v (stats s) (loading s) (error s) (lastUpdated s) (page s)
          (pageSize s) (totalCount s) (hasNext s) (hasPrev s) (filter s).
Definition setStats v (s : State) :=
  mkState (tafFiles s) v (loading s) (error s) (lastUpdated s) (page s)
          (pageSize s) (totalCount s) (hasNext s) (hasPrev s) (filter s).
Definition setLoading v (s : State) :=
  mkState (tafFiles s) (stats s) v (error s) (lastUpdated s) (page s)
          (pageSize s) (totalCount s) (hasNext s) (hasPrev s) (filter s).
Definition setError v (s : State) :=
  mkState (tafFiles s) (stats s) (loading s) v (lastUpdated s) (page s)
          (pageSize s) (totalCount s) (hasNext s) (hasPrev s) (filter s).
Definition setLastUpdated v (s : State) :=
  mkState (tafFiles s) (stats s) (loading s) (error s) v (page s)
          (pageSize s) (totalCount s) (hasNext s) (hasPrev s) (filter s).
Definition setPage v (s : State) :=
  mkState (tafFiles s) (stats s) (loading s) (error s) (lastUpdated s) v
          (pageSize s) (totalCount s) (hasNext s) (hasPrev s) (filter s).
Definition setPageSize v (s : State) :=
  mkState (tafFiles s) (stats s) (loading s) (error s) (lastUpdated s) (page s)
          v (totalCount s) (hasNext s) (hasPrev s) (filter s).
Definition setTotalCount v (s : State) :=
  mkState (tafFiles s) (stats s) (loading s) (error s) (lastUpdated s) (page s)
          (pageSize s) v (hasNext s) (hasPrev s) (filter s).
Definition setHasNext v (s : State) :=
  mkState (tafFiles s) (stats s) (loading s) (error s) (lastUpdated s) (page s)
          (pageSize s) (totalCount s) v (hasPrev s) (filter s).
Definition setHasPrev v (s : State) :=
  mkState (tafFiles s) (stats s) (loading s) (error s) (lastUpdated s) (page s)
          (pageSize s) (totalCount s) (hasNext s) v (filter s).
Definition setFilterState v (s : State) :=
  mkState (tafFiles s) (stats s) (loading s) (error s) (lastUpdated s) (page s)
          (pageSize s) (totalCount s) (hasNext s) (hasPrev s) v.

(** The body of the [try] block after the response has arrived and was not
    an API error: lines 43-55. *)
Definition store_response (now : Z) (data : Schema.TAFLibraryResponse)
           (s : State) : State :=
  let s := setTafFiles (Schema.taf_files data ||? []) s in
  let s := setStats {| total := Schema.total_count data ||? 0;
                       linked := Schema.linked_count data ||? 0;
                       orphaned := Schema.orphaned_count data ||? 0 |} s in
  (* Use filtered_count for pagination *)
  let s := setTotalCount
             (Schema.filtered_count data ||| Schema.total_count data ||? 0) s in
  let s := setPage (Schema.page data ||? 1) s in
  let s := setPageSize (Schema.page_size data ||? DEFAULT_PAGE_SIZE) s in
  let s := setHasNext (Schema.has_next data ||? false) s in
  let s := setHasPrev (Schema.has_prev data ||? false) s in
  setLastUpdated (Some now) s.

(** [data.success === false && data.error] *)
Definition is_api_error (data : Schema.TAFLibraryResponse) : bool :=
  match Schema.success data with
  | Some false => truthy (Schema.error data)
  | _ => false
  end.

Section Provider.

Variable API_BASE : string.
(** The server, as the awaiting code observes it, and the clock read by
    [Date.now()]. *)
Variable server : Request -> Settled Schema.TAFLibraryResponse.
Variable now : Z.

(** [loadTafFiles(force = false, newPage = page, newPageSize = pageSize,
    newFilter = filter)].  [st] is the state captured by the closure (the
    render it was created in), [s] the store the setters write to.  The
    result pairs the store with the requests sent. *)
Definition loadTafFiles (st : State) (force : option bool)
           (newPage newPageSize : option Z) (newFilter : option string)
           (s : State) : State * list Request :=
  let force := match force with Some b => b | None => false end in
  let newPage := match newPage with Some p => p | None => page st end in
  let newPageSize :=
    match newPageSize with Some p => p | None => pageSize st end in
  let newFilter :=
    match newFilter with Some f => f | None => filter st end in
  if (0 <? Z.of_nat (length (tafFiles st))) && negb force
     && truthy (lastUpdated st) && (newPage =? page st)
     && (newPageSize =? pageSize st) && String.eqb newFilter (filter st)
  then (s, [])
  else
    let s := setLoading true s in
    let s := setError None s in
    let skip := (newPage - 1) * newPageSize in
    let request :=
      tafLibraryAPI_getAll API_BASE
                           [Num skip; Num newPageSize; Str newFilter] in
    let catch (err : Error) (s : State) := setError (display_message err) s in
    let s :=
      match through_interceptor (server request) with
      | Fulfilled data =>
          if is_api_error data
          then catch (new_Error (Schema.error data ||? "")) s
          else store_response now data s
      | Rejected err => catch err s
      end in
    (setLoading false s, [request]).

Definition refresh (st : State) (s : State) :=
  loadTafFiles st (Some true) None None None s.

Definition goToPage (st : State) (newPage : Z) (s : State) :=
  let s := setPage newPage s in
  loadTafFiles st (Some true) (Some newPage) (Some (pageSize st))
               (Some (filter st)) s.

Definition changePageSize (st : State) (newPageSize : Z) (s : State) :=
  let s := setPageSize newPageSize s in
  let s := setPage 1 s in (* Reset to first page when changing page size *)
  loadTafFiles st (Some true) (Some 1) (Some newPageSize)
               (Some (filter st)) s.

Definition setFilter (st : State) (newFilter : string) (s : State) :=
  let s := setFilterState newFilter s in
  let s := setPage 1 s in (* Reset to first page when changing filter *)
  loadTafFiles st (Some true) (Some 1) (Some (pageSize st))
               (Some newFilter) s.

End Provider.

End TAFLibraryContext.

(* ================================================================== *)
(** ** The earlier revision of [TAFLibraryContext.jsx] (no filter) *)

Module TAFLibraryContextV1.
Import Client.
Import TAFLibraryContext.

(** This revision has the same cells except [filter]; the record of the
    later revision is reused and its [filter] cell is never read or
    written here. *)

Definition store_response (now : Z) (data : Schema.TAFLibraryResponse)
           (s : State) : State :=
  let s := setTafFiles (Schema.taf_files data ||? []) s in
  let s := setStats {| total := Schema.total_count data ||? 0;
                       linked := Schema.linked_count data ||? 0;
                       orphaned := Schema.orphaned_count data ||? 0 |} s in
  let s := setTotalCount (Schema.total_count data ||? 0) s in
  let s := setPage (Schema.page data ||? 1) s in
  let s := setPageSize (Schema.page_size data ||? DEFAULT_PAGE_SIZE) s in
  let s := setHasNext (Schema.has_next data ||? false) s in
  let s := setHasPrev (Schema.has_prev data ||? false) s in
  setLastUpdated (Some now) s.

Section Provider.

Variable API_BASE : string.
Variable server : Request -> Settled Schema.TAFLibraryResponse.
Variable now : Z.

(** [loadTafFiles(force = false, newPage = page, newPageSize = pageSize)] *)
Definition loadTafFiles (st : State) (force : option bool)
           (newPage newPageSize : option Z) (s : State)
  : State * list Request :=
  let force := match force with Some b => b | None => false end in
  let newPage := match newPage with Some p => p | None => page st end in
  let newPageSize :=
    match newPageSize with Some p => p | None => pageSize st end in
  if (0 <? Z.of_nat (length (tafFiles st))) && negb force
     && truthy (lastUpdated st) && (newPage =? page st)
     && (newPageSize =? pageSize st)
  then (s, [])
  else
    let s := setLoading true s in
    let s := setError None s in
    let skip := (newPage - 1) * newPageSize in
    let request := tafLibraryAPI_getAll API_BASE [Num skip; Num newPageSize] in
    let catch (err : Error) (s : State) := setError (display_message err) s in
    let s :=
      match through_interceptor (server request) with
      | Fulfilled data =>
          if is_api_error data
          then catch (new_Error (Schema.error data ||? "")) s
          else store_response now data s
      | Rejected err => catch err s
      end in
    (setLoading false s, [request]).

Definition refresh (st : State) (s : State) :=
  loadTafFiles st (Some true) None None s.

Definition goToPage (st : State) (newPage : Z) (s : State) :=
  let s := setPage newPage s in
  loadTafFiles st (Some true) (Some newPage) (Some (pageSize st)) s.

Definition changePageSize (st : State) (newPageSize : Z) (s : State) :=
  let s := setPageSize newPageSize s in
  let s := setPage 1 s in (* Reset to first page when changing page size *)
  loadTafFiles st (Some true) (Some 1) (Some newPageSize) s.

End Provider.

End TAFLibraryContextV1.

(* ================================================================== *)
(** ** [frontend/src/components/RFIDTagsView.jsx] *)

Module RFIDTagsView.
Import Client.

Definition DEFAULT_PAGE_SIZE : Z := 50.

(** One element of [data.tags]. *)
Record Tag := mkTag {
  uid          : string;
  model        : option string;
  status       : string;
  source       : option string;
  linked_tonie : option Schema.LinkedTonie
}.

(** The body of a [/rfid-tags/] response. *)
Record RFIDTagsResponse := mkRFIDTagsResponse {
  tags               : option (list Tag);
  total_count        : option Z;
  unconfigured_count : option Z;
  assigned_count     : option Z;
  page               : option Z;
  page_size          : option Z;
  has_next           : option bool;
  has_prev           : option bool
}.

(** What [await fetch(...)] followed by [await response.json()] can yield:
    [fetch] rejects, or it resolves to a response whose [ok] flag is read
    and whose body is then parsed (which may reject in turn). *)
Inductive Fetched : Type :=
| FetchRejected (err : Error)
| Response (ok : bool) (json : Settled RFIDTagsResponse).

Record Stats := mkStats { total : Z; unconfigured : Z; assigned : Z }.

Record State := mkState {
  st_tags       : list Tag;
  st_stats      : Stats;
  st_loading    : bool;
  st_error      : option string;
  st_filter     : string;
  st_page       : Z;
  st_pageSize   : Z;
  st_totalCount : Z;
  st_hasNext    : bool;
  st_hasPrev    : bool
}.

Definition initial : State :=
  mkState [] (mkStats 0 0 0) true None "all" 1 DEFAULT_PAGE_SIZE 0 false false.

Definition setTags v (s : State) :=
  mkState v (st_stats s) (st_loading s) (st_error s) (st_filter s) (st_page s)
          (st_pageSize s) (st_totalCount s) (st_hasNext s) (st_hasPrev s).
Definition setStats v (s : State) :=
  mkState (st_tags s) v (st_loading s) (st_error s) (st_filter s) (st_page s)
          (st_pageSize s) (st_totalCount s) (st_hasNext s) (st_hasPrev s).
Definition setLoading v (s : State) :=
  mkState (st_tags s) (st_stats s) v (st_error s) (st_filter s) (st_page s)
          (st_pageSize s) (st_totalCount s) (st_hasNext s) (st_hasPrev s).
Definition setError v (s : State) :=
  mkState (st_tags s) (st_stats s) (st_loading s) v (st_filter s) (st_page s)
          (st_pageSize s) (st_totalCount s) (st_hasNext s) (st_hasPrev s).
Definition setFilter v (s : State) :=
  mkState (st_tags s) (st_stats s) (st_loading s) (st_error s) v (st_page s)
          (st_pageSize s) (st_totalCount s) (st_hasNext s) (st_hasPrev s).
Definition setPage v (s : State) :=
  mkState (st_tags s) (st_stats s) (st_loading s) (st_error s) (st_filter s) v
          (st_pageSize s) (st_totalCount s) (st_hasNext s) (st_hasPrev s).
Definition setPageSize v (s : State) :=
  mkState (st_tags s) (st_stats s) (st_loading s) (st_error s) (st_filter s)
          (st_page s) v (st_totalCount s) (st_hasNext s) (st_hasPrev s).
Definition setTotalCount v (s : State) :=
  mkState (st_tags s) (st_stats s) (st_loading s) (st_error s) (st_filter s)
          (st_page s) (st_pageSize s) v (st_hasNext s) (st_hasPrev s).
Definition setHasNext v (s : State) :=
  mkState (st_tags s) (st_stats s) (st_loading s) (st_error s) (st_filter s)
          (st_page s) (st_pageSize s) (st_totalCount s) v (st_hasPrev s).
Definition setHasPrev v (s : State) :=
  mkState (st_tags s) (st_stats s) (st_loading s) (st_error s) (st_filter s)
          (st_page s) (st_pageSize s) (st_totalCount s) (st_hasNext s) v.

(** The predicate of the first [filter]: keep a tag unless its model is a
    system sound, [box-de-de-01-*]. *)
Definition not_system_sound (tag : Tag) : bool :=
  let model := model tag ||? "" in
  negb (startsWith model "box-de-de-01-").

(** [list.filter(t => t.status === name).length] *)
Definition count_status (name : string) (l : list Tag) : Z :=
  Z.of_nat (length (filter (fun t => String.eqb (status t) name) l)).

(** Lines 657-678: what is stored once the JSON body is there. *)
Definition store_response (data : RFIDTagsResponse) (s : State) : State :=
  (* Filter out system sound tags, box-de-de-01-... *)
  let filteredTags := filter not_system_sound (tags data ||? []) in
  (* Recalculate stats without system sounds *)
  let assigned := count_status "assigned" filteredTags in
  let unconfigured := count_status "unconfigured" filteredTags in
  let s := setTags filteredTags s in
  let s := setStats
             {| total := total_count data ||? Z.of_nat (length filteredTags);
                unconfigured := unconfigured_count data ||? unconfigured;
                assigned := assigned_count data ||? assigned |} s in
  let s := setTotalCount (total_count data ||? 0) s in
  let s := setPage (page data ||? 1) s in
  let s := setPageSize (page_size data ||? DEFAULT_PAGE_SIZE) s in
  let s := setHasNext (has_next data ||? false) s in
  let s := setHasPrev (has_prev data ||? false) s in
  setError None s.

Section View.

Variable API_URL : string.
Variable server : Request -> Fetched.

(** [loadRFIDTags(newPage = page, newPageSize = pageSize)] *)
Definition loadRFIDTags (st : State) (newPage newPageSize : option Z)
           (s : State) : State * list Request :=
  let newPage := match newPage with Some p => p | None => st_page st end in
  let newPageSize :=
    match newPageSize with Some p => p | None => st_pageSize st end in
  let s := setLoading true s in
  let skip := (newPage - 1) * newPageSize in
  let request :=
    Fetch.request_of API_URL (Fetch.RFIDTagsView_loadRFIDTags skip newPageSize)
  in
  let catch (err : Error) (s : State) := setError (message err) s in
  let s :=
    match server request with
    | FetchRejected err => catch err s
    | Response false _ => catch (new_Error "Failed to load RFID tags") s
    | Response true (Rejected err) => catch err s
    | Response true (Fulfilled data) => store_response data s
    end in
  (setLoading false s, [request]).

Definition handlePageChange (st : State) (newPage : Z) (s : State) :=
  let s := setPage newPage s in
  loadRFIDTags st (Some newPage) (Some (st_pageSize st)) s.

Definition handlePageSizeChange (st : State) (newPageSize : Z) (s : State) :=
  let s := setPageSize newPageSize s in
  let s := setPage 1 s in
  loadRFIDTags st (Some 1) (Some newPageSize) s.

End View.

(** [getTAFFileName(source)]; [null] is [None]. *)
Definition getTAFFileName (source : option string) : option string :=
  if negb (truthy source) then None
  else
    match source with
    | Some source =>
        (* Extract filename from "lib://path/to/file.taf" *)
        if startsWith source "lib://"
        then Some (substring_from 6 source) (* Remove "lib://" *)
        else Some source
    | None => None
    end.

(** The list rendered below the tabs: [tags.filter(...)] on the client-side
    tab [filter]. *)
Definition filteredTags (st : State) : list Tag :=
  filter (fun tag =>
            if String.eqb (st_filter st) "assigned"
            then String.eqb (status tag) "assigned"
            else if String.eqb (st_filter st) "unconfigured"
            then String.eqb (status tag) "unconfigured"
            else true)
         (st_tags st).

End RFIDTagsView.

(* ================================================================== *)
(** ** [frontend/src/components/TonieEditor.jsx] *)

Module TonieEditor.
Import Client.

Record FormData := mkFormData {
  model    : string;
  audio_id : string;
  hash     : string;
  series   : string;
  episodes : string;
  title    : string;
  language : string;
  pic      : string;
  tracks   : list string
}.

(** The [tonie] prop: present in edit mode, absent in create mode. *)
Record Tonie := mkTonie {
  no         : string;
  t_model    : option string;
  t_audio_id : list string;
  t_hash     : list string;
  t_series   : option string;
  t_episodes : option string;
  t_title    : option string;
  t_language : option string;
  t_pic      : option string;
  t_tracks   : option (list string)
}.

(** [const isEditMode = !!tonie;] *)
Definition isEditMode (tonie : option Tonie) : bool :=
  match tonie with Some _ => true | None => false end.

(** The form data as it is serialised into a request body. *)
Definition json_of_form (f : FormData) : value :=
  Obj [("model", Str (model f)); ("audio_id", Str (audio_id f));
       ("hash", Str (hash f)); ("series", Str (series f));
       ("episodes", Str (episodes f)); ("title", Str (title f));
       ("language", Str (language f)); ("pic", Str (pic f));
       ("tracks", Arr (map Str (tracks f)))].

(** The cells the submit and confirm handlers read or write. *)
Record State := mkState {
  formData         : FormData;
  coverPreview     : option string;
  selectedCoverUrl : option string;
  error            : option string;
  showConfirmation : bool;
  previewJson      : option value
}.

(** [useState] initialisers. *)
Definition initial (tonie : option Tonie) : State :=
  let field (get : Tonie -> option string) (d : string) :=
    match tonie with Some t => get t ||? d | None => d end in
  {| formData :=
       {| model := field t_model "";
          audio_id := field (fun t => hd_error (t_audio_id t)) "";
          hash := field (fun t => hd_error (t_hash t)) "";
          series := field t_series "";
          episodes := field t_episodes "";
          title := field t_title "";
          language := field t_language "en-us";
          pic := field t_pic "";
          tracks := match tonie with
                    | Some t => t_tracks t ||? []
                    | None => []
                    end |};
     coverPreview := match tonie with
                     | Some t => t_pic t ||| None
                     | None => None
                     end;
     selectedCoverUrl := None;
     error := None;
     showConfirmation := false;
     previewJson := None |}.

Definition setFormData v (s : State) :=
  mkState v (coverPreview s) (selectedCoverUrl s) (error s)
          (showConfirmation s) (previewJson s).
Definition setError v (s : State) :=
  mkState (formData s) (coverPreview s) (selectedCoverUrl s) v
          (showConfirmation s) (previewJson s).
Definition setShowConfirmation v (s : State) :=
  mkState (formData s) (coverPreview s) (selectedCoverUrl s) (error s) v
          (previewJson s).
Definition setPreviewJson v (s : State) :=
  mkState (formData s) (coverPreview s) (selectedCoverUrl s) (error s)
          (showConfirmation s) v.

(** What a handler does to the outside world, in order: requests through
    the client and the [onSave] callback of the parent. *)
Inductive Effect : Type :=
| Call (request : Request)
| OnSave.

(** An optional string inside a template literal. *)
Definition interpolate (o : option string) : string :=
  match o with Some s => s | None => "undefined" end.

Section Handlers.

Variable API_BASE : string.
Variable server : Request -> Settled value.
Variable tonie : option Tonie.

(** [handleSubmit]: validate, then update (edit mode) or ask for a preview
    (create mode). *)
Definition handleSubmit (st : State) (s : State) : State * list Effect :=
  let s := setError None s in
  (* Validation *)
  if negb (truthy (audio_id (formData st))) then
    (setError (Some "Audio ID is required") s, [])
  else if negb (truthy (hash (formData st))) then
    (setError (Some "Hash is required") s, [])
  else if negb (truthy (series (formData st))) then
    (setError (Some "Series name is required") s, [])
  else
    let catch (err : Error) (s : State) :=
      setError (Some ("Failed to generate preview: "
                        ++ interpolate (display_message err))) s in
    match tonie with
    | Some tonie =>
        (* For edit mode, directly update *)
        let request :=
          toniesAPI_update API_BASE (no tonie) (json_of_form (formData st)) in
        match through_interceptor (server request) with
        | Fulfilled _ => (s, [Call request; OnSave])
        | Rejected err => (catch err s, [Call request])
        end
    | None =>
        (* For create mode, show preview first *)
        let request :=
          toniesAPI_preview API_BASE (json_of_form (formData st)) in
        match through_interceptor (server request) with
        | Fulfilled preview =>
            let s := setPreviewJson (Some preview) s in
            let s := setShowConfirmation true s in
            (s, [Call request])
        | Rejected err => (catch err s, [Call request])
        end
    end.

(** [downloadCover(imageUrl)]: the path on success, [null] on failure. *)
Definition downloadCover (imageUrl : string)
  : option string * list Effect :=
  let request := tafMetadataAPI_downloadCover API_BASE (Str imageUrl) in
  match through_interceptor (server request) with
  | Fulfilled (Obj fields) =>
      (match get "path" fields with Some (Str p) => Some p | _ => None end,
       [Call request])
  | Fulfilled _ => (None, [Call request])
  | Rejected _ => (None, [Call request])
  end.

(** [handleConfirmCreate]: runs when the confirmation dialog is accepted.
    The boolean tells whether the error was thrown on to the dialog. *)
Definition handleConfirmCreate (st : State) (s : State)
  : State * list Effect * bool :=
  let s := setError None s in
  let finalFormData := formData st in
  let '(finalFormData, downloads) :=
    match selectedCoverUrl st with
    | Some u =>
        if truthy u && negb (truthy (coverPreview st)) then
          match downloadCover u with
          | (Some coverPath, calls) =>
              if truthy coverPath
              then (mkFormData (model finalFormData) (audio_id finalFormData)
                               (hash finalFormData) (series finalFormData)
                               (episodes finalFormData) (title finalFormData)
                               (language finalFormData) coverPath
                               (tracks finalFormData), calls)
              else (finalFormData, calls)
          | (None, calls) => (finalFormData, calls)
          end
        else (finalFormData, [])
    | None => (finalFormData, [])
    end in
  let request := toniesAPI_create API_BASE (json_of_form finalFormData) in
  match through_interceptor (server request) with
  | Fulfilled _ =>
      (setShowConfirmation false s,
       (downloads ++ [Call request; OnSave])%list, false)
  | Rejected err =>
      (setError (Some ("Failed to save: "
                         ++ interpolate (detail err ||| message err))) s,
       (downloads ++ [Call request])%list, true)
  end.

End Handlers.

(** The requests among the effects of a handler. *)
Definition calls (effects : list Effect) : list Request :=
  flat_map (fun e => match e with Call r => [r] | OnSave => [] end) effects.

End TonieEditor.

(* ================================================================== *)
(** ** The reconciliation engine (back end) *)

Module Reconcile.

(** Modelled from the spec: the ContentFile of section 3; the engine lives
    in the back end, whose sources are not at hand. *)
Record ContentFile := mkContentFile {
  cf_path             : string;
  cf_size             : Z;
  cf_track_boundaries : list Z;
  cf_content_id       : option Z;
  cf_content_hash     : option string
}.

(** Modelled from the spec: the CatalogRecord of section 3 (back end). *)
Record CatalogRecord := mkCatalogRecord {
  record_id      : Z;
  model_code     : string;
  content_ids    : list Z;
  content_hashes : list string;
  rec_series     : string;
  rec_episode    : string;
  rec_cover      : string;
  source_path    : option string;
  custom         : bool
}.

(** Modelled from the spec: path normalisation before comparison (sections
    4.5 and 6; back end): scheme prefix stripped, separators normalised,
    letter case ignored. *)
Definition lower (c : ascii) : ascii :=
  let n := nat_of_ascii c in
  if (Nat.leb 65 n && Nat.leb n 90)%bool then ascii_of_nat (n + 32) else c.

(** Modelled from the spec: one character of a normalised path (back
    end). *)
Definition normalize_char (c : ascii) : ascii :=
  if Ascii.eqb c "\"%char then "/"%char else lower c.

(** Modelled from the spec: mapping a function over the characters of a
    string (helper of the back-end path normalisation). *)
Fixpoint map_string (f : ascii -> ascii) (s : string) : string :=
  match s with
  | EmptyString => EmptyString
  | String c r => String (f c) (map_string f r)
  end.

(** Modelled from the spec: the normal form of a path or of a
    [lib://] reference (back end). *)
Definition normalize_path (p : string) : string :=
  let p := if startsWith p "lib://" then substring_from 6 p else p in
  map_string normalize_char p.

(** Modelled from the spec: strategy 1 of section 4.5, content-id match
    (back end). *)
Definition by_content_id (f : ContentFile) (r : CatalogRecord) : bool :=
  match cf_content_id f with
  | Some i => existsb (Z.eqb i) (content_ids r)
  | None => false
  end.

(** Modelled from the spec: strategy 2 of section 4.5, hash match (back
    end). *)
Definition by_hash (f : ContentFile) (r : CatalogRecord) : bool :=
  match cf_content_hash f with
  | Some h => existsb (String.eqb h) (content_hashes r)
  | None => false
  end.

(** Modelled from the spec: strategy 3 of section 4.5, source-path match of
    a custom record (back end). *)
Definition by_source_path (f : ContentFile) (r : CatalogRecord) : bool :=
  custom r &&
  match source_path r with
  | Some p => String.eqb (normalize_path p) (normalize_path (cf_path f))
  | None => false
  end.

(** Modelled from the spec: the ordered list of pure matchers of section 9
    (design notes), in the fixed priority order of section 4.5 (back end). *)
Definition strategies : list (ContentFile -> CatalogRecord -> bool) :=
  [by_content_id; by_hash; by_source_path].

(** Modelled from the spec: every record some strategy proposes for a
    file, strategies in priority order, records in catalog order (back
    end). *)
Definition candidates (catalog : list CatalogRecord) (f : ContentFile)
  : list CatalogRecord :=
  flat_map (fun matches => filter (matches f) catalog) strategies.

(** Modelled from the spec: two entries are the same record when they carry
    the same sequential record id (section 3; back end). *)
Definition same_record (a b : CatalogRecord) : bool :=
  record_id a =? record_id b.

(** Modelled from the spec: the LinkedView of section 3 together with the
    discarded candidates section 4.5 asks the engine to expose (back
    end). *)
Record LinkedView := mkLinkedView {
  file      : ContentFile;
  resolved  : option CatalogRecord;
  discarded : list CatalogRecord
}.

(** Modelled from the spec: resolution of one file, first match wins, the
    other candidates that name a different record are kept as discarded
    (section 4.5; back end). *)
Definition resolve (catalog : list CatalogRecord) (f : ContentFile)
  : LinkedView :=
  let cs := candidates catalog f in
  match cs with
  | [] => mkLinkedView f None []
  | r :: _ =>
      mkLinkedView f (Some r) (filter (fun c => negb (same_record c r)) cs)
  end.

(** Modelled from the spec: a file is linked when a record was resolved,
    orphaned otherwise (section 4.5; back end). *)
Definition is_linked (v : LinkedView) : bool :=
  match resolved v with Some _ => true | None => false end.

(** Modelled from the spec: the optional status filter of
    [scanAndReconcile] (section 6; back end). *)
Inductive FilterStatus := Linked | Orphaned.

(** Modelled from the spec: whether a view passes the status filter; no
    filter keeps everything (section 4.5; back end). *)
Definition passes (fs : option FilterStatus) (v : LinkedView) : bool :=
  match fs with
  | None => true
  | Some Linked => is_linked v
  | Some Orphaned => negb (is_linked v)
  end.

(** Modelled from the spec: the result of [scanAndReconcile] (section 6;
    back end). *)
Record Result := mkResult {
  items         : list LinkedView;
  totalCount    : nat;
  filteredCount : nat;
  linkedCount   : nat;
  orphanedCount : nat;
  hasNext       : bool;
  hasPrev       : bool
}.

(** Modelled from the spec: [scanAndReconcile(filterStatus?, skip, limit)]
    over the scanned files and the catalog: join, statistics over the full
    set, filter, then an offset/limit slice in scan order (sections 4.5 and
    6; back end). *)
Definition scanAndReconcile (files : list ContentFile)
           (catalog : list CatalogRecord) (filterStatus : option FilterStatus)
           (skip limit : nat) : Result :=
  let views := map (resolve catalog) files in
  let filtered := filter (passes filterStatus) views in
  {| items := firstn limit (skipn skip filtered);
     totalCount := length views;
     filteredCount := length filtered;
     linkedCount := length (filter is_linked views);
     orphanedCount := length (filter (fun v => negb (is_linked v)) views);
     hasNext := Nat.ltb (skip + limit) (length filtered);
     hasPrev := Nat.ltb 0 skip |}.

(** Modelled from the spec: the projection of a view onto the element the
    front end receives in [taf_files] (back-end API layer). *)
Definition taf_file_of (v : LinkedView) : Schema.TafFile :=
  {| Schema.name := cf_path (file v);
     Schema.path := cf_path (file v);
     Schema.size := cf_size (file v);
     Schema.audio_id := cf_content_id (file v);
     Schema.hash := cf_content_hash (file v);
     Schema.is_linked := is_linked v;
     Schema.linked_tonie :=
       option_map (fun r => Schema.mkLinkedTonie
                              (model_code r) (rec_series r) (rec_episode r)
                              (if custom r then "custom" else "official")
                              (rec_cover r))
                  (resolved v) |}.

(** Modelled from the spec: reading the status filter off the query
    parameter; anything but the two names means no filter (back-end API
    layer, [filter] parameter of the change log, 2.2.3). *)
Definition filter_of_param (v : option value) : option FilterStatus :=
  match v with
  | Some (Str "linked") => Some Linked
  | Some (Str "orphaned") => Some Orphaned
  | _ => None
  end.

(** Modelled from the spec: reading a natural number off a query parameter,
    with the default the endpoint uses when it is missing (back-end API
    layer). *)
Definition nat_of_param (v : option value) (d : nat) : nat :=
  match v with
  | Some (Num n) => Z.to_nat n
  | _ => d
  end.

(** Modelled from the spec: the [/taf-library/] endpoint: it runs
    [scanAndReconcile] on the query parameters and answers with the
    response schema of the change log, 2.2.4 (back-end API layer). *)
Definition endpoint (files : list ContentFile) (catalog : list CatalogRecord)
           (request : Client.Request)
  : Client.Settled Schema.TAFLibraryResponse :=
  let ps := Client.params request in
  let skip := nat_of_param (get "skip" ps) 0 in
  let limit := nat_of_param (get "limit" ps) 50 in
  let r := scanAndReconcile files catalog (filter_of_param (get "filter" ps))
                            skip limit in
  Client.Fulfilled
    {| Schema.success := Some true;
       Schema.error := None;
       Schema.taf_files := Some (map taf_file_of (items r));
       Schema.total_count := Some (Z.of_nat (totalCount r));
       Schema.linked_count := Some (Z.of_nat (linkedCount r));
       Schema.orphaned_count := Some (Z.of_nat (orphanedCount r));
       Schema.filtered_count := Some (Z.of_nat (filteredCount r));
       Schema.page := Some (Z.of_nat (skip / Nat.max limit 1) + 1);
       Schema.page_size := Some (Z.of_nat limit);
       Schema.has_next := Some (hasNext r);
       Schema.has_prev := Some (hasPrev r) |}.

End Reconcile.

(* ================================================================== *)
(** ** The filename heuristic parser (back end) *)

Module FilenameParser.

(** Modelled from the spec: the confidence flag of section 4.3; the parser
    lives in the back end, whose sources are not at hand. *)
Inductive Confidence := Normal | Low.

(** Modelled from the spec: the outcome of the parser, a series name and an
    episode label with the confidence flag (section 4.3; back end). *)
Record Parsed := mkParsed {
  series     : string;
  episode    : string;
  confidence : Confidence
}.

(** Modelled from the spec: "extension stripped" (section 4.3; back end);
    the content-file extension of this system is [.taf]. *)
Fixpoint strip_extension (s : string) : string :=
  match s with
  | EmptyString => EmptyString
  | String c r => if String.eqb s ".taf" then EmptyString
                  else String c (strip_extension r)
  end.

(** Modelled from the spec: "underscores replaced with spaces" (section
    4.3; back end). *)
Fixpoint replace_underscores (s : string) : string :=
  match s with
  | EmptyString => EmptyString
  | String c r =>
      String (if Ascii.eqb c "_"%char then " "%char else c)
             (replace_underscores r)
  end.

(** Modelled from the spec: the tokens of a name, that is its maximal runs
    of characters other than the space; [cur] is the token being read
    (section 4.3, "token-pattern grammars"; back end). *)
Fixpoint tokens (cur : string) (s : string) : list string :=
  match s with
  | EmptyString => if String.eqb cur "" then [] else [cur]
  | String c r =>
      if Ascii.eqb c " "%char
      then (if String.eqb cur "" then [] else [cur]) ++ tokens "" r
      else tokens (cur ++ String c "") r
  end%list.

(** Modelled from the spec: the dash-delimited segments of a token list;
    [cur] holds the tokens of the segment being read (section 4.3; back
    end). *)
Fixpoint segments (cur : list string) (toks : list string)
  : list (list string) :=
  match toks with
  | [] => [cur]
  | t :: r =>
      if String.eqb t "-" then cur :: segments [] r
      else segments (cur ++ [t]) r
  end%list.

(** Modelled from the spec: the text of a segment, its tokens separated by
    single spaces (back end). *)
Definition text (seg : list string) : string := String.concat " " seg.

(** Modelled from the spec: the dash-delimited segments of a file name,
    extension stripped and underscores read as spaces (section 4.3; back
    end). *)
Definition segment_texts (filename : string) : list string :=
  map text
      (segments [] (tokens "" (replace_underscores (strip_extension filename)))).

(** Modelled from the spec: the first grammar of section 4.3,
    [Author - Series - Category - Episode - Title]: series is segment 2,
    episode is segment 4.  The name section 8 gives as parsed by this
    grammar has the first four segments and no Title, so a name matches
    with or without its Title (back end). *)
Definition first_grammar (segs : list string) : option Parsed :=
  match segs with
  | [_author; series; _category; episode; _title] =>
      Some (mkParsed series episode Normal)
  | [_author; series; _category; episode] =>
      Some (mkParsed series episode Normal)
  | _ => None
  end.

(** Modelled from the spec: the second grammar of section 4.3,
    [Series - EpisodeNumber - Title], three segments: series is segment 1,
    episode is "Episode" followed by segment 2 (back end). *)
Definition second_grammar (segs : list string) : option Parsed :=
  match segs with
  | [series; number; _title] =>
      Some (mkParsed series ("Episode " ++ number) Normal)
  | _ => None
  end.


End FilenameParser.


(* ================================================================== *)
(** ** Image URLs: [imagesAPI] of the client and the cover of the views *)

Module Images.

(** [imagesAPI.getUrl(path)]: the full URL of an image, for [img src]. *)
Definition imagesAPI_getUrl (API_BASE path : string) : string :=
  let cleanPath :=
    if startsWith path "/" then substring_from 1 path else path in
  API_BASE ++ "/api/images/" ++ cleanPath.

(** [const coverUrl = coverPreview ? (...) : null;] of the tonie editor. *)
Definition coverUrl (API_BASE : string) (coverPreview : option string)
  : option string :=
  match coverPreview with
  | Some c =>
      if truthy c then
        Some (if startsWith c "http://" || startsWith c "https://"
              then c
              else imagesAPI_getUrl API_BASE c)
      else None
  | None => None
  end.

(** The [src] the RFID-tags view, the TAF library and the tag setup dialog
    compute in line for [linked_tonie.pic]. *)
Definition pic_src (API_URL pic : string) : string :=
  if startsWith pic "http://" || startsWith pic "https://"
  then pic
  else API_URL ++ "/api/images/"
               ++ (if startsWith pic "/" then substring_from 1 pic else pic).

End Images.

(* ================================================================== *)
(** ** [TonieEditor.jsx]: the handlers around the form *)

Module TonieEditorForm.
Import Client.

(** One element of [data.suggested_covers]. *)
Record Cover := mkCover {
  cover_url       : string;
  cover_thumbnail : option string;
  cover_title     : option string
}.

(** The body of a [/taf-metadata/parse] response. *)
Record ParseResponse := mkParseResponse {
  p_audio_id         : option Z;
  p_hash             : option string;
  p_series           : option string;
  p_episode          : option string;
  p_category         : option string;
  p_suggested_covers : option (list Cover);
  p_cover_confidence : option Z;
  p_search_term      : option string
}.

(** The cells of the editor: those of [TonieEditor.State] and the ones the
    handlers below write. *)
Record Editor := mkEditor {
  core              : TonieEditor.State;
  parsing           : bool;
  uploading         : bool;
  selectedTAF       : option string;
  suggestedCovers   : list Cover;
  coverConfidence   : Z;
  coverSearchTerm   : string;
  showCoverGallery  : bool;
  availableRFIDTags : list RFIDTagsView.Tag;
  loadingTags       : bool
}.

Definition on_core (f : TonieEditor.State -> TonieEditor.State) (e : Editor) :=
  mkEditor (f (core e)) (parsing e) (uploading e) (selectedTAF e)
           (suggestedCovers e) (coverConfidence e) (coverSearchTerm e)
           (showCoverGallery e) (availableRFIDTags e) (loadingTags e).
Definition setParsing v (e : Editor) :=
  mkEditor (core e) v (uploading e) (selectedTAF e) (suggestedCovers e)
           (coverConfidence e) (coverSearchTerm e) (showCoverGallery e)
           (availableRFIDTags e) (loadingTags e).
Definition setUploading v (e : Editor) :=
  mkEditor (core e) (parsing e) v (selectedTAF e) (suggestedCovers e)
           (coverConfidence e) (coverSearchTerm e) (showCoverGallery e)
           (availableRFIDTags e) (loadingTags e).
Definition setSelectedTAF v (e : Editor) :=
  mkEditor (core e) (parsing e) (uploading e) v (suggestedCovers e)
           (coverConfidence e) (coverSearchTerm e) (showCoverGallery e)
           (availableRFIDTags e) (loadingTags e).
Definition setSuggestedCovers v (e : Editor) :=
  mkEditor (core e) (parsing e) (uploading e) (selectedTAF e) v
           (coverConfidence e) (coverSearchTerm e) (showCoverGallery e)
           (availableRFIDTags e) (loadingTags e).
Definition setCoverConfidence v (e : Editor) :=
  mkEditor (core e) (parsing e) (uploading e) (selectedTAF e)
           (suggestedCovers e) v (coverSearchTerm e) (showCoverGallery e)
           (availableRFIDTags e) (loadingTags e).
Definition setCoverSearchTerm v (e : Editor) :=
  mkEditor (core e) (parsing e) (uploading e) (selectedTAF e)
           (suggestedCovers e) (coverConfidence e) v (showCoverGallery e)
           (availableRFIDTags e) (loadingTags e).
Definition setShowCoverGallery v (e : Editor) :=
  mkEditor (core e) (parsing e) (uploading e) (selectedTAF e)
           (suggestedCovers e) (coverConfidence e) (coverSearchTerm e) v
           (availableRFIDTags e) (loadingTags e).
Definition setAvailableRFIDTags v (e : Editor) :=
  mkEditor (core e) (parsing e) (uploading e) (selectedTAF e)
           (suggestedCovers e) (coverConfidence e) (coverSearchTerm e)
           (showCoverGallery e) v (loadingTags e).
Definition setLoadingTags v (e : Editor) :=
  mkEditor (core e) (parsing e) (uploading e) (selectedTAF e)
           (suggestedCovers e) (coverConfidence e) (coverSearchTerm e)
           (showCoverGallery e) (availableRFIDTags e) v.

(** The setters of the core cells that [TonieEditor] did not need. *)
Definition setCoverPreview v (s : TonieEditor.State) :=
  TonieEditor.mkState (TonieEditor.formData s) v
                      (TonieEditor.selectedCoverUrl s) (TonieEditor.error s)
                      (TonieEditor.showConfirmation s)
                      (TonieEditor.previewJson s).
Definition setSelectedCoverUrl v (s : TonieEditor.State) :=
  TonieEditor.mkState (TonieEditor.formData s) (TonieEditor.coverPreview s) v
                      (TonieEditor.error s) (TonieEditor.showConfirmation s)
                      (TonieEditor.previewJson s).

(** [setFormData(prev => ...)]: a functional update reads the store, not
    the closure. *)
Definition updateFormData (f : TonieEditor.FormData -> TonieEditor.FormData)
           (e : Editor) : Editor :=
  on_core (fun s => TonieEditor.setFormData (f (TonieEditor.formData s)) s) e.

(** [String(data.audio_id || '')] *)
Definition audio_id_text (a : option Z) : string :=
  match a with
  | Some n => if truthy n then show n else ""
  | None => ""
  end.

(** The object spread of [parseTAFMetadata]: what the answer does to the
    form. *)
Definition merge_parsed (data : ParseResponse) (prev : TonieEditor.FormData)
  : TonieEditor.FormData :=
  TonieEditor.mkFormData
    (TonieEditor.model prev)
    (audio_id_text (p_audio_id data))
    (p_hash data ||? "")
    (p_series data ||? TonieEditor.series prev)
    (p_episode data ||? TonieEditor.episodes prev)
    (TonieEditor.title prev)
    (match p_category data with
     | Some c => if String.eqb c "hörspiel" || String.eqb c "hoerspiel"
                 then "de-de" else TonieEditor.language prev
     | None => TonieEditor.language prev
     end)
    (TonieEditor.pic prev)
    (TonieEditor.tracks prev).

(** [data.cover_confidence >= 80]; a missing confidence compares false. *)
Definition high_confidence (c : option Z) : bool :=
  match c with Some n => 80 <=? n | None => false end.

Section Handlers.

Variable API_BASE : string.

(** [parseTAFMetadata(filename)] *)
Definition parseTAFMetadata (server : Request -> Settled ParseResponse)
           (filename : string) (e : Editor) : Editor * list Request :=
  let e := setParsing true e in
  let e := on_core (TonieEditor.setError None) e in
  let request := tafMetadataAPI_parse API_BASE (Str filename) in
  let e :=
    match through_interceptor (server request) with
    | Fulfilled data =>
        (* Pre-populate form fields *)
        let e := updateFormData (merge_parsed data) e in
        let e := setSelectedTAF (Some filename) e in
        (* Set cover suggestions *)
        match p_suggested_covers data with
        | Some (first :: rest) =>
            let e := setSuggestedCovers (first :: rest) e in
            let e := setCoverConfidence (p_cover_confidence data ||? 0) e in
            let e := setCoverSearchTerm (p_search_term data ||? "") e in
            (* Auto-select first cover if high confidence *)
            if high_confidence (p_cover_confidence data)
            then on_core (setSelectedCoverUrl (Some (cover_url first))) e
            else e
        | _ => e
        end
    | Rejected err =>
        on_core (TonieEditor.setError
                   (Some ("Failed to parse TAF: "
                            ++ TonieEditor.interpolate (display_message err))))
                e
    end in
  (setParsing false e, [request]).

(** [loadAvailableRFIDTags()] *)
Definition loadAvailableRFIDTags
           (server : Request -> Settled RFIDTagsView.RFIDTagsResponse)
           (e : Editor) : Editor * list Request :=
  let e := setLoadingTags true e in
  let request := rfidTagsAPI_getAll API_BASE [] in
  let e :=
    match through_interceptor (server request) with
    | Fulfilled data =>
        (* Filter to show only unconfigured and unassigned tags *)
        let availableTags :=
          filter (fun tag =>
                    String.eqb (RFIDTagsView.status tag) "unconfigured"
                    || String.eqb (RFIDTagsView.status tag) "unassigned")
                 (RFIDTagsView.tags data ||? []) in
        setAvailableRFIDTags availableTags e
    | Rejected _ => e (* Silent fail - tags are optional *)
    end in
  (setLoadingTags false e, [request]).

(** [loadNextModelNumber()]; the answer carries [next_model_number]. *)
Definition loadNextModelNumber (server : Request -> Settled string)
           (e : Editor) : Editor * list Request :=
  let request := rfidTagsAPI_getNextModelNumber API_BASE in
  let e :=
    match through_interceptor (server request) with
    | Fulfilled next_model_number =>
        updateFormData
          (fun prev =>
             TonieEditor.mkFormData
               next_model_number (TonieEditor.audio_id prev)
               (TonieEditor.hash prev) (TonieEditor.series prev)
               (TonieEditor.episodes prev) (TonieEditor.title prev)
               (TonieEditor.language prev) (TonieEditor.pic prev)
               (TonieEditor.tracks prev)) e
    | Rejected _ => e (* Silent fail - model will be auto-assigned *)
    end in
  (e, [request]).

(** The form with another picture. *)
Definition set_pic (p : string) (prev : TonieEditor.FormData) :=
  TonieEditor.mkFormData
    (TonieEditor.model prev) (TonieEditor.audio_id prev)
    (TonieEditor.hash prev) (TonieEditor.series prev)
    (TonieEditor.episodes prev) (TonieEditor.title prev)
    (TonieEditor.language prev) p (TonieEditor.tracks prev).

(** [handleSelectFromGallery(coverPath)] *)
Definition handleSelectFromGallery (coverPath : string) (e : Editor)
  : Editor :=
  let e := on_core (setCoverPreview (Some coverPath)) e in
  let e := updateFormData (set_pic coverPath) e in
  let e := on_core (setSelectedCoverUrl None) e in
  setShowCoverGallery false e.

(** [onDrop(acceptedFiles)]; a file is kept abstract as the multipart body
    it is sent in, the answer carries [path]. *)
Definition onDrop (server : Request -> Settled string)
           (acceptedFiles : list value) (e : Editor) : Editor * list Request :=
  match acceptedFiles with
  | [] => (e, [])
  | file :: _ =>
      let e := setUploading true e in
      let e := on_core (TonieEditor.setError None) e in
      let request := uploadsAPI_uploadCover API_BASE file in
      let e :=
        match through_interceptor (server request) with
        | Fulfilled path =>
            let e := updateFormData (set_pic path) e in
            let e := on_core (setCoverPreview (Some path)) e in
            (* Clear selected URL to show uploaded cover *)
            on_core (setSelectedCoverUrl None) e
        | Rejected err =>
            on_core (TonieEditor.setError
                       (Some ("Failed to upload cover: "
                                ++ TonieEditor.interpolate (message err))))
                    e
        end in
      (setUploading false e, [request])
  end.

End Handlers.

End TonieEditorForm.

(* ================================================================== *)
(** ** [frontend/src/components/TAFLibrary.jsx]: durations *)

Module TAFLibraryView.

(** [s.padStart(targetLength, '0')] *)
Definition padStart0 (targetLength : nat) (s : string) : string :=
  string_of_list_ascii (repeat "0"%char (targetLength - String.length s))
  ++ s.

(** [formatDuration(seconds)]: [Math.floor(seconds / 60)] is the floor
    quotient, [seconds % 60] the remainder with the sign of [seconds]. *)
Definition formatDuration (seconds : Z) : string :=
  let mins := seconds / 60 in
  let secs := Z.rem seconds 60 in
  show mins ++ ":" ++ padStart0 2 (show secs).

(** [getTotalDuration(trackSeconds)] *)
Definition getTotalDuration (trackSeconds : option (list Z))
  : option string :=
  match trackSeconds with
  | None => None
  | Some [] => None
  | Some (first :: rest) =>
      let total := last (first :: rest) 0 in
      Some (formatDuration total)
  end.

(** The two decimal digits of a number below 100: the shape a seconds
    field is compared with. *)
Definition two_digits (n : Z) : string :=
  String (ascii_of_nat (48 + Z.to_nat (n / 10)))
         (String (ascii_of_nat (48 + Z.to_nat (n mod 10))) "").

End TAFLibraryView.

(* ================================================================== *)
(** ** [frontend/src/components/ConfirmationDialog.jsx] *)

Module ConfirmationDialog.
Import Client.

Record State := mkState {
  isSaving : bool;
  error    : option string
}.

Definition setIsSaving v (s : State) := mkState v (error s).
Definition setError v (s : State) := mkState (isSaving s) v.

(** The callbacks of the parent, in the order they are called. *)
Inductive Effect := OnConfirm | OnClose.

(** [handleConfirm]; [onConfirm] is the outcome of awaiting the parent's
    handler: [None] when it resolves, the error when it throws. *)
Definition handleConfirm (onConfirm : option Error) (s : State)
  : State * list Effect :=
  let s := setIsSaving true s in
  let s := setError None s in
  match onConfirm with
  | None => (setIsSaving false s, [OnConfirm; OnClose])
  | Some err =>
      let s := setError
                 (Some ((userMessage err ||| message err)
                        ||? "Failed to save tonie")) s in
      (setIsSaving false s, [OnConfirm])
  end.

End ConfirmationDialog.

(* ================================================================== *)
(** ** [frontend/src/components/TagSetupDialog.jsx] *)

Module TagSetupDialog.
Import Client.

(** What [await fetch(...)] and [await response.json()] can yield. *)
Inductive Fetched (R : Type) : Type :=
| FetchRejected (err : Error)
| Response (ok : bool) (json : Settled R).
Arguments FetchRejected {R} err.
Arguments Response {R} ok json.

(** The truthiness of an untyped value. *)
Definition value_truthy (v : value) : bool :=
  match v with
  | Undefined | Null => false
  | Bool b => b
  | Num n => truthy n
  | Str s => truthy s
  | Arr _ | Obj _ => true
  end.

Record LinkedTonie := mkLinkedTonie {
  lt_model  : option string;
  lt_series : option string
}.

(** A TAF file as the dialog reads it. *)
Record TafFile := mkTafFile {
  name         : option string;
  path         : option string;
  audio_id     : value;
  hash         : value;
  linked_tonie : option LinkedTonie
}.

(** The [availableTag] prop. *)
Record Tag := mkTag {
  uid    : option string;
  box_id : option string
}.

(** [x ? (Array.isArray(x) ? x : [x]) : []] *)
Definition as_array (x : value) : value :=
  if value_truthy x
  then match x with Arr _ => x | _ => Arr [x] end
  else Arr [].

(** [s.split('/').pop()]: what follows the last slash; [cur] is the
    segment being read. *)
Fixpoint last_segment (cur : string) (s : string) : string :=
  match s with
  | EmptyString => cur
  | String c r =>
      if Ascii.eqb c "/"%char then last_segment "" r
      else last_segment (cur ++ String c "") r
  end.

(** [s.replace(pattern, '')] with a string pattern: the first occurrence
    is removed. *)
Fixpoint remove_first (pattern : string) (s : string) : string :=
  match s with
  | EmptyString => EmptyString
  | String c r =>
      if startsWith s pattern
      then substring_from (String.length pattern) s
      else String c (remove_first pattern r)
  end.

(** [s.replace(/_/g, ' ')] *)
Fixpoint underscores_to_spaces (s : string) : string :=
  match s with
  | EmptyString => EmptyString
  | String c r =>
      String (if Ascii.eqb c "_"%char then " "%char else c)
             (underscores_to_spaces r)
  end.

(** [tafFile.name ? tafFile.name.split('/').pop() : 'Unknown'] *)
Definition filename_of (tafFile : TafFile) : string :=
  match name tafFile with
  | Some n => if truthy n then last_segment "" n else "Unknown"
  | None => "Unknown"
  end.

(** [filename.replace('.taf', '').replace(/_/g, ' ')] *)
Definition display_text (filename : string) : string :=
  underscores_to_spaces (remove_first ".taf" filename).

Definition of_option (o : option string) : value :=
  match o with Some s => Str s | None => Undefined end.

(** The generic custom tonie created for a file that has none. *)
Definition newTonie (modelNumber : value) (tafFile : TafFile) : value :=
  let filename := filename_of tafFile in
  Obj [("model", modelNumber);
       ("audio_id", as_array (audio_id tafFile));
       ("hash", as_array (hash tafFile));
       ("title", Str (display_text filename));
       ("series", Str (display_text filename));
       ("episodes", Str (display_text filename));
       ("tracks", Arr []);
       ("release", Str "0");
       ("language", Str "de-de");
       ("category", Str "custom");
       ("pic", Str "")].

(** What the handler does to the outside world, in order.  The texts of
    the alerts go through the translation function; their parameters are
    kept. *)
Inductive Effect : Type :=
| Call (request : Request)
| AlertLinkSuccess (uid name : string)
| AlertLinkError (error : string)
| OnSuccess
| OnClose.

Section Dialog.

Variable API_BASE API_URL : string.
(** The three servers: next model number, tonie creation, tag link (whose
    failure body carries [detail]). *)
Variable model_server : Request -> Fetched (option string).
Variable create_server : Request -> Settled value.
Variable link_server : Request -> Fetched (option string).

(** [getNextModelNumber()] *)
Definition getNextModelNumber : value * list Effect :=
  let request := Fetch.request_of API_URL Fetch.TagSetupDialog_getNextModelNumber
  in
  match model_server request with
  | Response _ (Fulfilled next_model_number) =>
      (of_option next_model_number, [Call request])
  | Response _ (Rejected _) => (Str "900001", [Call request])
  | FetchRejected _ => (Str "900001", [Call request])
  end.

(** [tafFile.linked_tonie && tafFile.linked_tonie.model]: the model of the
    tonie the file is linked to, when there is one. *)
Definition existing_model (tafFile : TafFile) : option string :=
  match linked_tonie tafFile with
  | Some lt => if truthy (lt_model lt) then lt_model lt else None
  | None => None
  end.

(** The part of [handleLinkTag] that settles the model number: either the
    effects and the number, or the effects and the error thrown. *)
Definition model_number_for (tafFile : TafFile)
  : list Effect * (value + Error) :=
  match existing_model tafFile with
  | Some m =>
      (* Use existing tonie's model number *)
      ([], inl (Str m))
  | None =>
      (* Create a new generic custom tonie entry *)
      let '(modelNumber, fetched) := getNextModelNumber in
      let request := toniesAPI_create API_BASE
                                      (newTonie modelNumber tafFile) in
      match through_interceptor (create_server request) with
      | Fulfilled _ => (fetched ++ [Call request], inl modelNumber)
      | Rejected err => (fetched ++ [Call request], inr err)
      end
  end%list.

(** The request that links the tag. *)
Definition link_request (availableTag : Tag) (modelNumber : value)
           (tafFile : TafFile) : Request :=
  let tafPath := path tafFile ||| name tafFile in
  Fetch.request_of API_URL
    (Fetch.TagSetupDialog_link (of_option (uid availableTag))
                               (of_option (box_id availableTag))
                               modelNumber (of_option tafPath)).

(** [err?.message || 'Unknown error'] *)
Definition alert_text (err : Error) : string :=
  message err ||? "Unknown error".

(** [handleLinkTag(tafFile)]; the boolean is the [linking] cell. *)
Definition handleLinkTag (availableTag : option Tag) (tafFile : TafFile)
           (linking : bool) : bool * list Effect :=
  match availableTag with
  | None => (linking, [])
  | Some availableTag =>
      let catch (err : Error) := [AlertLinkError (alert_text err)] in
      let effects :=
        match model_number_for tafFile with
        | (before, inr err) => before ++ catch err
        | (before, inl modelNumber) =>
            let request := link_request availableTag modelNumber tafFile in
            before ++ Call request ::
            match link_server request with
            | FetchRejected err => catch err
            | Response false (Rejected err) => catch err
            | Response false (Fulfilled detail) =>
                catch (new_Error (detail ||? "Failed to link RFID tag"))
            | Response true _ =>
                let filename := filename_of tafFile in
                let displayName :=
                  match linked_tonie tafFile with
                  | Some lt => lt_series lt ||? filename
                  | None => filename
                  end in
                [AlertLinkSuccess (uid availableTag ||? "unknown") displayName;
                 OnSuccess; OnClose]
            end
        end in
      (false, effects)
  end%list.

End Dialog.

(** The requests among the effects. *)
Definition calls (effects : list Effect) : list Request :=
  flat_map (fun e => match e with Call r => [r] | _ => [] end) effects.

End TagSetupDialog.

(* ================================================================== *)
(** ** Predicates on texts used in the statements *)

Module Text.

(** Whether the character [c] occurs in [s]. *)
Fixpoint has_char (c : ascii) (s : string) : bool :=
  match s with
  | EmptyString => false
  | String d r => Ascii.eqb d c || has_char c r
  end.

End Text.

(* ================================================================== *)
(** ** Shapes of stores and files used in the statements *)

Module Shapes.

(** How a failed tag listing leaves the store: only the error and the
    loading flag are written. *)
Definition failed_with (text : option string) (s : RFIDTagsView.State)
  : RFIDTagsView.State :=
  RFIDTagsView.setLoading false (RFIDTagsView.setError text s).

(** A file counts as unlinked when it has no tonie, or a tonie without
    model. *)
Definition unlinked (tafFile : TagSetupDialog.TafFile) : Prop :=
  TagSetupDialog.linked_tonie tafFile = None
  \/ exists lt, TagSetupDialog.linked_tonie tafFile = Some lt
                /\ (TagSetupDialog.lt_model lt = None
                    \/ TagSetupDialog.lt_model lt = Some "").

End Shapes.

Import Shapes.

(* ================================================================== *)
(** ** [frontend/src/components/SettingsDialog.jsx]: saving *)

Module SettingsDialog.
Import Client.

Record TeddyCloud := mkTeddyCloud { tc_url : string; tc_timeout : Z }.
Record App := mkApp {
  auto_parse_taf   : bool;
  default_language : string;
  selected_box     : option string
}.
Record Config := mkConfig { teddycloud : TeddyCloud; app : App }.

(** [JSON.stringify(config)] *)
Definition json_of_config (c : Config) : value :=
  Obj [("teddycloud",
        Obj [("url", Str (tc_url (teddycloud c)));
             ("timeout", Num (tc_timeout (teddycloud c)))]);
       ("app",
        Obj [("auto_parse_taf", Bool (auto_parse_taf (app c)));
             ("default_language", Str (default_language (app c)));
             ("selected_box",
              match selected_box (app c) with
              | Some b => Str b
              | None => Null
              end)])].

Record State := mkState {
  config        : Config;
  initialConfig : option Config;
  saving        : bool;
  error         : option string
}.

Definition setSaving v (s : State) :=
  mkState (config s) (initialConfig s) v (error s).
Definition setError v (s : State) :=
  mkState (config s) (initialConfig s) (saving s) v.

Inductive Effect : Type :=
| Call (request : Request)
| Alert (text : string)
| OnClose
| OnConfigChange (selectedBox : option string) (defaultLanguage : string)
| ReloadAfter (ms : Z).

(** [initialConfig && (url differs || timeout differs)] *)
Definition backendSettingsChanged (st : State) : bool :=
  match initialConfig st with
  | Some initial =>
      negb (String.eqb (tc_url (teddycloud (config st)))
                       (tc_url (teddycloud initial)))
      || negb (tc_timeout (teddycloud (config st))
               =? tc_timeout (teddycloud initial))
  | None => false
  end.

Section Dialog.

Variable API_URL : string.
(** The server as [fetch] sees it, and whether the parent passed
    [onConfigChange]. *)
Variable server : Request -> TagSetupDialog.Fetched value.
Variable hasOnConfigChange : bool.

(** [handleSave] *)
Definition handleSave (st : State) (s : State) : State * list Effect :=
  let s := setSaving true s in
  let s := setError None s in
  let save :=
    Fetch.request_of API_URL
                     (Fetch.SettingsDialog_handleSave
                        (json_of_config (config st))) in
  let catch (err : Error) (s : State) :=
    setError (Some ("Failed to save: "
                      ++ TonieEditor.interpolate (message err))) s in
  let '(s, effects) :=
    match server save with
    | TagSetupDialog.FetchRejected err => (catch err s, [Call save])
    | TagSetupDialog.Response false _ =>
        (catch (new_Error "Failed to save configuration") s, [Call save])
    | TagSetupDialog.Response true _ =>
        if backendSettingsChanged st then
          (* Restart backend; whatever comes of it is ignored *)
          let restart :=
            Fetch.request_of API_URL Fetch.SettingsDialog_restart in
          (s, [Call save; Call restart;
               Alert "Settings saved! Backend is restarting...";
               OnClose; ReloadAfter 3000])
        else
          (* Only app settings changed - no restart needed *)
          (s, [Call save]
              ++ (if hasOnConfigChange
                  then [OnConfigChange (selected_box (app (config st)))
                                       (default_language (app (config st)))]
                  else [])
              ++ [OnClose])
    end%list in
  (setSaving false s, effects).

End Dialog.

End SettingsDialog.

(* ================================================================== *)
(** ** [frontend/src/pages/Dashboard.jsx]: the tonies list *)

Module Dashboard.
Import Client.

Definition DEFAULT_PAGE_SIZE : Z := 50.

(** The body of a [/tonies/] response. *)
Record ToniesResponse := mkToniesResponse {
  items       : option (list TonieEditor.Tonie);
  total_count : option Z;
  page        : option Z;
  page_size   : option Z;
  has_next    : option bool;
  has_prev    : option bool
}.

Record State := mkState {
  tonies           : list TonieEditor.Tonie;
  loading          : bool;
  error            : option string;
  toniesPage       : Z;
  toniesPageSize   : Z;
  toniesTotalCount : Z;
  toniesHasNext    : bool;
  toniesHasPrev    : bool;
  showEditor       : bool
}.

Definition setTonies v (s : State) :=
  mkState v (loading s) (error s) (toniesPage s) (toniesPageSize s)
          (toniesTotalCount s) (toniesHasNext s) (toniesHasPrev s)
          (showEditor s).
Definition setLoading v (s : State) :=
  mkState (tonies s) v (error s) (toniesPage s) (toniesPageSize s)
          (toniesTotalCount s) (toniesHasNext s) (toniesHasPrev s)
          (showEditor s).
Definition setError v (s : State) :=
  mkState (tonies s) (loading s) v (toniesPage s) (toniesPageSize s)
          (toniesTotalCount s) (toniesHasNext s) (toniesHasPrev s)
          (showEditor s).
Definition setToniesPage v (s : State) :=
  mkState (tonies s) (loading s) (error s) v (toniesPageSize s)
          (toniesTotalCount s) (toniesHasNext s) (toniesHasPrev s)
          (showEditor s).
Definition setToniesPageSize v (s : State) :=
  mkState (tonies s) (loading s) (error s) (toniesPage s) v
          (toniesTotalCount s) (toniesHasNext s) (toniesHasPrev s)
          (showEditor s).
Definition setToniesTotalCount v (s : State) :=
  mkState (tonies s) (loading s) (error s) (toniesPage s) (toniesPageSize s)
          v (toniesHasNext s) (toniesHasPrev s) (showEditor s).
Definition setToniesHasNext v (s : State) :=
  mkState (tonies s) (loading s) (error s) (toniesPage s) (toniesPageSize s)
          (toniesTotalCount s) v (toniesHasPrev s) (showEditor s).
Definition setToniesHasPrev v (s : State) :=
  mkState (tonies s) (loading s) (error s) (toniesPage s) (toniesPageSize s)
          (toniesTotalCount s) (toniesHasNext s) v (showEditor s).
Definition setShowEditor v (s : State) :=
  mkState (tonies s) (loading s) (error s) (toniesPage s) (toniesPageSize s)
          (toniesTotalCount s) (toniesHasNext s) (toniesHasPrev s) v.

Inductive Effect : Type :=
| Call (request : Request)
| Alert (text : string).

Section Page.

Variable API_BASE : string.
Variable list_server : Request -> Settled ToniesResponse.
Variable delete_server : Request -> Settled value.

(** [loadTonies(page = toniesPage, pageSize = toniesPageSize)] *)
Definition loadTonies (st : State) (page pageSize : option Z) (s : State)
  : State * list Effect :=
  let page := match page with Some p => p | None => toniesPage st end in
  let pageSize :=
    match pageSize with Some p => p | None => toniesPageSize st end in
  let s := setLoading true s in
  let skip := (page - 1) * pageSize in
  let request := toniesAPI_getAll API_BASE [Num skip; Num pageSize] in
  let s :=
    match through_interceptor (list_server request) with
    | Fulfilled data =>
        let s := setTonies (items data ||? []) s in
        let s := setToniesTotalCount (total_count data ||? 0) s in
        let s := setToniesPage (Dashboard.page data ||? 1) s in
        let s := setToniesPageSize (page_size data ||? DEFAULT_PAGE_SIZE) s in
        let s := setToniesHasNext (has_next data ||? false) s in
        let s := setToniesHasPrev (has_prev data ||? false) s in
        setError None s
    | Rejected err =>
        setError (Some ("Failed to load tonies: "
                          ++ TonieEditor.interpolate (message err))) s
    end in
  (setLoading false s, [Call request]).

Definition handleToniesPageChange (st : State) (newPage : Z) (s : State) :=
  let s := setToniesPage newPage s in
  loadTonies st (Some newPage) (Some (toniesPageSize st)) s.

Definition handleToniesPageSizeChange (st : State) (newPageSize : Z)
           (s : State) :=
  let s := setToniesPageSize newPageSize s in
  let s := setToniesPage 1 s in
  loadTonies st (Some 1) (Some newPageSize) s.

(** [handleDelete(tonie)]; [confirmed] is the answer to the [confirm]
    prompt. *)
Definition handleDelete (confirmed : bool) (st : State)
           (tonie : TonieEditor.Tonie) (s : State) : State * list Effect :=
  if negb confirmed then (s, [])
  else
    let request := toniesAPI_delete API_BASE (TonieEditor.no tonie) in
    match through_interceptor (delete_server request) with
    | Fulfilled _ =>
        let '(s, loaded) := loadTonies st None None s in
        (s, Call request :: loaded)
    | Rejected err =>
        (s, [Call request;
             Alert ("Failed to delete: "
                      ++ TonieEditor.interpolate (message err))])
    end.

End Page.

(** The requests among the effects. *)
Definition calls (effects : list Effect) : list Request :=
  flat_map (fun e => match e with Call r => [r] | Alert _ => [] end) effects.

End Dashboard.

(* ================================================================== *)
(** ** [frontend/src/context/TranslationContext.jsx] *)

Module Translation.

(** A locale file: texts nested in groups. *)
Inductive Translation : Type :=
| Text (s : string)
| Group (entries : list (string * Translation)).

Definition SUPPORTED_LANGUAGES : list string := ["en"; "de"].

(** [s.split(sep)[0]]: what precedes the first separator. *)
Fixpoint before_first (sep : ascii) (s : string) : string :=
  match s with
  | EmptyString => EmptyString
  | String c r =>
      if Ascii.eqb c sep then EmptyString else String c (before_first sep r)
  end.

(** [list.includes(x)] *)
Definition includes (l : list string) (x : string) : bool :=
  existsb (String.eqb x) l.

(** [key.split('.')]; [cur] is the piece being read. *)
Fixpoint split_dots (cur : string) (s : string) : list string :=
  match s with
  | EmptyString => [cur]
  | String c r =>
      if Ascii.eqb c "."%char then cur :: split_dots "" r
      else split_dots (cur ++ String c "") r
  end.

(** The names every object inherits from [Object.prototype].  Reading one
    of them off an object that has no such key of its own yields a function
    or the prototype, which is outside this model: the functions below
    answer [None] there. *)
Definition inherited_names : list string :=
  ["constructor"; "toString"; "toLocaleString"; "valueOf"; "hasOwnProperty";
   "isPrototypeOf"; "propertyIsEnumerable"; "__proto__"; "__defineGetter__";
   "__defineSetter__"; "__lookupGetter__"; "__lookupSetter__"].

(** Own property lookup, first match. *)
Fixpoint own {A} (k : string) (entries : list (string * A)) : option A :=
  match entries with
  | [] => None
  | (k', v) :: rest => if String.eqb k k' then Some v else own k rest
  end.

(** [object[k]]: the value, [undefined], or outside the model. *)
Inductive Read (A : Type) : Type :=
| Found (v : A)
| Missing
| Inherited.
Arguments Found {A} v.
Arguments Missing {A}.
Arguments Inherited {A}.

Definition read {A} (k : string) (entries : list (string * A)) : Read A :=
  match own k entries with
  | Some v => Found v
  | None => if includes inherited_names k then Inherited else Missing
  end.

(** [\w] *)
Definition is_word (c : ascii) : bool :=
  let n := nat_of_ascii c in
  (Nat.leb 48 n && Nat.leb n 57) || (Nat.leb 65 n && Nat.leb n 90)
  || (Nat.leb 97 n && Nat.leb n 122) || Nat.eqb n 95.

(** What the callback of [replace] returns for the placeholder [name]. *)
Definition substitute (replacements : list (string * string))
           (name : string) : option string :=
  match read name replacements with
  | Found v => Some v
  | Missing => Some ("{" ++ name ++ "}")
  | Inherited => None
  end.

(** [value.replace(/\{(\w+)\}/g, callback)], read from left to right.
    [pending] holds the word read since an opening brace, if one is open. *)
Fixpoint replace_placeholders (replacements : list (string * string))
         (pending : option string) (s : string) : option string :=
  match s with
  | EmptyString =>
      Some match pending with Some word => "{" ++ word | None => "" end
  | String c r =>
      match pending with
      | None =>
          if Ascii.eqb c "{"%char
          then replace_placeholders replacements (Some "") r
          else option_map (String c)
                          (replace_placeholders replacements None r)
      | Some word =>
          if is_word c then
            replace_placeholders replacements (Some (word ++ String c "")) r
          else if Ascii.eqb c "}"%char && negb (String.eqb word "") then
            match substitute replacements word,
                  replace_placeholders replacements None r with
            | Some v, Some rest => Some (v ++ rest)
            | _, _ => None
            end
          else
            option_map
              (fun rest => "{" ++ word ++ rest)
              (if Ascii.eqb c "{"%char
               then replace_placeholders replacements (Some "") r
               else option_map (String c)
                               (replace_placeholders replacements None r))
      end
  end.

(** What [t] returns: a text, or a whole group when the key stops at
    one. *)
Inductive Result : Type :=
| RText (s : string)
| RGroup (entries : list (string * Translation)).

(** The [for] loop of [t]: [value] is [None] for [undefined].  The result
    is [inl] for an early [return key], [inr] for the value reached. *)
Fixpoint walk (value : option Translation) (keys : list string)
  : option (unit + option Translation) :=
  match keys with
  | [] => Some (inr value)
  | k :: rest =>
      match value with
      | Some (Group entries) =>
          match read k entries with
          | Found v => walk (Some v) rest
          | Missing => walk None rest
          | Inherited => None
          end
      | _ => Some (inl tt) (* Key not found, return the key itself *)
      end
  end.

Section Provider.

(** [import en from '../locales/en.json'] and [de]. *)
Variable en de : Translation.
(** [String.prototype.toLowerCase] *)
Variable toLowerCase : string -> string.

Definition translations : list (string * Translation) :=
  [("en", en); ("de", de)].

(** [detectBrowserLanguage()]; the arguments are [navigator.language] and
    [navigator.userLanguage]. *)
Definition detectBrowserLanguage (language userLanguage : option string)
  : string :=
  let browserLang := (language ||| userLanguage) ||? "en" in
  let primaryLang := toLowerCase (before_first "-" browserLang) in
  if includes SUPPORTED_LANGUAGES primaryLang then primaryLang else "en".

(** The initial language: what is stored, else what is detected. *)
Definition initial_language (stored language userLanguage : option string)
  : string :=
  match stored with
  | Some s => if truthy s then s else detectBrowserLanguage language
                                                           userLanguage
  | None => detectBrowserLanguage language userLanguage
  end.

(** [t(key, replacements = {})] in the language [language]; [None] when
    an inherited property is read. *)
Definition t (language : string) (key : string)
           (replacements : list (string * string)) : option Result :=
  match read language translations with
  | Inherited => None
  | start =>
      let value := match start with Found v => Some v | _ => None end in
      match walk value (split_dots "" key) with
      | None => None
      | Some (inl _) => Some (RText key)
      | Some (inr (Some (Text s))) =>
          match replacements with
          | [] => Some (RText (if truthy s then s else key))
          | _ =>
              (* the replaced text is returned as it is, even when empty *)
              option_map RText (replace_placeholders replacements None s)
          end
      | Some (inr (Some (Group entries))) => Some (RGroup entries)
      | Some (inr None) => Some (RText key)
      end
  end.

End Provider.

End Translation.

(* ================================================================== *)
(** ** Sample data used by the examples below *)

Module Samples.

(** A response for a filter that matches nothing: five files in the
    library, all linked, the ["orphaned"] filter selected. *)
Definition no_match_response : Schema.TAFLibraryResponse :=
  {| Schema.success := Some true;
     Schema.error := None;
     Schema.taf_files := Some [];
     Schema.total_count := Some 5;
     Schema.linked_count := Some 5;
     Schema.orphaned_count := Some 0;
     Schema.filtered_count := Some 0;
     Schema.page := Some 1;
     Schema.page_size := Some 50;
     Schema.has_next := Some false;
     Schema.has_prev := Some false |}.

(** A catalog with a conflict: record 1 claims content id 42, record 2
    claims the hash of the same file. *)
Definition conflict_by_id : Reconcile.CatalogRecord :=
  Reconcile.mkCatalogRecord 1 "900001" [42] ["aa11"] "Heidi" "Folge 1" ""
                            None true.
Definition conflict_by_hash : Reconcile.CatalogRecord :=
  Reconcile.mkCatalogRecord 2 "900002" [7] ["c0ffee"] "Pumuckl" "Folge 3" ""
                            None true.
Definition conflict_file : Reconcile.ContentFile :=
  Reconcile.mkContentFile "heidi/folge1.taf" 1024 [0; 60] (Some 42)
                          (Some "c0ffee").

(** A listing with one system sound among three tags, the server counting
    all three. *)
Definition listing_with_system_sound : RFIDTagsView.RFIDTagsResponse :=
  {| RFIDTagsView.tags :=
       Some [RFIDTagsView.mkTag "E00403500A1B2C3D" (Some "900001") "assigned"
                                (Some "lib://heidi/folge1.taf") None;
             RFIDTagsView.mkTag "E00403500A1B2C3E" (Some "box-de-de-01-0001")
                                "assigned" None None;
             RFIDTagsView.mkTag "E00403500A1B2C3F" None "unconfigured"
                                None None];
     RFIDTagsView.total_count := Some 3;
     RFIDTagsView.unconfigured_count := Some 1;
     RFIDTagsView.assigned_count := Some 2;
     RFIDTagsView.page := Some 1;
     RFIDTagsView.page_size := Some 50;
     RFIDTagsView.has_next := Some false;
     RFIDTagsView.has_prev := Some false |}.

(** The first example of the specification: three dashes, four segments. *)
Definition margit : string :=
  "Margit_Auer_-_Die_Schule_der_magischen_Tiere_-_Hoerspiel_-_Folge_01".

(** A form without hash, and the same form filled in. *)
Definition form_without_hash : TonieEditor.FormData :=
  TonieEditor.mkFormData "900001" "1700000000" "" "Heidi" "Folge 1" "" "de-de"
                         "" [].
Definition form_filled : TonieEditor.FormData :=
  TonieEditor.mkFormData "900001" "1700000000" "c0ffee" "Heidi" "Folge 1" ""
                         "de-de" "" [].
Definition editor_with (f : TonieEditor.FormData) : TonieEditor.State :=
  TonieEditor.mkState f None None None false None.
Definition accepting_server (_ : Client.Request) : Client.Settled value :=
  Client.Fulfilled (Obj []).

(** A library of two files, one linked by content id, one orphaned. *)
Definition two_files : list Reconcile.ContentFile :=
  [conflict_file;
   Reconcile.mkContentFile "new/unknown.taf" 2048 [0] None None].

End Samples.

Import Samples.

(* ================================================================== *)
(** ** More sample data *)

Module MoreSamples.

(** A server that is down, and one TAF file. *)
Definition down : Client.Error := Client.new_Error "Network Error".
Definition heidi_taf : Schema.TafFile :=
  Schema.mkTafFile "heidi/folge1.taf" "heidi/folge1.taf" 1024 (Some 42)
                   (Some "c0ffee") false None.

(** The provider after a first successful load of one file. *)
Definition loaded : TAFLibraryContext.State :=
  TAFLibraryContext.mkState [heidi_taf] (TAFLibraryContext.mkStats 1 0 1)
                            false None (Some 1700000000000) 1 50 1 false false
                            "all".

(** An answer that reports an error of the back end. *)
Definition library_unreachable : Schema.TAFLibraryResponse :=
  Schema.mkTAFLibraryResponse (Some false) (Some "Library not reachable")
                              None None None None None None None None None.

(** A tag listing without counts. *)
Definition listing_without_counts : RFIDTagsView.RFIDTagsResponse :=
  RFIDTagsView.mkRFIDTagsResponse
    (RFIDTagsView.tags Samples.listing_with_system_sound)
    None None None None None None None.

(** The view showing the tab "assigned". *)
Definition assigned_tab : RFIDTagsView.State :=
  RFIDTagsView.setFilter
    "assigned"
    (RFIDTagsView.store_response Samples.listing_with_system_sound
                                 RFIDTagsView.initial).

(** An editor with a cover chosen among the search results. *)
Definition editor_with_selection : TonieEditor.State :=
  TonieEditor.mkState Samples.form_filled None
                      (Some "https://example.org/heidi.jpg") None true None.
Definition edited_tonie : TonieEditor.Tonie :=
  TonieEditor.mkTonie "7" (Some "900001") ["1700000000"] ["c0ffee"]
                      (Some "Heidi") (Some "Folge 1") None (Some "de-de")
                      None None.
Definition download_answers (_ : Client.Request) : Client.Settled value :=
  Client.Fulfilled (Obj [("path", Str "/covers/heidi.jpg")]).
Definition rejecting_server (_ : Client.Request) : Client.Settled value :=
  Client.Rejected down.

(** A blank editor and a parse answer with two covers. *)
Definition blank_editor : TonieEditorForm.Editor :=
  TonieEditorForm.mkEditor (TonieEditor.initial None) false false None [] 0 ""
                           false [] false.
Definition parsed_heidi : TonieEditorForm.ParseResponse :=
  TonieEditorForm.mkParseResponse
    (Some 1700000000) (Some "c0ffee") (Some "Heidi") None (Some "hoerspiel")
    (Some [TonieEditorForm.mkCover "https://example.org/a.jpg" None None;
           TonieEditorForm.mkCover "https://example.org/b.jpg" None None])
    (Some 90) (Some "Heidi").

(** A tag, a file that has a tonie and a file that has none. *)
Definition free_tag : TagSetupDialog.Tag :=
  TagSetupDialog.mkTag (Some "E00403500A1B2C3F") (Some "box1").
Definition linked_file : TagSetupDialog.TafFile :=
  TagSetupDialog.mkTafFile
    (Some "heidi/Heidi_Folge_01.taf") None (Num 42) (Str "c0ffee")
    (Some (TagSetupDialog.mkLinkedTonie (Some "900001") (Some "Heidi"))).
Definition new_file : TagSetupDialog.TafFile :=
  TagSetupDialog.mkTafFile (Some "neu/Pumuckl_03.taf") None (Num 43) Undefined
                           None.
Definition model_answers (_ : Client.Request)
  : TagSetupDialog.Fetched (option string) :=
  TagSetupDialog.Response true (Client.Fulfilled (Some "900002")).
Definition link_accepts (_ : Client.Request)
  : TagSetupDialog.Fetched (option string) :=
  TagSetupDialog.Response true (Client.Fulfilled None).

(** A back end that answers the question for the next model number with an
    HTTP error whose body has no number, and a link response that is not ok
    and whose body is not JSON. *)
Definition model_refused (_ : Client.Request)
  : TagSetupDialog.Fetched (option string) :=
  TagSetupDialog.Response false (Client.Fulfilled None).
Definition unreadable : Client.Error :=
  Client.new_Error "Unexpected token < in JSON at position 0".
Definition link_unreadable (_ : Client.Request)
  : TagSetupDialog.Fetched (option string) :=
  TagSetupDialog.Response false (Client.Rejected unreadable).

(** Settings with the URL edited after loading. *)
Definition loaded_config : SettingsDialog.Config :=
  SettingsDialog.mkConfig (SettingsDialog.mkTeddyCloud "http://docker" 30)
                          (SettingsDialog.mkApp true "de-de" None).
Definition edited_settings : SettingsDialog.State :=
  SettingsDialog.mkState
    (SettingsDialog.mkConfig
       (SettingsDialog.mkTeddyCloud "http://teddycloud.local" 30)
       (SettingsDialog.mkApp true "de-de" None))
    (Some loaded_config) false None.
Definition save_accepted (_ : Client.Request)
  : TagSetupDialog.Fetched value :=
  TagSetupDialog.Response true (Client.Fulfilled (Obj [])).
Definition save_refused (_ : Client.Request)
  : TagSetupDialog.Fetched value :=
  TagSetupDialog.Response false (Client.Fulfilled (Obj [])).

(** The dashboard on its first page, and a small English locale. *)
Definition dashboard : Dashboard.State :=
  Dashboard.mkState [edited_tonie] false None 1 50 1 false false false.
Definition tonies_down (_ : Client.Request)
  : Client.Settled Dashboard.ToniesResponse := Client.Rejected down.
Definition english : Translation.Translation :=
  Translation.Group
    [("app", Translation.Group [("title", Translation.Text "Custom Tags")]);
     ("empty", Translation.Text "");
     ("stepOf", Translation.Text "Step {current} of {total}")].

End MoreSamples.

Import MoreSamples.

(* ================================================================== *)
(** * Properties *)

(** ** JavaScript fragment *)

Lemma or_default_Z_some (n : Z) : Some n ||? 0 = n.
Proof.
  unfold or_default, truthy, truthy_Z.
  destruct (Z.eqb_spec n 0) as [-> | _]; reflexivity.
Qed.

Lemma or_default_nonzero (n d : Z) : n <> 0 -> Some n ||? d = n.
Proof.
  intros Hn. unfold or_default, truthy, truthy_Z.
  destruct (Z.eqb_spec n 0); [contradiction | reflexivity].
Qed.

Lemma truthy_string_nonempty (s : string) : truthy s = true <-> s <> "".
Proof.
  unfold truthy, truthy_string.
  destruct (String.eqb_spec s ""); split; intros; try easy.
Qed.

(** ** The TAF library provider *)

Section TAFLibraryFacts.

Import Client TAFLibraryContext.

Variable API_BASE : string.
Variable server : Request -> Settled Schema.TAFLibraryResponse.
Variable now : Z.

(** A forced load always sends exactly the request built by
    [tafLibraryAPI.getAll] from the three actual arguments. *)
Lemma loadTafFiles_forced_request st p ps f s :
  snd (loadTafFiles API_BASE server now st (Some true) (Some p) (Some ps)
                    (Some f) s)
  = [tafLibraryAPI_getAll API_BASE [Num ((p - 1) * ps); Num ps; Str f]].
Proof.
  unfold loadTafFiles.
  rewrite andb_false_r. reflexivity.
Qed.




(** On a server that answers every request with a response that is not an
    API error, a load that gets past the guard stores that response. *)
Lemma loadTafFiles_store st force newPage newPageSize newFilter s :
  (forall request, exists data,
        server request = Fulfilled data /\ is_api_error data = false) ->
  let r := loadTafFiles API_BASE server now st force newPage newPageSize
                        newFilter s in
  r = (s, [])
  \/ exists data request,
      server request = Fulfilled data /\ is_api_error data = false
      /\ fst r = setLoading false
                   (store_response now data
                                   (setError None (setLoading true s))).
Proof.
  intros Hserver. cbv zeta. unfold loadTafFiles.
  match goal with |- context [if ?c then _ else _] => destruct c end.
  - now left.
  - right. cbv zeta.
    match goal with
    | |- context [through_interceptor (server ?req)] =>
        destruct (Hserver req) as (data & Hdata & Hok);
        exists data, req; rewrite Hdata
    end.
    cbn. rewrite Hok. now repeat split.
Qed.

(** The pagination total follows the filtered count as long as that count
    is not zero. *)
Lemma store_response_totalCount_nonzero data s n :
  Schema.filtered_count data = Some n -> n <> 0 ->
  totalCount (store_response now data s) = n.
Proof.
  intros Hf Hn. cbn. rewrite Hf.
  unfold Js.or, truthy, truthy_option, truthy, truthy_Z.
  destruct (Z.eqb_spec n 0); [contradiction |].
  cbn. now apply or_default_nonzero.
Qed.

(** The summary statistics are the three unfiltered counts of the
    response. *)
Lemma store_response_stats data s :
  stats (store_response now data s)
  = {| total := Schema.total_count data ||? 0;
       linked := Schema.linked_count data ||? 0;
       orphaned := Schema.orphaned_count data ||? 0 |}.
Proof. reflexivity. Qed.

(** Numeric counts of a response that add up are stored as statistics that
    add up. *)
Lemma store_response_keeps_partition data s t l o :
  Schema.total_count data = Some t ->
  Schema.linked_count data = Some l ->
  Schema.orphaned_count data = Some o ->
  l + o = t ->
  let st := stats (store_response now data s) in
  linked st + orphaned st = total st.
Proof.
  intros Ht Hl Ho Hsum. cbv zeta.
  rewrite store_response_stats, Ht, Hl, Ho.
  cbn [total linked orphaned]. now rewrite !or_default_Z_some.
Qed.

End TAFLibraryFacts.

(** C2 (evaluation of the code).  The claim says the pagination total is
    the filtered count of the response, never the unfiltered total, also
    when the filtered count is 0.  The code computes
    [filtered_count || total_count || 0], and [0] is falsy: on a response
    with filtered count 0 and total count 5 the pagination total stored is
    5, the value of the summary statistic, not 0. *)
Theorem store_response_zero_filtered_count now s :
  Schema.filtered_count no_match_response = Some 0 /\
  TAFLibraryContext.totalCount
    (TAFLibraryContext.store_response now no_match_response s) = 5 /\
  TAFLibraryContext.total
    (TAFLibraryContext.stats
       (TAFLibraryContext.store_response now no_match_response s)) = 5.
Proof. repeat split. Qed.

(** ** The reconciliation engine *)

Section ReconcileFacts.

Import Reconcile.

(** A boolean test splits a list in two parts whose sizes add up. *)
Lemma filter_length_split {A} (p : A -> bool) (l : list A) :
  (length (filter p l) + length (filter (fun a => negb (p a)) l)
   = length l)%nat.
Proof.
  induction l as [| a l IH]; cbn; [reflexivity |].
  destruct (p a); cbn; lia.
Qed.

(** No view is counted on both sides. *)
Lemma linked_orphaned_exclusive (views : list LinkedView) (v : LinkedView) :
  In v (filter is_linked views) ->
  ~ In v (filter (fun v => negb (is_linked v)) views).
Proof.
  rewrite !filter_In. intros [_ H1] [_ H2].
  rewrite H1 in H2. discriminate.
Qed.

Lemma scanAndReconcile_counts files catalog fs skip limit :
  let r := scanAndReconcile files catalog fs skip limit in
  (linkedCount r + orphanedCount r = totalCount r)%nat.
Proof. cbn. apply filter_length_split. Qed.

(** The statistics do not depend on the filter or on the page asked for. *)
Lemma scanAndReconcile_stats_stable files catalog fs skip limit :
  let r := scanAndReconcile files catalog fs skip limit in
  let r0 := scanAndReconcile files catalog None 0 0 in
  totalCount r = totalCount r0 /\ linkedCount r = linkedCount r0
  /\ orphanedCount r = orphanedCount r0.
Proof. now cbn. Qed.

(** The endpoint always answers, and its counts add up. *)
Lemma endpoint_answer files catalog request :
  exists data,
    endpoint files catalog request = Client.Fulfilled data
    /\ TAFLibraryContext.is_api_error data = false
    /\ exists t l o,
        Schema.total_count data = Some t
        /\ Schema.linked_count data = Some l
        /\ Schema.orphaned_count data = Some o
        /\ l + o = t.
Proof.
  unfold endpoint. eexists. split; [reflexivity |].
  split; [reflexivity |].
  eexists _, _, _. repeat split.
  cbn [linkedCount orphanedCount totalCount scanAndReconcile].
  rewrite <- Nat2Z.inj_add. f_equal. apply filter_length_split.
Qed.

(** C3.  For every set of content files and every catalog, whatever the
    filter and the page, the result of the reconciliation satisfies
    linkedCount + orphanedCount = totalCount, no file being counted both as
    linked and as orphaned; and whenever the provider loads a page from the
    engine (any call of [loadTafFiles] that is not stopped at its guard,
    which leaves the store alone), the statistics it stores satisfy the
    same equation. *)
Theorem linked_plus_orphaned_is_total
        (files : list ContentFile) (catalog : list CatalogRecord) :
  (forall fs skip limit,
      let r := scanAndReconcile files catalog fs skip limit in
      (linkedCount r + orphanedCount r = totalCount r)%nat)
  /\ (forall v,
         In v (filter is_linked (map (resolve catalog) files)) ->
         ~ In v (filter (fun v => negb (is_linked v))
                        (map (resolve catalog) files)))
  /\ (forall API_BASE now st force newPage newPageSize newFilter s,
         let r := TAFLibraryContext.loadTafFiles
                    API_BASE (endpoint files catalog) now st force newPage
                    newPageSize newFilter s in
         r = (s, [])
         \/ TAFLibraryContext.linked (TAFLibraryContext.stats (fst r))
            + TAFLibraryContext.orphaned (TAFLibraryContext.stats (fst r))
            = TAFLibraryContext.total (TAFLibraryContext.stats (fst r))).
Proof.
  split; [| split].
  - intros. apply scanAndReconcile_counts.
  - intros v. apply linked_orphaned_exclusive.
  - intros API_BASE now st force newPage newPageSize newFilter s.
    destruct (loadTafFiles_store
                API_BASE (endpoint files catalog) now st force newPage
                newPageSize newFilter s) as [Hguard | Hload].
    + intros request.
      destruct (endpoint_answer files catalog request) as (d & Hd & Hok & _).
      now exists d.
    + now left.
    + right. destruct Hload as (data & request & Hdata & _ & ->).
      destruct (endpoint_answer files catalog request)
        as (d & Hd & _ & t & l & o & Ht & Hl & Ho & Hsum).
      rewrite Hd in Hdata. injection Hdata as <-.
      change (TAFLibraryContext.stats
                (TAFLibraryContext.setLoading false ?x))
        with (TAFLibraryContext.stats x).
      exact (store_response_keeps_partition now d _ t l o Ht Hl Ho Hsum).
Qed.

(** The candidates start with the content-id matches. *)
Lemma candidates_unfold catalog f :
  candidates catalog f
  = (filter (by_content_id f) catalog
     ++ filter (by_hash f) catalog
     ++ filter (by_source_path f) catalog)%list.
Proof.
  unfold candidates, strategies. cbn. now rewrite app_nil_r.
Qed.

(** Whenever some record matches by content id, the resolved record is the
    first such record of the catalog. *)
Lemma resolve_content_id_first catalog f r rest :
  filter (by_content_id f) catalog = r :: rest ->
  resolved (resolve catalog f) = Some r.
Proof.
  intros H. unfold resolve. rewrite candidates_unfold, H. reflexivity.
Qed.

(** Every candidate that is not the resolved record is reported. *)
Lemma discarded_complete catalog f r c :
  resolved (resolve catalog f) = Some r ->
  In c (candidates catalog f) ->
  record_id c <> record_id r ->
  In c (discarded (resolve catalog f)).
Proof.
  unfold resolve. intros Hres Hin Hne.
  destruct (candidates catalog f) as [| r' cs] eqn:E; [contradiction |].
  cbn in Hres. injection Hres as ->.
  cbn [discarded]. apply filter_In. split; [exact Hin |].
  unfold same_record. apply negb_true_iff. now apply Z.eqb_neq.
Qed.

(** C4.  Priority law: if a content file matches one catalog record by
    content id and a different record by content hash, the resolved record
    of the returned view is the content-id match and the hash-matched
    record is among the discarded candidates of that view. *)
Theorem content_id_match_wins
        (catalog : list CatalogRecord) (f : ContentFile)
        (r1 r2 : CatalogRecord) :
  In r1 catalog -> by_content_id f r1 = true ->
  (forall r, In r catalog -> by_content_id f r = true -> r = r1) ->
  In r2 catalog -> by_hash f r2 = true ->
  record_id r2 <> record_id r1 ->
  resolved (resolve catalog f) = Some r1
  /\ In r2 (discarded (resolve catalog f)).
Proof.
  intros Hin1 Hid1 Hone Hin2 Hh2 Hne.
  assert (Hres : resolved (resolve catalog f) = Some r1).
  { destruct (filter (by_content_id f) catalog) as [| r rest] eqn:E.
    - assert (Hr1 : In r1 (filter (by_content_id f) catalog))
        by (apply filter_In; auto).
      rewrite E in Hr1. contradiction.
    - assert (Hr : In r (filter (by_content_id f) catalog))
        by (rewrite E; now left).
      apply filter_In in Hr as [Hr Hm].
      rewrite (resolve_content_id_first _ _ _ _ E).
      f_equal. now apply Hone. }
  split; [exact Hres |].
  apply discarded_complete with (r := r1); [exact Hres | | exact Hne].
  rewrite candidates_unfold.
  apply in_or_app. right. apply in_or_app. left.
  apply filter_In. auto.
Qed.

(** What the missing parameter means for the user: against the engine, the
    provider asked for the orphaned files of a library with one linked and
    one orphaned file still lists both, although the engine itself, given
    the filter, returns the orphaned one only. *)
Example orphaned_filter_lists_linked_files :
  let s := fst (TAFLibraryContext.setFilter
                  "" (endpoint two_files [conflict_by_id]) 0
                  TAFLibraryContext.initial "orphaned"
                  TAFLibraryContext.initial) in
  map Schema.is_linked (TAFLibraryContext.tafFiles s) = [true; false]
  /\ TAFLibraryContext.filter s = "orphaned"
  /\ map is_linked
         (items (scanAndReconcile two_files [conflict_by_id] (Some Orphaned)
                                  0 50)) = [false].
Proof. repeat split. Qed.

End ReconcileFacts.

Lemma linked_plus_orphaned_is_total_witness :
  (let r := Reconcile.scanAndReconcile two_files [conflict_by_id]
                                       (Some Reconcile.Orphaned) 0 50 in
   (Reconcile.linkedCount r + Reconcile.orphanedCount r
    = Reconcile.totalCount r)%nat)
  /\ ~ In (Reconcile.resolve [conflict_by_id] conflict_file)
          (filter (fun v => negb (Reconcile.is_linked v))
                  (map (Reconcile.resolve [conflict_by_id]) two_files)).
Proof.
  destruct (linked_plus_orphaned_is_total two_files [conflict_by_id])
    as (Hcount & Hexcl & _).
  split.
  - apply Hcount.
  - apply Hexcl. left. reflexivity.
Defined.

Lemma content_id_match_wins_witness :
  Reconcile.resolved
    (Reconcile.resolve [conflict_by_hash; conflict_by_id] conflict_file)
  = Some conflict_by_id
  /\ In conflict_by_hash
        (Reconcile.discarded
           (Reconcile.resolve [conflict_by_hash; conflict_by_id]
                              conflict_file)).
Proof.
  apply (content_id_match_wins [conflict_by_hash; conflict_by_id]
                               conflict_file conflict_by_id conflict_by_hash).
  - right; left; reflexivity.
  - reflexivity.
  - intros r [<- | [<- | []]]; [discriminate | reflexivity].
  - left; reflexivity.
  - reflexivity.
  - discriminate.
Defined.

(** ** Page-size changes *)

Section PageSizeFacts.

Import Client.

Variables API_BASE API_URL : string.
Variable taf_server : Request -> Settled Schema.TAFLibraryResponse.
Variable rfid_server : Request -> RFIDTagsView.Fetched.
Variable now : Z.

Lemma changePageSize_request st newPageSize s :
  snd (TAFLibraryContext.changePageSize API_BASE taf_server now st
                                        newPageSize s)
  = [tafLibraryAPI_getAll API_BASE [Num 0; Num newPageSize]].
Proof.
  unfold TAFLibraryContext.changePageSize.
  rewrite loadTafFiles_forced_request. reflexivity.
Qed.

Lemma changePageSize_v1_request st newPageSize s :
  snd (TAFLibraryContextV1.changePageSize API_BASE taf_server now st
                                          newPageSize s)
  = [tafLibraryAPI_getAll API_BASE [Num 0; Num newPageSize]].
Proof.
  unfold TAFLibraryContextV1.changePageSize, TAFLibraryContextV1.loadTafFiles.
  rewrite andb_false_r. reflexivity.
Qed.

Lemma handlePageSizeChange_request st newPageSize s :
  snd (RFIDTagsView.handlePageSizeChange API_URL rfid_server st
                                         newPageSize s)
  = [Fetch.request_of API_URL (Fetch.RFIDTagsView_loadRFIDTags 0 newPageSize)].
Proof. reflexivity. Qed.

(** C5.  Every change of page size, in the TAF-library provider (both
    revisions of [changePageSize]) and in the RFID-tags view
    ([handlePageSizeChange]), sends exactly one request, and that request
    asks for the first page: its [skip] is 0 and its [limit] is the new
    page size, whatever page was current before. *)
Theorem page_size_change_requests_first_page
        (st : TAFLibraryContext.State) (rst : RFIDTagsView.State)
        (newPageSize : Z) (s : TAFLibraryContext.State)
        (rs : RFIDTagsView.State) :
  (exists request,
      snd (TAFLibraryContext.changePageSize API_BASE taf_server now st
                                            newPageSize s) = [request]
      /\ get "skip" (params request) = Some (Num 0)
      /\ get "limit" (params request) = Some (Num newPageSize))
  /\ (exists request,
         snd (TAFLibraryContextV1.changePageSize API_BASE taf_server now st
                                                 newPageSize s) = [request]
         /\ get "skip" (params request) = Some (Num 0)
         /\ get "limit" (params request) = Some (Num newPageSize))
  /\ (exists request,
         snd (RFIDTagsView.handlePageSizeChange API_URL rfid_server rst
                                                newPageSize rs) = [request]
         /\ url request
            = API_URL ++ "/api/rfid-tags/?skip=0&limit=" ++ show newPageSize).
Proof.
  split; [| split].
  - eexists. split; [apply changePageSize_request |]. now split.
  - eexists. split; [apply changePageSize_v1_request |]. now split.
  - eexists. split; [apply handlePageSizeChange_request |].
    reflexivity.
Qed.

End PageSizeFacts.

(** ** The RFID tags view *)

Section RFIDTagsFacts.

Import Client RFIDTagsView.

Lemma substring_from_append (p s : string) :
  substring_from (String.length p) (p ++ s) = s.
Proof.
  unfold substring_from.
  induction p as [| c p IH]; cbn.
  - rewrite Nat.sub_0_r.
    induction s as [| c s IHs]; cbn; [reflexivity | now rewrite IHs].
  - exact IH.
Qed.

Lemma startsWith_append (p s : string) : startsWith (p ++ s) p = true.
Proof.
  unfold startsWith.
  induction p as [| c p IH]; cbn.
  - now destruct s.
  - destruct (ascii_dec c c); [exact IH | contradiction].
Qed.

(** C6.  For every reference of the form [lib://<relative path>],
    [getTAFFileName] returns exactly the relative path; a reference that is
    present (a non-empty string) and does not start with [lib://] is
    returned unchanged; a missing source ([null] or [undefined], and also
    the empty string, which the guard treats alike) yields [null]. *)
Theorem getTAFFileName_strips_scheme (relative source : string) :
  getTAFFileName (Some ("lib://" ++ relative)) = Some relative
  /\ (source <> "" -> startsWith source "lib://" = false ->
      getTAFFileName (Some source) = Some source)
  /\ getTAFFileName None = None
  /\ getTAFFileName (Some "") = None.
Proof.
  split; [| split; [| split]]; try reflexivity.
  - unfold getTAFFileName.
    change (truthy (Some ("lib://" ++ relative))) with true.
    cbn [negb]. rewrite startsWith_append.
    f_equal. exact (substring_from_append "lib://" relative).
  - intros Hne Hprefix. unfold getTAFFileName.
    change (truthy (Some source)) with (truthy source).
    apply truthy_string_nonempty in Hne. rewrite Hne, Hprefix. reflexivity.
Qed.

Lemma getTAFFileName_strips_scheme_witness :
  getTAFFileName (Some "lib://heidi/folge1.taf") = Some "heidi/folge1.taf"
  /\ getTAFFileName (Some "heidi/folge1.taf") = Some "heidi/folge1.taf"
  /\ getTAFFileName None = None.
Proof.
  pose proof (getTAFFileName_strips_scheme
                "heidi/folge1.taf" "heidi/folge1.taf") as (H1 & H2 & H3 & _).
  split; [exact H1 | split; [| exact H3]].
  apply H2; [discriminate | reflexivity].
Defined.

Lemma store_response_stats_rfid data s :
  st_stats (store_response data s)
  = let shown := filter not_system_sound (tags data ||? []) in
    {| total := total_count data ||? Z.of_nat (length shown);
       unconfigured :=
         unconfigured_count data ||? count_status "unconfigured" shown;
       assigned := assigned_count data ||? count_status "assigned" shown |}.
Proof. reflexivity. Qed.

(** What [count || fallback] amounts to on an optional number. *)
Lemma or_default_cases (count : option Z) (fallback : Z) :
  count ||? fallback
  = match count with
    | Some n => if n =? 0 then fallback else n
    | None => fallback
    end.
Proof.
  destruct count as [n |]; [| reflexivity].
  unfold or_default, truthy, truthy_Z. now destruct (n =? 0).
Qed.

Variable API_URL : string.

(** C9.  For every RFID-tag listing response [data]: the stored tags are
    those of the response, in their order, whose model (the empty text when
    missing) does not start with [box-de-de-01-], so no such tag is
    displayed under any tab; the assigned and unconfigured statistics are
    the server's counts, and only when the server's count is absent or zero
    the number of remaining tags whose status is "assigned" (resp.
    "unconfigured"); the displayed total is the server's total count
    whenever it is nonzero (independently of how many tags were excluded),
    and the number of remaining tags otherwise. *)
Theorem loadRFIDTags_excludes_system_sounds
        (data : RFIDTagsResponse) (st s : State) (p ps : option Z) :
  let s' := fst (loadRFIDTags API_URL
                              (fun _ => Response true (Fulfilled data))
                              st p ps s) in
  let listed := match tags data with Some l => l | None => [] end in
  let remaining :=
    filter (fun tag =>
              negb (startsWith
                      (match model tag with Some m => m | None => "" end)
                      "box-de-de-01-"))
           listed in
  let recomputed (name : string) :=
    Z.of_nat (length (filter (fun tag => String.eqb (status tag) name)
                             remaining)) in
  st_tags s' = remaining
  /\ (forall tag, In tag (filteredTags s') ->
                  In tag listed
                  /\ startsWith
                       (match model tag with Some m => m | None => "" end)
                       "box-de-de-01-" = false)
  /\ assigned (st_stats s')
     = match assigned_count data with
       | Some n => if n =? 0 then recomputed "assigned" else n
       | None => recomputed "assigned"
       end
  /\ unconfigured (st_stats s')
     = match unconfigured_count data with
       | Some n => if n =? 0 then recomputed "unconfigured" else n
       | None => recomputed "unconfigured"
       end
  /\ total (st_stats s')
     = match total_count data with
       | Some n => if n =? 0 then Z.of_nat (length remaining) else n
       | None => Z.of_nat (length remaining)
       end.
Proof.
  intros s' listed remaining recomputed.
  assert (Hlisted : tags data ||? [] = listed).
  { unfold listed, or_default. destruct (tags data) as [[| tag l] |];
      reflexivity. }
  assert (Hmodel : forall tag,
             model tag ||? "" = match model tag with
                                | Some m => m
                                | None => ""
                                end).
  { intros tag. unfold or_default. destruct (model tag) as [m |];
      [| reflexivity].
    change (truthy (Some m)) with (truthy m).
    destruct (truthy m) eqn:E; [reflexivity |].
    unfold truthy, truthy_string in E. apply negb_false_iff in E.
    apply String.eqb_eq in E. now subst m. }
  assert (Hshown : filter not_system_sound (tags data ||? []) = remaining).
  { rewrite Hlisted. unfold remaining. apply filter_ext.
    intros tag. unfold not_system_sound. now rewrite Hmodel. }
  assert (Htags : st_tags s' = remaining) by exact Hshown.
  assert (Hstats : st_stats s'
                   = st_stats (store_response data (setLoading true s)))
    by reflexivity.
  split; [exact Htags |].
  split.
  { intros tag Hin. unfold filteredTags in Hin.
    apply filter_In in Hin as [Hin _]. rewrite Htags in Hin.
    apply filter_In in Hin as [Hin Hns]. split; [exact Hin |].
    now apply negb_true_iff in Hns. }
  rewrite Hstats, store_response_stats_rfid. cbn [total unconfigured assigned].
  rewrite !or_default_cases, Hshown. now repeat split.
Qed.

End RFIDTagsFacts.

Lemma loadRFIDTags_excludes_system_sounds_witness :
  let load data :=
    fst (RFIDTagsView.loadRFIDTags
           "" (fun _ => RFIDTagsView.Response true (Client.Fulfilled data))
           RFIDTagsView.initial None None RFIDTagsView.initial) in
  (map RFIDTagsView.uid
       (RFIDTagsView.st_tags (load listing_with_system_sound))
   = ["E00403500A1B2C3D"; "E00403500A1B2C3F"]
   /\ RFIDTagsView.assigned
        (RFIDTagsView.st_stats (load listing_with_system_sound)) = 2
   /\ RFIDTagsView.total
        (RFIDTagsView.st_stats (load listing_with_system_sound)) = 3)
  /\ (RFIDTagsView.assigned
        (RFIDTagsView.st_stats (load listing_without_counts)) = 1
      /\ RFIDTagsView.unconfigured
           (RFIDTagsView.st_stats (load listing_without_counts)) = 1
      /\ RFIDTagsView.total
           (RFIDTagsView.st_stats (load listing_without_counts)) = 2).
Proof.
  intros load. split.
  - destruct (loadRFIDTags_excludes_system_sounds
                "" listing_with_system_sound RFIDTagsView.initial
                RFIDTagsView.initial None None)
      as (Htags & _ & Hassigned & _ & Htotal).
    unfold load. rewrite Htags, Hassigned, Htotal. now repeat split.
  - destruct (loadRFIDTags_excludes_system_sounds
                "" listing_without_counts RFIDTagsView.initial
                RFIDTagsView.initial None None)
      as (_ & _ & Hassigned & Hunconfigured & Htotal).
    unfold load. rewrite Hassigned, Hunconfigured, Htotal. now repeat split.
Defined.

(** Two tags are listed while the total shown is the server's three. *)
Example total_still_counts_system_sounds :
  let s := RFIDTagsView.store_response listing_with_system_sound
                                       RFIDTagsView.initial in
  length (RFIDTagsView.st_tags s) = 2%nat
  /\ RFIDTagsView.total (RFIDTagsView.st_stats s) = 3
  /\ RFIDTagsView.assigned (RFIDTagsView.st_stats s) = 2.
Proof. repeat split. Qed.

(** ** The filename heuristic parser *)

Section FilenameParserFacts.

Import FilenameParser.

Lemma margit_has_four_segments :
  segment_texts margit
  = ["Margit Auer"; "Die Schule der magischen Tiere"; "Hoerspiel";
     "Folge 01"].
Proof. reflexivity. Qed.

(** Which segment lists each grammar matches, and what it reads off them. *)
Lemma first_grammar_matches (segs : list string) (parsed : Parsed) :
  first_grammar segs = Some parsed
  <-> exists author series category episode,
      (segs = [author; series; category; episode]
       \/ exists title, segs = [author; series; category; episode; title])
      /\ parsed = mkParsed series episode Normal.
Proof.
  split.
  - destruct segs as [| a [| b [| c [| d [| e [| f r]]]]]]; try discriminate;
      intros [= <-]; exists a, b, c, d; split; try reflexivity.
    + now left.
    + right. now exists e.
  - intros (a & b & c & d & [-> | (e & ->)] & ->); reflexivity.
Qed.

Lemma second_grammar_matches (segs : list string) (parsed : Parsed) :
  second_grammar segs = Some parsed
  <-> exists series number title,
      segs = [series; number; title]
      /\ parsed = mkParsed series ("Episode " ++ number) Normal.
Proof.
  split.
  - destruct segs as [| a [| b [| c [| d r]]]]; try discriminate.
    intros [= <-]. now exists a, b, c.
  - intros (a & b & c & -> & ->). reflexivity.
Qed.




End FilenameParserFacts.

(** ** Timeouts and error messages of remote calls *)

Section RemoteCallFacts.

Import Client.

(** The instance default is the only source of the timeout of a client
    request. *)
Lemma client_timeout API_BASE m path data cfg :
  timeout (client API_BASE m path data cfg) = Some 30000.
Proof. reflexivity. Qed.

Lemma request_of_timeout API_BASE (c : ApiCall) :
  timeout (request_of API_BASE c) = Some 30000.
Proof. destruct c; apply client_timeout. Qed.

(** The message the interceptor extracts is never empty. *)
Lemma extracted_message_nonempty (err : Error) :
  (detail err ||| message err) ||? "Request failed" <> "".
Proof.
  unfold or_default.
  destruct (detail err ||| message err) as [m |]; [| discriminate].
  destruct (truthy m) eqn:E; [| discriminate].
  now apply truthy_string_nonempty.
Qed.

(** C8 (as stated, refuted).  Not every remote call carries a bounded
    timeout: the tag listing of the RFID-tags view is sent with [fetch] and
    without an abort signal. *)
Lemma rfid_listing_call_is_unbounded :
  ~ (forall API_BASE API_URL c,
        bounded_timeout (remote_request API_BASE API_URL c)).
Proof.
  intros H.
  destruct (H "" "" (ViaFetch (Fetch.RFIDTagsView_loadRFIDTags 0 50)))
    as (ms & Hms & _).
  discriminate Hms.
Qed.

(** C8 (amended).  Every call made through the shared axios client carries
    the fixed timeout of 30 seconds, and every request that client rejects
    reaches the caller with [userMessage] attached: the detail of the
    response if there is one, else the message of the error, else "Request
    failed"; the text is never empty and is what the callers display.  The
    calls made with [fetch] carry no timeout, except the restart call, which
    is aborted after 2 seconds. *)
Theorem client_calls_bounded_and_annotated :
  (forall API_BASE (c : ApiCall),
      timeout (request_of API_BASE c) = Some 30000
      /\ bounded_timeout (request_of API_BASE c))
  /\ (forall (R : Type) (err : Error),
         exists err',
           through_interceptor (Rejected err : Settled R) = Rejected err'
           /\ userMessage err'
              = Some ((detail err ||| message err) ||? "Request failed")
           /\ (detail err ||| message err) ||? "Request failed" <> ""
           /\ display_message err' = userMessage err')
  /\ (forall API_URL (c : Fetch.FetchCall),
         timeout (Fetch.request_of API_URL c)
         = match c with
           | Fetch.SettingsDialog_restart => Some 2000
           | _ => None
           end).
Proof.
  split; [| split].
  - intros API_BASE c. split; [apply request_of_timeout |].
    exists 30000. split; [apply request_of_timeout | lia].
  - intros R err. eexists. split; [reflexivity |].
    split; [reflexivity |]. split; [apply extracted_message_nonempty |].
    unfold display_message, Js.or. cbn [userMessage interceptor_rejected].
    change (truthy (Some ?m)) with (truthy m).
    pose proof (extracted_message_nonempty err) as Hne.
    apply truthy_string_nonempty in Hne. now rewrite Hne.
  - intros API_URL c. now destruct c.
Qed.

End RemoteCallFacts.

(** ** The tonie editor *)

Section TonieEditorFacts.

Import Client TonieEditor.

Lemma append_cancel_l (p a b : string) : p ++ a = p ++ b -> a = b.
Proof.
  induction p as [| c p IH]; cbn; intros H; [exact H |].
  injection H as H. now apply IH.
Qed.

(** A preview or an update is never mistaken for a creation. *)
Lemma preview_is_not_create API_BASE d d' :
  toniesAPI_preview API_BASE d <> toniesAPI_create API_BASE d'.
Proof.
  intros H. apply (f_equal url) in H. cbn in H.
  apply append_cancel_l in H. discriminate H.
Qed.

Lemma update_is_not_create API_BASE no d d' :
  toniesAPI_update API_BASE no d <> toniesAPI_create API_BASE d'.
Proof. intros H. apply (f_equal method) in H. discriminate H. Qed.

Variable API_BASE : string.
Variable server : Request -> Settled value.
Variable tonie : option Tonie.

(** When a required field is empty the handler stops before any call. *)
Lemma handleSubmit_rejects st s :
  audio_id (formData st) = "" \/ hash (formData st) = ""
  \/ series (formData st) = "" ->
  exists msg,
    handleSubmit API_BASE server tonie st s
    = (setError (Some msg) s, []) /\ msg <> "".
Proof.
  intros H. unfold handleSubmit.
  destruct (truthy (audio_id (formData st))) eqn:Ea; cbn [negb].
  2: { exists "Audio ID is required". now split. }
  destruct (truthy (hash (formData st))) eqn:Eh; cbn [negb].
  2: { exists "Hash is required". now split. }
  destruct (truthy (series (formData st))) eqn:Es; cbn [negb].
  2: { exists "Series name is required". now split. }
  apply truthy_string_nonempty in Ea, Eh, Es.
  destruct H as [H | [H | H]]; contradiction.
Qed.

(** When the three required fields are filled in, exactly one request is
    sent: the update of the record in edit mode, the preview in create
    mode. *)
Lemma handleSubmit_calls st s :
  audio_id (formData st) <> "" -> hash (formData st) <> "" ->
  series (formData st) <> "" ->
  calls (snd (handleSubmit API_BASE server tonie st s))
  = [match tonie with
     | Some t => toniesAPI_update API_BASE (no t) (json_of_form (formData st))
     | None => toniesAPI_preview API_BASE (json_of_form (formData st))
     end].
Proof.
  intros Ha Hh Hs. apply truthy_string_nonempty in Ha, Hh, Hs.
  unfold handleSubmit. rewrite Ha, Hh, Hs. cbn [negb].
  destruct tonie as [t |].
  - destruct (through_interceptor
                (server (toniesAPI_update API_BASE (no t)
                                          (json_of_form (formData st)))));
      reflexivity.
  - destruct (through_interceptor
                (server (toniesAPI_preview API_BASE
                                           (json_of_form (formData st)))));
      reflexivity.
Qed.

(** C10.  For every submission of the editor form: if the audio id, the
    hash or the series is empty, no request is sent (neither create, nor
    update, nor preview), an error message is set and every other cell of
    the state is left as it was; if the three fields are filled in, exactly
    one request is sent, the update of the existing record in edit mode and
    the preview in create mode, and no creation request is sent by the
    submission. *)
Theorem handleSubmit_validates_before_calling (st s : State) :
  let r := handleSubmit API_BASE server tonie st s in
  (audio_id (formData st) = "" \/ hash (formData st) = ""
   \/ series (formData st) = "" ->
   snd r = []
   /\ (exists msg, error (fst r) = Some msg /\ msg <> "")
   /\ fst r = setError (error (fst r)) s)
  /\ (audio_id (formData st) <> "" -> hash (formData st) <> "" ->
      series (formData st) <> "" ->
      calls (snd r)
      = [match tonie with
         | Some t =>
             toniesAPI_update API_BASE (no t) (json_of_form (formData st))
         | None => toniesAPI_preview API_BASE (json_of_form (formData st))
         end]
      /\ forall data, ~ In (toniesAPI_create API_BASE data) (calls (snd r))).
Proof.
  cbv zeta. split.
  - intros H. destruct (handleSubmit_rejects st s H) as (msg & -> & Hmsg).
    cbn. split; [reflexivity |]. split; [| reflexivity].
    exists msg. now split.
  - intros Ha Hh Hs. rewrite (handleSubmit_calls st s Ha Hh Hs).
    split; [reflexivity |].
    intros data [H | []]. destruct tonie as [t |].
    + now apply update_is_not_create in H.
    + now apply preview_is_not_create in H.
Qed.

(** In create mode the confirmation dialog, the only way to a creation
    request, opens only after the preview was answered. *)
Lemma handleSubmit_opens_confirmation_after_preview st s :
  tonie = None ->
  showConfirmation s = false ->
  showConfirmation (fst (handleSubmit API_BASE server tonie st s)) = true ->
  exists preview,
    through_interceptor
      (server (toniesAPI_preview API_BASE (json_of_form (formData st))))
    = Fulfilled preview.
Proof.
  intros -> Hs. unfold handleSubmit.
  destruct (negb (truthy (audio_id (formData st))));
    [cbn; congruence |].
  destruct (negb (truthy (hash (formData st)))); [cbn; congruence |].
  destruct (negb (truthy (series (formData st)))); [cbn; congruence |].
  destruct (through_interceptor _) as [preview | err];
    [intros _; now exists preview | cbn; congruence].
Qed.

End TonieEditorFacts.

Lemma handleSubmit_validates_before_calling_witness :
  snd (TonieEditor.handleSubmit "" accepting_server None
                                (editor_with form_without_hash)
                                (editor_with form_without_hash)) = []
  /\ TonieEditor.calls
       (snd (TonieEditor.handleSubmit "" accepting_server None
                                      (editor_with form_filled)
                                      (editor_with form_filled)))
     = [Client.toniesAPI_preview "" (TonieEditor.json_of_form form_filled)].
Proof.
  split.
  - apply (handleSubmit_validates_before_calling
             "" accepting_server None (editor_with form_without_hash)
             (editor_with form_without_hash)).
    right; left; reflexivity.
  - apply (handleSubmit_validates_before_calling
             "" accepting_server None (editor_with form_filled)
             (editor_with form_filled)); discriminate.
Defined.

(* ================================================================== *)
(** * Further properties of the provider, the client and the views *)

(** ** The TAF library provider: cache, failures, navigation *)

Section TAFLibraryMoreFacts.

Import Client TAFLibraryContext.

Variable API_BASE : string.
Variable server : Request -> Settled Schema.TAFLibraryResponse.
Variable now : Z.

(** A forced load gets past the guard. *)
Lemma loadTafFiles_forced st newPage newPageSize newFilter s :
  loadTafFiles API_BASE server now st (Some true) newPage newPageSize
               newFilter s
  = loadTafFiles API_BASE server now initial (Some true)
                 (Some (match newPage with Some p => p | None => page st end))
                 (Some (match newPageSize with
                        | Some p => p
                        | None => pageSize st
                        end))
                 (Some (match newFilter with
                        | Some f => f
                        | None => filter st
                        end)) s.
Proof.
  unfold loadTafFiles. cbn [negb]. rewrite !andb_false_r. reflexivity.
Qed.

(** X1.  Once files are loaded, a load that is not forced and asks for the
    page, page size and filter already shown sends no request and leaves
    the store untouched. *)
Theorem loadTafFiles_cache_hit st s t force :
  tafFiles st <> [] -> lastUpdated st = Some t -> t <> 0 ->
  force = None \/ force = Some false ->
  loadTafFiles API_BASE server now st force (Some (page st))
               (Some (pageSize st)) (Some (filter st)) s = (s, [])
  /\ loadTafFiles API_BASE server now st force None None None s = (s, []).
Proof.
  intros Hfiles Hupd Ht Hforce.
  assert (Hlen : (0 <? Z.of_nat (length (tafFiles st))) = true).
  { destruct (tafFiles st); [contradiction | reflexivity]. }
  assert (Htr : truthy (lastUpdated st) = true).
  { rewrite Hupd. unfold truthy, truthy_option, truthy, truthy_Z.
    now destruct (Z.eqb_spec t 0). }
  unfold loadTafFiles.
  rewrite Hlen, Htr, !Z.eqb_refl, String.eqb_refl.
  now destruct Hforce as [-> | ->].
Qed.

(** X2.  The cache never answers for an empty library, for a forced load,
    or for another page, page size or filter: each of these sends exactly
    one request. *)
Theorem loadTafFiles_cache_miss st s force newPage newPageSize newFilter :
  tafFiles st = [] \/ force = Some true
  \/ (exists p, newPage = Some p /\ p <> page st)
  \/ (exists n, newPageSize = Some n /\ n <> pageSize st)
  \/ (exists f, newFilter = Some f /\ f <> filter st) ->
  length (snd (loadTafFiles API_BASE server now st force newPage newPageSize
                            newFilter s)) = 1%nat.
Proof.
  intros H. unfold loadTafFiles.
  match goal with |- context [if ?c then _ else _] => destruct c eqn:E end;
    [| reflexivity].
  exfalso.
  repeat (apply andb_prop in E; destruct E as [E ?]).
  destruct H as [H | [H | [(p & -> & H) | [(n & -> & H) | (f & -> & H)]]]].
  - rewrite H in E. discriminate.
  - subst force. discriminate.
  - now apply Z.eqb_eq in H2.
  - now apply Z.eqb_eq in H1.
  - now apply String.eqb_eq in H0.
Qed.

(** X3.  When the request of a forced load is rejected, the text extracted
    by the interceptor (never empty) becomes the error, loading ends, and
    every other cell (files, statistics, pagination, time of the last
    update) is left as it was. *)
Theorem loadTafFiles_rejected_keeps_data st s err newPage newPageSize
        newFilter :
  (forall request, server request = Rejected err) ->
  let r := loadTafFiles API_BASE server now st (Some true) newPage
                        newPageSize newFilter s in
  let text := (detail err ||| message err) ||? "Request failed" in
  fst r = setLoading false (setError (Some text) s)
  /\ text <> ""
  /\ length (snd r) = 1%nat.
Proof.
  intros Hserver. cbv zeta.
  pose proof (extracted_message_nonempty err) as Hne.
  rewrite loadTafFiles_forced.
  split; [| split; [exact Hne | reflexivity]].
  unfold loadTafFiles. cbn [negb andb length initial tafFiles Z.of_nat Z.ltb
                            Z.compare].
  cbv zeta. rewrite Hserver.
  cbn [through_interceptor]. unfold display_message, Js.or.
  cbn [userMessage interceptor_rejected].
  change (truthy (Some ?m)) with (truthy m).
  apply truthy_string_nonempty in Hne. rewrite Hne. reflexivity.
Qed.

(** X4.  An answer with [success: false] and a non-empty error text is
    reported as that text, and nothing else is stored; the same answer with
    an empty or missing error text is not recognised as an error: its
    fields are stored like those of a successful answer. *)
Theorem loadTafFiles_api_error st s data newPage newPageSize newFilter :
  (forall request, server request = Fulfilled data) ->
  Schema.success data = Some false ->
  let r := loadTafFiles API_BASE server now st (Some true) newPage
                        newPageSize newFilter s in
  (forall e, Schema.error data = Some e -> e <> "" ->
             fst r = setLoading false (setError (Some e) s))
  /\ (Schema.error data = None \/ Schema.error data = Some "" ->
      fst r = setLoading false (store_response now data (setError None s))).
Proof.
  intros Hserver Hsucc. cbv zeta.
  rewrite loadTafFiles_forced.
  unfold loadTafFiles. cbn [negb andb length initial tafFiles Z.of_nat Z.ltb
                            Z.compare].
  cbv zeta. rewrite Hserver. cbn [through_interceptor].
  unfold is_api_error. rewrite Hsucc.
  split.
  - intros e He Hne. rewrite He.
    change (truthy (Some e)) with (truthy e).
    apply truthy_string_nonempty in Hne. rewrite Hne.
    unfold or_default. rewrite Hne. reflexivity.
  - intros [-> | ->]; reflexivity.
Qed.

(** X5.  Navigation.  [refresh] never uses the cache: it sends exactly
    one request, asking again for the page and page size of the current
    render.  [goToPage n] asks for the offset [(n - 1) * pageSize] with the
    current page size.  [setFilter f] asks for the first page and records
    [f] in the store whatever the server answers. *)
Theorem navigation_requests st s newPage newFilter :
  snd (refresh API_BASE server now st s)
  = [tafLibraryAPI_getAll API_BASE
       [Num ((page st - 1) * pageSize st); Num (pageSize st)]]
  /\ snd (goToPage API_BASE server now st newPage s)
     = [tafLibraryAPI_getAll API_BASE
          [Num ((newPage - 1) * pageSize st); Num (pageSize st)]]
  /\ snd (setFilter API_BASE server now st newFilter s)
     = [tafLibraryAPI_getAll API_BASE [Num 0; Num (pageSize st)]]
  /\ filter (fst (setFilter API_BASE server now st newFilter s)) = newFilter.
Proof.
  split; [| split; [| split]].
  - unfold refresh. rewrite loadTafFiles_forced. reflexivity.
  - unfold goToPage. now rewrite loadTafFiles_forced_request.
  - unfold setFilter. now rewrite loadTafFiles_forced_request.
  - unfold setFilter. rewrite loadTafFiles_forced.
    unfold loadTafFiles. cbn [negb andb length initial tafFiles Z.of_nat
                              Z.ltb Z.compare].
    cbv zeta.
    destruct (through_interceptor _) as [data | err]; [| reflexivity].
    destruct (is_api_error data); reflexivity.
Qed.

End TAFLibraryMoreFacts.


Lemma loadTafFiles_cache_hit_witness :
  TAFLibraryContext.loadTafFiles "" (fun _ => Client.Rejected down) 0 loaded
                                 None None None None loaded
  = (loaded, []).
Proof.
  apply (loadTafFiles_cache_hit "" (fun _ => Client.Rejected down) 0 loaded
                                loaded 1700000000000 None).
  - discriminate.
  - reflexivity.
  - discriminate.
  - left; reflexivity.
Defined.

Lemma loadTafFiles_cache_miss_witness :
  length (snd (TAFLibraryContext.loadTafFiles
                 "" (fun _ => Client.Rejected down) 0 loaded None (Some 2)
                 None None loaded)) = 1%nat.
Proof.
  apply (loadTafFiles_cache_miss "" (fun _ => Client.Rejected down) 0 loaded
                                 loaded None (Some 2) None None).
  right; right; left. exists 2. split; [reflexivity | discriminate].
Defined.

Lemma loadTafFiles_rejected_keeps_data_witness :
  fst (TAFLibraryContext.loadTafFiles
         "" (fun _ => Client.Rejected down) 0 loaded (Some true) (Some 2)
         None None loaded)
  = TAFLibraryContext.setLoading
      false (TAFLibraryContext.setError (Some "Network Error") loaded).
Proof.
  apply (loadTafFiles_rejected_keeps_data
           "" (fun _ => Client.Rejected down) 0 loaded loaded down (Some 2)
           None None).
  reflexivity.
Defined.

Lemma loadTafFiles_api_error_witness :
  fst (TAFLibraryContext.loadTafFiles
         "" (fun _ => Client.Fulfilled library_unreachable) 0 loaded
         (Some true) None None None loaded)
  = TAFLibraryContext.setLoading
      false
      (TAFLibraryContext.setError (Some "Library not reachable") loaded).
Proof.
  apply (loadTafFiles_api_error
           "" (fun _ => Client.Fulfilled library_unreachable) 0 loaded loaded
           library_unreachable None None None);
    [reflexivity | reflexivity | reflexivity | discriminate].
Defined.

Lemma or_default_Z_nonzero (o : option Z) (d : Z) : d <> 0 -> o ||? d <> 0.
Proof.
  intros Hd. rewrite or_default_cases.
  destruct o as [n |]; [| exact Hd].
  destruct (Z.eqb_spec n 0); [exact Hd | assumption].
Qed.

(** X6.  Whatever a response contains, the page and the page size stored
    from it are never 0: a missing or zero value is replaced by page 1 and
    by the default size 50.  This holds for the TAF library (both
    revisions) and for the RFID-tags view. *)
Theorem stored_page_and_size_nonzero now data rdata s rs :
  (TAFLibraryContext.page (TAFLibraryContext.store_response now data s) <> 0
   /\ TAFLibraryContext.pageSize
        (TAFLibraryContext.store_response now data s) <> 0)
  /\ (TAFLibraryContext.page
        (TAFLibraryContextV1.store_response now data s) <> 0
      /\ TAFLibraryContext.pageSize
           (TAFLibraryContextV1.store_response now data s) <> 0)
  /\ (RFIDTagsView.st_page (RFIDTagsView.store_response rdata rs) <> 0
      /\ RFIDTagsView.st_pageSize
           (RFIDTagsView.store_response rdata rs) <> 0).
Proof.
  repeat split; cbn; apply or_default_Z_nonzero; discriminate.
Qed.

(** ** The response interceptor *)

Section InterceptorFacts.

Import Client.

(** X7.  The interceptor prefers the detail sent by the server to the
    message of the error, and the message to the fixed text; it changes
    neither the message nor the detail of the error, and running it twice
    gives what running it once gives. *)
Theorem interceptor_prefers_detail (err : Error) :
  (forall d, detail err = Some d -> d <> "" ->
             userMessage (interceptor_rejected err) = Some d)
  /\ (detail err = None \/ detail err = Some "" ->
      forall m, message err = Some m -> m <> "" ->
                userMessage (interceptor_rejected err) = Some m)
  /\ (detail err = None \/ detail err = Some "" ->
      message err = None \/ message err = Some "" ->
      userMessage (interceptor_rejected err) = Some "Request failed")
  /\ message (interceptor_rejected err) = message err
  /\ detail (interceptor_rejected err) = detail err
  /\ interceptor_rejected (interceptor_rejected err)
     = interceptor_rejected err.
Proof.
  repeat split.
  - intros d Hd Hne. cbn. rewrite Hd. unfold Js.or.
    change (truthy (Some d)) with (truthy d).
    apply truthy_string_nonempty in Hne. rewrite Hne.
    unfold or_default. now rewrite Hne.
  - intros Hd m Hm Hne. cbn. unfold Js.or.
    apply truthy_string_nonempty in Hne.
    destruct Hd as [-> | ->]; rewrite Hm; cbn;
      unfold or_default; now rewrite Hne.
  - intros Hd Hm. cbn. unfold Js.or.
    destruct Hd as [-> | ->]; destruct Hm as [-> | ->]; reflexivity.
Qed.

End InterceptorFacts.


Lemma interceptor_prefers_detail_witness :
  Client.userMessage
    (Client.interceptor_rejected
       (Client.mkError (Some "Request failed with status code 422")
                       (Some "Model already exists") None))
  = Some "Model already exists".
Proof.
  apply (proj1 (interceptor_prefers_detail
                  (Client.mkError (Some "Request failed with status code 422")
                                  (Some "Model already exists") None)));
    [reflexivity | discriminate].
Defined.

(** ** The RFID tags view: tabs, failures, recomputed statistics *)

Section RFIDTagsMoreFacts.

Import Client RFIDTagsView.

Variable API_URL : string.

(** X8.  The tab filter only ever hides tags: what is listed is taken from
    the stored tags; under the tab "assigned" (resp. "unconfigured") every
    listed tag has that status, so a tag with any other status, such as
    "unassigned", is listed under neither; any other tab name lists every
    stored tag. *)
Theorem filteredTags_by_tab (st : State) :
  (forall tag, In tag (filteredTags st) -> In tag (st_tags st))
  /\ (st_filter st = "assigned" ->
      forall tag, In tag (filteredTags st) <->
                  In tag (st_tags st) /\ status tag = "assigned")
  /\ (st_filter st = "unconfigured" ->
      forall tag, In tag (filteredTags st) <->
                  In tag (st_tags st) /\ status tag = "unconfigured")
  /\ (st_filter st <> "assigned" -> st_filter st <> "unconfigured" ->
      filteredTags st = st_tags st).
Proof.
  unfold filteredTags. repeat split.
  - intros tag H. now apply filter_In in H.
  - rewrite H in H0. apply filter_In in H0. apply H0.
  - rewrite H in H0. apply filter_In in H0. cbn in H0.
    now apply String.eqb_eq.
  - intros [Hin Hs]. rewrite H. apply filter_In. split; [exact Hin |].
    cbn. now apply String.eqb_eq.
  - rewrite H in H0. apply filter_In in H0. apply H0.
  - rewrite H in H0. apply filter_In in H0. cbn in H0.
    now apply String.eqb_eq.
  - intros [Hin Hs]. rewrite H. apply filter_In. split; [exact Hin |].
    cbn. now apply String.eqb_eq.
  - intros Ha Hu.
    apply String.eqb_neq in Ha, Hu. rewrite Ha, Hu.
    induction (st_tags st) as [| tag l IH]; cbn; [reflexivity |].
    now rewrite IH.
Qed.

(** X9.  A tag listing that fails leaves the tags, the statistics and the
    pagination as they were and sends exactly one request: an HTTP status
    that is not ok gives the error "Failed to load RFID tags"; a rejected
    [fetch] or an unreadable body gives the message of that error. *)
Theorem loadRFIDTags_failure_keeps_tags
        (server : Request -> Fetched) (st s : State)
        (newPage newPageSize : option Z) (err : Error) body :
  let r := loadRFIDTags API_URL server st newPage newPageSize s in
  length (snd r) = 1%nat
  /\ ((forall request, server request = Response false body) ->
      fst r = failed_with (Some "Failed to load RFID tags") s)
  /\ ((forall request, server request = FetchRejected err) ->
      fst r = failed_with (message err) s)
  /\ ((forall request, server request = Response true (Rejected err)) ->
      fst r = failed_with (message err) s).
Proof.
  cbv zeta. unfold loadRFIDTags, failed_with.
  split; [reflexivity |].
  repeat split; intros H; cbv zeta; rewrite H; reflexivity.
Qed.

(** Two different statuses select disjoint parts of a list. *)
Lemma count_status_disjoint (a b : string) (l : list Tag) :
  a <> b ->
  count_status a l + count_status b l <= Z.of_nat (length l).
Proof.
  intros Hab. unfold count_status.
  rewrite <- Nat2Z.inj_add. apply inj_le.
  induction l as [| tag l IH]; cbn; [lia |].
  destruct (String.eqb_spec (status tag) a) as [Ea | Ea];
    destruct (String.eqb_spec (status tag) b) as [Eb | Eb]; cbn; try lia.
  congruence.
Qed.

(** X10.  When the server supplies no counts (or zeros), the statistics are
    recomputed from the tags shown, and then they are consistent: assigned
    plus unconfigured never exceeds the total, and the total is the number
    of tags listed under the tab "all". *)
Theorem recomputed_stats_consistent (data : RFIDTagsResponse) (s : State) :
  (total_count data = None \/ total_count data = Some 0) ->
  (assigned_count data = None \/ assigned_count data = Some 0) ->
  (unconfigured_count data = None \/ unconfigured_count data = Some 0) ->
  let s' := store_response data s in
  total (st_stats s') = Z.of_nat (length (st_tags s'))
  /\ assigned (st_stats s') + unconfigured (st_stats s') <= total (st_stats s')
  /\ 0 <= assigned (st_stats s') /\ 0 <= unconfigured (st_stats s').
Proof.
  intros Ht Ha Hu. cbv zeta.
  rewrite store_response_stats_rfid. cbv zeta. cbn [total assigned unconfigured].
  rewrite !or_default_cases.
  assert (Et : match total_count data with
               | Some n => if n =? 0 then
                             Z.of_nat (length (filter not_system_sound
                                                      (tags data ||? [])))
                           else n
               | None => Z.of_nat (length (filter not_system_sound
                                                  (tags data ||? [])))
               end
               = Z.of_nat (length (filter not_system_sound
                                          (tags data ||? [])))).
  { destruct Ht as [-> | ->]; reflexivity. }
  rewrite Et. clear Et.
  destruct Ha as [-> | ->]; destruct Hu as [-> | ->]; cbn [Z.eqb];
    (split; [reflexivity |]);
    (split; [apply count_status_disjoint; discriminate |]);
    unfold count_status; lia.
Qed.

End RFIDTagsMoreFacts.


Lemma filteredTags_by_tab_witness :
  forallb (fun tag => String.eqb (RFIDTagsView.status tag) "assigned")
          (RFIDTagsView.filteredTags assigned_tab) = true
  /\ RFIDTagsView.filteredTags
       (RFIDTagsView.setFilter "unassigned" assigned_tab)
     = RFIDTagsView.st_tags assigned_tab.
Proof.
  destruct (filteredTags_by_tab assigned_tab) as (_ & Ha & _).
  destruct (filteredTags_by_tab
              (RFIDTagsView.setFilter "unassigned" assigned_tab))
    as (_ & _ & _ & Hother).
  split.
  - apply forallb_forall. intros tag Hin.
    apply String.eqb_eq. now apply (Ha eq_refl tag).
  - apply Hother; discriminate.
Defined.

Lemma loadRFIDTags_failure_keeps_tags_witness :
  fst (RFIDTagsView.loadRFIDTags
         "" (fun _ => RFIDTagsView.Response
                        false (Client.Rejected down))
         assigned_tab None None assigned_tab)
  = failed_with (Some "Failed to load RFID tags") assigned_tab.
Proof.
  apply (loadRFIDTags_failure_keeps_tags
           "" (fun _ => RFIDTagsView.Response false (Client.Rejected down))
           assigned_tab assigned_tab None None down (Client.Rejected down)).
  reflexivity.
Defined.

Lemma recomputed_stats_consistent_witness :
  let s := RFIDTagsView.store_response listing_without_counts
                                       RFIDTagsView.initial in
  RFIDTagsView.total (RFIDTagsView.st_stats s) = 2
  /\ RFIDTagsView.assigned (RFIDTagsView.st_stats s)
     + RFIDTagsView.unconfigured (RFIDTagsView.st_stats s)
     <= RFIDTagsView.total (RFIDTagsView.st_stats s).
Proof.
  destruct (recomputed_stats_consistent listing_without_counts
                                        RFIDTagsView.initial)
    as (Ht & Hsum & _); try (left; reflexivity).
  split; [exact Ht | exact Hsum].
Defined.

(** ** The tonie editor: confirmation and submission *)

Section TonieEditorMoreFacts.

Import Client TonieEditor.

Variable API_BASE : string.
Variable server : Request -> Settled value.

(** The requests of a download attempt: one, to the download endpoint. *)
Lemma downloadCover_calls u :
  snd (downloadCover API_BASE server u)
  = [Call (tafMetadataAPI_downloadCover API_BASE (Str u))].
Proof.
  unfold downloadCover.
  destruct (through_interceptor _) as [[] |]; reflexivity.
Qed.

(** X11.  Accepting the confirmation dialog sends exactly one creation
    request, and it is the last request sent; it is preceded by one
    download request when a cover was chosen from the search results and no
    preview exists, and by nothing otherwise. *)
Theorem handleConfirmCreate_calls (st s : State) :
  exists data,
    calls (snd (fst (handleConfirmCreate API_BASE server st s)))
    = ((match selectedCoverUrl st with
        | Some u =>
            if truthy u && negb (truthy (coverPreview st))
            then [tafMetadataAPI_downloadCover API_BASE (Str u)]
            else []
        | None => []
        end) ++ [toniesAPI_create API_BASE data])%list.
Proof.
  unfold handleConfirmCreate.
  destruct (selectedCoverUrl st) as [u |].
  - destruct (truthy u && negb (truthy (coverPreview st))).
    + pose proof (downloadCover_calls u) as Hd.
      destruct (downloadCover API_BASE server u) as [[p |] dl];
        cbn [snd] in Hd; subst dl.
      * destruct (truthy p);
          match goal with
          | |- context [through_interceptor ?x] =>
              destruct (through_interceptor x)
          end; eexists; reflexivity.
      * match goal with
        | |- context [through_interceptor ?x] =>
            destruct (through_interceptor x)
        end; eexists; reflexivity.
    + match goal with
      | |- context [through_interceptor ?x] => destruct (through_interceptor x)
      end; eexists; reflexivity.
  - match goal with
    | |- context [through_interceptor ?x] => destruct (through_interceptor x)
    end; eexists; reflexivity.
Qed.

(** X12.  What accepting the confirmation leads to.  If every request is
    rejected, the error "Failed to save: ..." is set with the detail or
    message of the rejection, the dialog stays open, [onSave] is not called
    and the error is thrown on to the dialog.  If every request is
    fulfilled, the dialog is closed, no error is set, [onSave] is called
    once, after the creation request, and nothing is thrown. *)
Theorem handleConfirmCreate_outcome (st s : State) (err : Error) (v : value) :
  let r := handleConfirmCreate API_BASE server st s in
  ((forall request, server request = Rejected err) ->
   fst (fst r)
   = setError (Some ("Failed to save: "
                       ++ interpolate (detail err ||| message err))) s
   /\ ~ In OnSave (snd (fst r))
   /\ snd r = true)
  /\ ((forall request, server request = Fulfilled v) ->
      fst (fst r) = setShowConfirmation false (setError None s)
      /\ (exists before request,
             snd (fst r) = (before ++ [Call request; OnSave])%list
             /\ ~ In OnSave before)
      /\ snd r = false).
Proof.
  cbv zeta. split; intros Hserver.
  - unfold handleConfirmCreate, downloadCover.
    destruct (selectedCoverUrl st) as [u |];
      [destruct (truthy u && negb (truthy (coverPreview st))) |];
      rewrite ?Hserver; cbn; rewrite ?Hserver; cbn;
      (split; [reflexivity |]); (split; [| reflexivity]);
      intros H; repeat (destruct H as [H | H]; [discriminate |]);
      exact H.
  - unfold handleConfirmCreate, downloadCover.
    destruct (selectedCoverUrl st) as [u |];
      [destruct (truthy u && negb (truthy (coverPreview st))) |];
      repeat first
        [ rewrite Hserver
        | progress cbn [through_interceptor]
        | match goal with
          | |- context [match ?x with Undefined => _ | _ => _ end] =>
              destruct x
          | |- context [match ?x with Some _ => _ | None => _ end] =>
              destruct x
          | |- context [if truthy ?x then _ else _] => destruct (truthy x)
          end ];
      cbn; (split; [reflexivity |]); (split; [| reflexivity]);
      first [ eexists [_], _; split;
              [reflexivity | intros [H | []]; discriminate]
            | eexists [], _; split; [reflexivity | intros []] ].
Qed.

(** X13.  Which record is created.  Without a cover to download (none
    selected, or a preview already there) the form is sent as it is.  With
    a cover to download, a download answered with a non-empty path sends
    the form with that path as picture; a rejected download does not stop
    the creation: the form is sent with its old picture. *)
Theorem handleConfirmCreate_body (st s : State) :
  let effects := snd (fst (handleConfirmCreate API_BASE server st s)) in
  let form := formData st in
  (selectedCoverUrl st = None \/ selectedCoverUrl st = Some ""
   \/ (exists c, coverPreview st = Some c /\ c <> "") ->
   calls effects = [toniesAPI_create API_BASE (json_of_form form)])
  /\ (forall u download,
         selectedCoverUrl st = Some u -> u <> "" ->
         coverPreview st = None \/ coverPreview st = Some "" ->
         download = tafMetadataAPI_downloadCover API_BASE (Str u) ->
         (forall p rest,
             server download = Fulfilled (Obj (("path", Str p) :: rest)) ->
             p <> "" ->
             calls effects
             = [download;
                toniesAPI_create API_BASE (json_of_form (TonieEditorForm.set_pic p form))])
         /\ (forall err,
                server download = Rejected err ->
                calls effects
                = [download;
                   toniesAPI_create API_BASE (json_of_form form)])).
Proof.
  cbv zeta. split.
  - intros H. unfold handleConfirmCreate.
    assert (Hno : match selectedCoverUrl st with
                  | Some u => truthy u && negb (truthy (coverPreview st))
                  | None => false
                  end = false).
    { destruct H as [-> | [-> | (c & -> & Hc)]]; try reflexivity.
      apply truthy_string_nonempty in Hc.
      change (truthy (Some c)) with (truthy c). rewrite Hc.
      destruct (selectedCoverUrl st); [apply andb_false_r | reflexivity]. }
    destruct (selectedCoverUrl st) as [u |]; [rewrite Hno |];
      match goal with
      | |- context [through_interceptor ?x] => destruct (through_interceptor x)
      end; reflexivity.
  - intros u download Hu Hne Hprev ->.
    apply truthy_string_nonempty in Hne.
    assert (Hyes : truthy u && negb (truthy (coverPreview st)) = true).
    { rewrite Hne. now destruct Hprev as [-> | ->]. }
    split.
    + intros p rest Hd Hp. apply truthy_string_nonempty in Hp.
      unfold handleConfirmCreate, downloadCover.
      rewrite Hu, Hyes, Hd. cbn [through_interceptor get String.eqb].
      cbn. rewrite Hp.
      match goal with
      | |- context [through_interceptor ?x] => destruct (through_interceptor x)
      end; reflexivity.
    + intros err Hd.
      unfold handleConfirmCreate, downloadCover.
      rewrite Hu, Hyes, Hd. cbn [through_interceptor].
      match goal with
      | |- context [through_interceptor ?x] => destruct (through_interceptor x)
      end; reflexivity.
Qed.

(** X14.  [onSave] and submission.  In create mode a submission never
    calls [onSave].  In edit mode, with the required fields filled in,
    [onSave] is called once, after the update, when the update is
    fulfilled; when it is rejected, [onSave] is not called and the error
    reads "Failed to generate preview: " followed by the text the
    interceptor extracted, also for this update. *)
Theorem handleSubmit_onSave (st s : State) (t : Tonie) :
  ~ In OnSave (snd (handleSubmit API_BASE server None st s))
  /\ (audio_id (formData st) <> "" -> hash (formData st) <> "" ->
      series (formData st) <> "" ->
      let update :=
        toniesAPI_update API_BASE (no t) (json_of_form (formData st)) in
      let r := handleSubmit API_BASE server (Some t) st s in
      (forall v, server update = Fulfilled v ->
                 r = (setError None s, [Call update; OnSave]))
      /\ (forall err,
             server update = Rejected err ->
             r = (setError
                    (Some ("Failed to generate preview: "
                             ++ ((detail err ||| message err)
                                 ||? "Request failed"))) s,
                  [Call update]))).
Proof.
  split.
  - unfold handleSubmit.
    destruct (negb (truthy (audio_id (formData st)))); [intros [] |].
    destruct (negb (truthy (hash (formData st)))); [intros [] |].
    destruct (negb (truthy (series (formData st)))); [intros [] |].
    destruct (through_interceptor _); intros [H | []]; discriminate.
  - intros Ha Hh Hs. apply truthy_string_nonempty in Ha, Hh, Hs.
    cbv zeta. unfold handleSubmit. rewrite Ha, Hh, Hs. cbn [negb].
    split.
    + intros v ->. reflexivity.
    + intros err ->. cbn [through_interceptor].
      unfold display_message, Js.or. cbn [userMessage interceptor_rejected].
      change (truthy (Some ?m)) with (truthy m).
      pose proof (extracted_message_nonempty err) as Hne.
      apply truthy_string_nonempty in Hne. rewrite Hne. reflexivity.
Qed.

End TonieEditorMoreFacts.


Lemma handleConfirmCreate_outcome_witness :
  snd (TonieEditor.handleConfirmCreate "" rejecting_server
                                       editor_with_selection
                                       editor_with_selection) = true
  /\ fst (fst (TonieEditor.handleConfirmCreate "" accepting_server
                                               editor_with_selection
                                               editor_with_selection))
     = TonieEditor.setShowConfirmation
         false (TonieEditor.setError None editor_with_selection).
Proof.
  split.
  - apply (handleConfirmCreate_outcome "" rejecting_server
                                       editor_with_selection
                                       editor_with_selection down Null).
    reflexivity.
  - apply (handleConfirmCreate_outcome "" accepting_server
                                       editor_with_selection
                                       editor_with_selection down (Obj [])).
    reflexivity.
Defined.

Lemma handleConfirmCreate_body_witness :
  TonieEditor.calls
    (snd (fst (TonieEditor.handleConfirmCreate "" download_answers
                                               editor_with_selection
                                               editor_with_selection)))
  = [Client.tafMetadataAPI_downloadCover
       "" (Str "https://example.org/heidi.jpg");
     Client.toniesAPI_create
       "" (TonieEditor.json_of_form
             (TonieEditorForm.set_pic "/covers/heidi.jpg" form_filled))].
Proof.
  refine (proj1 (proj2 (handleConfirmCreate_body
                          "" download_answers editor_with_selection
                          editor_with_selection)
                       "https://example.org/heidi.jpg" _ eq_refl _ _ eq_refl)
                "/covers/heidi.jpg" [] eq_refl _).
  - discriminate.
  - left; reflexivity.
  - discriminate.
Defined.

Lemma handleSubmit_onSave_witness :
  TonieEditor.handleSubmit "" accepting_server (Some edited_tonie)
                           (editor_with form_filled) (editor_with form_filled)
  = (TonieEditor.setError None (editor_with form_filled),
     [TonieEditor.Call
        (Client.toniesAPI_update "" "7" (TonieEditor.json_of_form form_filled));
      TonieEditor.OnSave]).
Proof.
  refine (proj1 (proj2 (handleSubmit_onSave
                          "" accepting_server (editor_with form_filled)
                          (editor_with form_filled) edited_tonie)
                       _ _ _)
                (Obj []) eq_refl); discriminate.
Defined.

(** ** Image URLs *)

Section ImagesFacts.

Import Images.

Lemma startsWith_slash_cons (p : string) : startsWith ("/" ++ p) "/" = true.
Proof. exact (startsWith_append "/" p). Qed.

(** X15.  Image URLs.  A path is served under [/api/images/] whether or
    not it is written with a leading slash, and exactly one leading slash
    is dropped; an absolute [http://] or [https://] cover is used as it is;
    no cover (missing or empty) gives no URL; and the editor's [coverUrl]
    agrees with the expression the views compute in line. *)
Theorem image_urls (API_BASE p c : string) :
  imagesAPI_getUrl API_BASE ("/" ++ p) = API_BASE ++ "/api/images/" ++ p
  /\ (startsWith p "/" = false ->
      imagesAPI_getUrl API_BASE p = imagesAPI_getUrl API_BASE ("/" ++ p))
  /\ (startsWith c "http://" = true \/ startsWith c "https://" = true ->
      coverUrl API_BASE (Some c) = Some c /\ pic_src API_BASE c = c)
  /\ (c <> "" -> coverUrl API_BASE (Some c) = Some (pic_src API_BASE c))
  /\ coverUrl API_BASE None = None
  /\ coverUrl API_BASE (Some "") = None.
Proof.
  assert (H1 : imagesAPI_getUrl API_BASE ("/" ++ p)
               = API_BASE ++ "/api/images/" ++ p).
  { unfold imagesAPI_getUrl. rewrite startsWith_slash_cons.
    now rewrite (substring_from_append "/" p
                 : substring_from 1 ("/" ++ p) = p). }
  split; [exact H1 |].
  split.
  { intros Hp. rewrite H1. unfold imagesAPI_getUrl. now rewrite Hp. }
  split.
  { intros Habs.
    assert (Hc : truthy c = true).
    { apply truthy_string_nonempty. intros ->. now destruct Habs. }
    assert (Hor : startsWith c "http://" || startsWith c "https://" = true).
    { destruct Habs as [-> | ->]; [reflexivity | apply orb_true_r]. }
    unfold coverUrl, pic_src. now rewrite Hc, Hor. }
  split; [| now split].
  intros Hc. apply truthy_string_nonempty in Hc.
  unfold coverUrl, pic_src, imagesAPI_getUrl. rewrite Hc.
  now destruct (startsWith c "http://" || startsWith c "https://").
Qed.

Lemma image_urls_witness :
  imagesAPI_getUrl "" "covers/heidi.jpg"
  = imagesAPI_getUrl "" "/covers/heidi.jpg"
  /\ coverUrl "" (Some "https://example.org/heidi.jpg")
     = Some "https://example.org/heidi.jpg"
  /\ coverUrl "" (Some "/covers/heidi.jpg")
     = Some (pic_src "" "/covers/heidi.jpg").
Proof.
  pose proof (image_urls "" "covers/heidi.jpg" "https://example.org/heidi.jpg")
    as (_ & H2 & H3 & _).
  pose proof (image_urls "" "" "/covers/heidi.jpg") as (_ & _ & _ & H4 & _).
  split; [apply H2; reflexivity |].
  split; [apply H3; right; reflexivity | apply H4; discriminate].
Defined.

End ImagesFacts.

(** ** The tonie editor: parsing a TAF file, covers and tags *)

Section TonieEditorFormFacts.

Import Client TonieEditor TonieEditorForm.

Variable API_BASE : string.

(** X16.  What parsing a TAF file does to the form.  On an answer, the
    audio id and the hash are always replaced by those of the answer, and
    erased when the answer has none; a series or episode typed before is
    kept when the answer has none and replaced otherwise; model, title,
    picture and tracks are never touched; the file name is remembered and
    no error is left.  On a rejection the form is left as it was and the
    error reads "Failed to parse TAF: " followed by the extracted text.
    In both cases one request is sent and parsing ends. *)
Theorem parseTAFMetadata_form
        (server : Request -> Settled ParseResponse) (filename : string)
        (e : Editor) :
  let r := parseTAFMetadata API_BASE server filename e in
  let f := formData (core e) in
  let f' := formData (core (fst r)) in
  snd r = [tafMetadataAPI_parse API_BASE (Str filename)]
  /\ parsing (fst r) = false
  /\ (forall data,
         server (tafMetadataAPI_parse API_BASE (Str filename))
         = Fulfilled data ->
         audio_id f' = audio_id_text (p_audio_id data)
         /\ (p_audio_id data = None -> audio_id f' = "")
         /\ (p_hash data = None -> hash f' = "")
         /\ (forall h, p_hash data = Some h -> hash f' = h)
         /\ (p_series data = None \/ p_series data = Some "" ->
             series f' = series f)
         /\ (forall x, p_series data = Some x -> x <> "" -> series f' = x)
         /\ (p_episode data = None \/ p_episode data = Some "" ->
             episodes f' = episodes f)
         /\ (forall x, p_episode data = Some x -> x <> "" -> episodes f' = x)
         /\ model f' = model f /\ title f' = title f /\ pic f' = pic f
         /\ tracks f' = tracks f
         /\ selectedTAF (fst r) = Some filename
         /\ error (core (fst r)) = None)
  /\ (forall err,
         server (tafMetadataAPI_parse API_BASE (Str filename))
         = Rejected err ->
         f' = f
         /\ selectedTAF (fst r) = selectedTAF e
         /\ suggestedCovers (fst r) = suggestedCovers e
         /\ error (core (fst r))
            = Some ("Failed to parse TAF: "
                      ++ ((detail err ||| message err)
                          ||? "Request failed"))).
Proof.
  cbv zeta. unfold parseTAFMetadata.
  split; [reflexivity |]. split; [reflexivity |]. split.
  - intros data ->. cbn [through_interceptor].
    destruct (p_suggested_covers data) as [[| first rest] |];
      [| destruct (high_confidence (p_cover_confidence data)) | ];
      cbn [fst core formData setParsing on_core updateFormData
           setSelectedTAF setSuggestedCovers setCoverConfidence
           setCoverSearchTerm setSelectedCoverUrl setFormData setError
           selectedTAF error merge_parsed audio_id hash series episodes
           model title pic tracks];
      repeat split;
      try (intros H; rewrite H; reflexivity);
      try (intros [H | H]; rewrite H; reflexivity);
      try (intros x Hx; rewrite Hx; unfold or_default;
           destruct (truthy x) eqn:E; [reflexivity |];
           unfold truthy, truthy_string in E; apply negb_false_iff in E;
           now apply String.eqb_eq in E);
      try (intros x Hx Hne; rewrite Hx; apply truthy_string_nonempty in Hne;
           unfold or_default; now rewrite Hne).
  - intros err ->. cbn [through_interceptor].
    repeat split.
    cbn. unfold display_message, Js.or.
    cbn [userMessage interceptor_rejected].
    change (truthy (Some ?m)) with (truthy m).
    pose proof (extracted_message_nonempty err) as Hne.
    apply truthy_string_nonempty in Hne. now rewrite Hne.
Qed.

(** X17.  Covers suggested by a parse.  The first suggested cover is
    selected by itself exactly when there is at least one suggestion and
    the confidence is 80 or more; otherwise the selection is left as it
    was.  Without suggestions the covers, the confidence and the search
    term shown before stay on display. *)
Theorem parseTAFMetadata_covers
        (server : Request -> Settled ParseResponse) (filename : string)
        (e : Editor) (data : ParseResponse) :
  server (tafMetadataAPI_parse API_BASE (Str filename)) = Fulfilled data ->
  let e' := fst (parseTAFMetadata API_BASE server filename e) in
  (forall first rest n,
      p_suggested_covers data = Some (first :: rest) ->
      p_cover_confidence data = Some n -> 80 <= n ->
      selectedCoverUrl (core e') = Some (cover_url first)
      /\ suggestedCovers e' = first :: rest)
  /\ (forall first rest,
         p_suggested_covers data = Some (first :: rest) ->
         p_cover_confidence data = None
         \/ (exists n, p_cover_confidence data = Some n /\ n < 80) ->
         selectedCoverUrl (core e') = selectedCoverUrl (core e)
         /\ suggestedCovers e' = first :: rest)
  /\ (p_suggested_covers data = None \/ p_suggested_covers data = Some [] ->
      selectedCoverUrl (core e') = selectedCoverUrl (core e)
      /\ suggestedCovers e' = suggestedCovers e
      /\ coverConfidence e' = coverConfidence e
      /\ coverSearchTerm e' = coverSearchTerm e).
Proof.
  intros Hserver. cbv zeta. unfold parseTAFMetadata. rewrite Hserver.
  cbn [through_interceptor].
  split; [| split].
  - intros first rest n -> -> Hn.
    unfold high_confidence. apply Z.leb_le in Hn. rewrite Hn. now split.
  - intros first rest -> Hc.
    assert (Hlow : high_confidence (p_cover_confidence data) = false).
    { destruct Hc as [-> | (n & -> & Hn)]; [reflexivity |].
      unfold high_confidence. apply Z.leb_gt. exact Hn. }
    rewrite Hlow. now split.
  - intros [-> | ->]; now repeat split.
Qed.

(** X18.  The tags offered in the editor.  One request is sent, for the
    first 50 tags.  On an answer the tags offered are exactly those of the
    answer whose status is "unconfigured" or "unassigned", in the order of
    the answer; on a rejection the tags offered before are kept and no
    error is set.  Loading ends in both cases. *)
Theorem loadAvailableRFIDTags_offers_free_tags
        (server : Request -> Settled RFIDTagsView.RFIDTagsResponse)
        (e : Editor) :
  let r := loadAvailableRFIDTags API_BASE server e in
  let request := rfidTagsAPI_getAll API_BASE [Num 0; Num 50] in
  snd r = [request]
  /\ loadingTags (fst r) = false
  /\ core (fst r) = core e
  /\ (forall data,
         server request = Fulfilled data ->
         (forall tag,
             In tag (availableRFIDTags (fst r)) <->
             In tag (RFIDTagsView.tags data ||? [])
             /\ (RFIDTagsView.status tag = "unconfigured"
                 \/ RFIDTagsView.status tag = "unassigned"))
         /\ availableRFIDTags (fst r)
            = List.filter
                (fun tag =>
                   String.eqb (RFIDTagsView.status tag) "unconfigured"
                   || String.eqb (RFIDTagsView.status tag) "unassigned")
                (RFIDTagsView.tags data ||? []))
  /\ (forall err,
         server request = Rejected err ->
         availableRFIDTags (fst r) = availableRFIDTags e).
Proof.
  cbv zeta. unfold loadAvailableRFIDTags.
  change (rfidTagsAPI_getAll API_BASE [])
    with (rfidTagsAPI_getAll API_BASE [Num 0; Num 50]).
  split; [reflexivity |]. split; [reflexivity |].
  split; [now destruct (through_interceptor _) |].
  split.
  - intros data ->. cbn [through_interceptor]. split; [| reflexivity].
    intros tag.
    cbn [fst availableRFIDTags setLoadingTags setAvailableRFIDTags].
    rewrite filter_In, orb_true_iff, !String.eqb_eq. reflexivity.
  - intros err ->. reflexivity.
Qed.

(** X19.  A cover taken from the gallery, or uploaded, is the cover of the
    record created next: after either step the preview and the picture of
    the form are that path and the selection among search results is
    cleared, so that accepting the confirmation sends the creation request
    alone, with that picture, and downloads nothing. *)
Theorem chosen_cover_is_created
        (upload : Request -> Settled string)
        (server : Request -> Settled value)
        (e : Editor) (coverPath : string) (file : value)
        (rest : list value) (s : State) :
  let gallery := handleSelectFromGallery coverPath e in
  let dropped := fst (onDrop API_BASE upload (file :: rest) e) in
  let created :=
    [toniesAPI_create API_BASE
                      (json_of_form (set_pic coverPath (formData (core e))))]
  in
  (coverPreview (core gallery) = Some coverPath
   /\ selectedCoverUrl (core gallery) = None
   /\ showCoverGallery gallery = false
   /\ calls (snd (fst (handleConfirmCreate API_BASE server (core gallery) s)))
      = created)
  /\ (upload (uploadsAPI_uploadCover API_BASE file) = Fulfilled coverPath ->
      coverPreview (core dropped) = Some coverPath
      /\ selectedCoverUrl (core dropped) = None
      /\ uploading dropped = false
      /\ calls (snd (fst (handleConfirmCreate API_BASE server
                                              (core dropped) s)))
         = created).
Proof.
  cbv zeta. split.
  - repeat split.
    unfold handleConfirmCreate.
    cbn [handleSelectFromGallery core on_core setShowCoverGallery
         setSelectedCoverUrl updateFormData selectedCoverUrl setCoverPreview
         formData setFormData coverPreview].
    destruct (through_interceptor _); reflexivity.
  - intros Hup. unfold onDrop. rewrite Hup. cbn [through_interceptor].
    repeat split.
    unfold handleConfirmCreate.
    cbn [fst core on_core setUploading setSelectedCoverUrl updateFormData
         selectedCoverUrl setCoverPreview formData setFormData coverPreview
         setError].
    destruct (through_interceptor _); reflexivity.
Qed.

(** An upload with nothing dropped does nothing, and a rejected upload
    leaves form and preview alone. *)
Lemma onDrop_nothing_or_rejected (upload : Request -> Settled string)
      (e : Editor) :
  onDrop API_BASE upload [] e = (e, [])
  /\ forall file rest err,
      upload (uploadsAPI_uploadCover API_BASE file) = Rejected err ->
      let e' := fst (onDrop API_BASE upload (file :: rest) e) in
      formData (core e') = formData (core e)
      /\ coverPreview (core e') = coverPreview (core e)
      /\ error (core e')
         = Some ("Failed to upload cover: " ++ interpolate (message err)).
Proof.
  split; [reflexivity |].
  intros file rest err H. cbv zeta. unfold onDrop. rewrite H.
  now repeat split.
Qed.

End TonieEditorFormFacts.


Lemma parseTAFMetadata_form_witness :
  let f' :=
    TonieEditor.formData
      (TonieEditorForm.core
         (fst (TonieEditorForm.parseTAFMetadata
                 "" (fun _ => Client.Fulfilled parsed_heidi)
                 "Heidi_-_03_-_Der_Grossvater.taf" blank_editor))) in
  TonieEditor.hash f' = "c0ffee"
  /\ TonieEditor.series f' = "Heidi"
  /\ TonieEditor.episodes f' = "".
Proof.
  destruct (parseTAFMetadata_form
              "" (fun _ => Client.Fulfilled parsed_heidi)
              "Heidi_-_03_-_Der_Grossvater.taf" blank_editor)
    as (_ & _ & Hok & _).
  destruct (Hok parsed_heidi eq_refl)
    as (_ & _ & _ & Hh & _ & Hs & He & _).
  split; [| split].
  - apply Hh. reflexivity.
  - apply Hs; [reflexivity | discriminate].
  - apply He. left. reflexivity.
Defined.

Lemma parseTAFMetadata_covers_witness :
  TonieEditor.selectedCoverUrl
    (TonieEditorForm.core
       (fst (TonieEditorForm.parseTAFMetadata
               "" (fun _ => Client.Fulfilled parsed_heidi) "heidi.taf"
               blank_editor)))
  = Some "https://example.org/a.jpg".
Proof.
  refine (proj1 (proj1 (parseTAFMetadata_covers
                          "" (fun _ => Client.Fulfilled parsed_heidi)
                          "heidi.taf" blank_editor parsed_heidi eq_refl)
                       (TonieEditorForm.mkCover "https://example.org/a.jpg"
                                                None None)
                       [TonieEditorForm.mkCover "https://example.org/b.jpg"
                                                None None]
                       90 eq_refl eq_refl _)).
  lia.
Defined.

Lemma loadAvailableRFIDTags_offers_free_tags_witness :
  map RFIDTagsView.uid
      (TonieEditorForm.availableRFIDTags
         (fst (TonieEditorForm.loadAvailableRFIDTags
                 "" (fun _ => Client.Fulfilled listing_with_system_sound)
                 blank_editor)))
  = ["E00403500A1B2C3F"].
Proof.
  destruct (loadAvailableRFIDTags_offers_free_tags
              "" (fun _ => Client.Fulfilled listing_with_system_sound)
              blank_editor) as (_ & _ & _ & Hok & _).
  destruct (Hok listing_with_system_sound eq_refl) as [_ ->].
  reflexivity.
Defined.

Lemma chosen_cover_is_created_witness :
  TonieEditor.calls
    (snd (fst (TonieEditor.handleConfirmCreate
                 "" accepting_server
                 (TonieEditorForm.core
                    (fst (TonieEditorForm.onDrop
                            "" (fun _ => Client.Fulfilled "/covers/neu.png")
                            [Str "neu.png"] blank_editor)))
                 (TonieEditor.initial None))))
  = [Client.toniesAPI_create
       "" (TonieEditor.json_of_form
             (TonieEditorForm.set_pic
                "/covers/neu.png"
                (TonieEditor.formData (TonieEditor.initial None))))].
Proof.
  apply (chosen_cover_is_created
           "" (fun _ => Client.Fulfilled "/covers/neu.png") accepting_server
           blank_editor "/covers/neu.png" (Str "neu.png") []
           (TonieEditor.initial None)).
  reflexivity.
Defined.

(** ** Durations in the TAF library view *)

Section DurationFacts.

Import TAFLibraryView.

Lemma padded_seconds (n : nat) :
  (n < 60)%nat ->
  padStart0 2 (show (Z.of_nat n)) = two_digits (Z.of_nat n).
Proof.
  intros Hn.
  assert (Hall : forallb
                   (fun k => String.eqb (padStart0 2 (show (Z.of_nat k)))
                                        (two_digits (Z.of_nat k)))
                   (seq 0 60) = true) by (vm_compute; reflexivity).
  rewrite forallb_forall in Hall.
  apply String.eqb_eq, Hall, in_seq. lia.
Qed.

(** X20.  Durations.  For a duration of [seconds >= 0], [formatDuration]
    prints the whole minutes (never wrapped into hours), a colon, and the
    remaining seconds on exactly two digits, so that minutes * 60 + seconds
    field is the duration.  The total duration of a file is the formatted
    last track boundary, and there is none when the boundaries are missing
    or empty. *)
Theorem formatDuration_minutes_seconds (seconds : Z) (l : list Z) (x : Z) :
  (0 <= seconds ->
   exists m r,
     formatDuration seconds = show m ++ ":" ++ two_digits r
     /\ 0 <= r < 60 /\ m * 60 + r = seconds)
  /\ getTotalDuration (Some (l ++ [x])%list) = Some (formatDuration x)
  /\ getTotalDuration None = None
  /\ getTotalDuration (Some []) = None.
Proof.
  split; [| split; [| split; reflexivity]].
  - intros Hs. exists (seconds / 60), (seconds mod 60).
    pose proof (Z.mod_pos_bound seconds 60 ltac:(lia)) as Hr.
    split; [| split; [exact Hr |]].
    + unfold formatDuration. rewrite Z.rem_mod_nonneg by lia.
      rewrite <- (Z2Nat.id (seconds mod 60)) by lia.
      rewrite padded_seconds by lia. reflexivity.
    + pose proof (Z.div_mod seconds 60 ltac:(lia)). lia.
  - unfold getTotalDuration.
    destruct (l ++ [x])%list as [| a rest] eqn:E.
    + now destruct l.
    + rewrite <- E. now rewrite last_last.
Qed.

Lemma formatDuration_minutes_seconds_witness :
  exists m r,
    formatDuration 3725 = show m ++ ":" ++ two_digits r
    /\ 0 <= r < 60 /\ m * 60 + r = 3725.
Proof.
  apply (proj1 (formatDuration_minutes_seconds 3725 [] 0)). lia.
Defined.

End DurationFacts.

(** ** The confirmation dialog *)

Section ConfirmationDialogFacts.

Import Client ConfirmationDialog.

(** X21.  The confirmation dialog closes only when the parent's handler
    resolved; when it throws, the dialog stays open and shows a text that
    is never empty: the user message of the error, else its message, else
    "Failed to save tonie"; for an error that went through the
    interceptor of the client this is the text the interceptor extracted.
    Saving ends in both cases. *)
Theorem handleConfirm_closes_on_success (s : State) (err : Error) :
  handleConfirm None s = (mkState false None, [OnConfirm; OnClose])
  /\ (let r := handleConfirm (Some err) s in
      snd r = [OnConfirm]
      /\ isSaving (fst r) = false
      /\ exists text, error (fst r) = Some text /\ text <> "")
  /\ error (fst (handleConfirm (Some (interceptor_rejected err)) s))
     = Some ((detail err ||| message err) ||? "Request failed").
Proof.
  split; [reflexivity |]. split.
  - cbv zeta. split; [reflexivity |]. split; [reflexivity |].
    eexists. split; [reflexivity |].
    unfold or_default.
    destruct (userMessage err ||| message err) as [m |]; [| discriminate].
    destruct (truthy m) eqn:E; [| discriminate].
    now apply truthy_string_nonempty.
  - unfold handleConfirm.
    cbn [fst error setIsSaving setError userMessage interceptor_rejected].
    pose proof (extracted_message_nonempty err) as Hne.
    apply truthy_string_nonempty in Hne.
    set (text := (detail err ||| message err) ||? "Request failed") in *.
    unfold Js.or. change (truthy (Some text)) with (truthy text).
    rewrite Hne. unfold or_default. now rewrite Hne.
Qed.

End ConfirmationDialogFacts.

(** ** The tag setup dialog *)

Section TagSetupDialogFacts.

Import Client TagSetupDialog Text.

Lemma has_char_app c a b :
  has_char c (a ++ b) = has_char c a || has_char c b.
Proof.
  induction a as [| d a IH]; cbn; [reflexivity |].
  now rewrite IH, orb_assoc.
Qed.

Lemma last_segment_no_slash cur s :
  has_char "/" cur = false -> has_char "/" (last_segment cur s) = false.
Proof.
  revert cur. induction s as [| c s IH]; intros cur Hcur; cbn;
    [exact Hcur |].
  destruct (Ascii.eqb c "/") eqn:E.
  - now apply IH.
  - apply IH. rewrite has_char_app, Hcur. cbn. now rewrite E.
Qed.

Lemma last_segment_plain cur f :
  has_char "/" f = false -> last_segment cur f = cur ++ f.
Proof.
  revert cur. induction f as [| c f IH]; intros cur Hf; cbn.
  - induction cur as [| d cur IHc]; cbn; [reflexivity | now rewrite <- IHc].
  - cbn in Hf. apply orb_false_iff in Hf as [Hc Hf].
    rewrite Hc, IH by exact Hf.
    induction cur as [| d cur IHc]; cbn; [reflexivity | now rewrite IHc].
Qed.

Lemma last_segment_after_slash cur dir f :
  has_char "/" f = false -> last_segment cur (dir ++ "/" ++ f) = f.
Proof.
  intros Hf. revert cur.
  induction dir as [| c dir IH]; intros cur; cbn.
  - now rewrite last_segment_plain.
  - destruct (Ascii.eqb c "/"); apply IH.
Qed.

Lemma underscores_to_spaces_clean s :
  has_char "_" (underscores_to_spaces s) = false.
Proof.
  induction s as [| c s IH]; cbn; [reflexivity |].
  rewrite IH, orb_false_r.
  destruct (Ascii.eqb c "_") eqn:E; [reflexivity | exact E].
Qed.

Lemma remove_first_suffix f :
  has_char "." f = false -> remove_first ".taf" (f ++ ".taf") = f.
Proof.
  induction f as [| c f IH]; intros Hf; [reflexivity |].
  cbn in Hf. apply orb_false_iff in Hf as [Hc Hf].
  cbn [append remove_first].
  assert (Hs : startsWith (String c (f ++ ".taf")) ".taf" = false).
  { unfold startsWith. cbn [String.prefix].
    destruct (ascii_dec "." c) as [<- | _]; [discriminate Hc | reflexivity]. }
  rewrite Hs. now rewrite IH.
Qed.

(** X22.  The names of the generic tonie.  The file name shown is what
    follows the last slash of the name and never contains a slash; it is
    "Unknown" when the file has no name.  Title, series and episodes of the
    tonie created for a file are one and the same text, which never
    contains an underscore; for a name ending in [.taf] with no other dot
    it is the base name with underscores read as spaces. *)
Theorem generic_tonie_names (tafFile : TafFile) (dir f : string)
        (modelNumber : value) :
  has_char "/" (filename_of tafFile) = false
  /\ (name tafFile = None \/ name tafFile = Some "" ->
      filename_of tafFile = "Unknown")
  /\ (has_char "/" f = false ->
      name tafFile = Some (dir ++ "/" ++ f) -> filename_of tafFile = f)
  /\ has_char "_" (display_text (filename_of tafFile)) = false
  /\ (has_char "." f = false -> display_text (f ++ ".taf")
                               = underscores_to_spaces f)
  /\ (let created := newTonie modelNumber tafFile in
      exists text fields,
        created = Obj fields
        /\ get "title" fields = Some (Str text)
        /\ get "series" fields = Some (Str text)
        /\ get "episodes" fields = Some (Str text)
        /\ text = display_text (filename_of tafFile)).
Proof.
  split; [| split; [| split; [| split; [| split]]]].
  - unfold filename_of. destruct (name tafFile) as [n |]; [| reflexivity].
    destruct (truthy n); [| reflexivity].
    now apply last_segment_no_slash.
  - unfold filename_of. intros [-> | ->]; reflexivity.
  - intros Hf Hn. unfold filename_of. rewrite Hn.
    assert (Ht : truthy (dir ++ "/" ++ f) = true).
    { apply truthy_string_nonempty. now destruct dir. }
    rewrite Ht. now apply last_segment_after_slash.
  - apply underscores_to_spaces_clean.
  - intros Hf. unfold display_text. now rewrite remove_first_suffix.
  - cbv zeta. unfold newTonie. eexists _, _. now repeat split.
Qed.

Lemma generic_tonie_names_witness :
  filename_of (mkTafFile (Some "hoerspiele/heidi/Heidi_Folge_01.taf") None
                         Undefined Undefined None)
  = "Heidi_Folge_01.taf"
  /\ display_text ("Heidi_Folge_01" ++ ".taf") = "Heidi Folge 01".
Proof.
  pose proof (generic_tonie_names
                (mkTafFile (Some "hoerspiele/heidi/Heidi_Folge_01.taf") None
                           Undefined Undefined None)
                "hoerspiele/heidi" "Heidi_Folge_01.taf" Undefined)
    as (_ & _ & H3 & _).
  pose proof (generic_tonie_names
                (mkTafFile None None Undefined Undefined None)
                "" "Heidi_Folge_01" Undefined)
    as (_ & _ & _ & _ & H5 & _).
  split; [apply H3; reflexivity | apply H5; reflexivity].
Defined.

Variable API_BASE API_URL : string.
Variable model_server : Request -> Fetched (option string).
Variable create_server : Request -> Settled value.
Variable link_server : Request -> Fetched (option string).

Let handle := handleLinkTag API_BASE API_URL model_server create_server
                            link_server.
Let next_request :=
  Fetch.request_of API_URL Fetch.TagSetupDialog_getNextModelNumber.

Lemma calls_app a b : calls (a ++ b) = (calls a ++ calls b)%list.
Proof. unfold calls. apply flat_map_app. Qed.

(** X23.  Linking a tag to a file that already has a tonie.  Without a
    tag the handler does nothing at all.  With a tag, when the file is
    linked to a tonie with a non-empty model, exactly one request is sent:
    the link request, carrying the tag, that model, and the path of the
    file (its name when it has no path); no tonie is created and no model
    number is asked for. *)
Theorem handleLinkTag_existing_tonie tag tafFile lt m linking :
  handle None tafFile linking = (linking, [])
  /\ (linked_tonie tafFile = Some lt -> lt_model lt = Some m -> m <> "" ->
      let r := handle (Some tag) tafFile linking in
      fst r = false
      /\ calls (snd r) = [link_request API_URL tag (Str m) tafFile]
      /\ body (link_request API_URL tag (Str m) tafFile)
         = Obj [("tag_uid", of_option (uid tag));
                ("box_id", of_option (box_id tag));
                ("model", Str m);
                ("taf_path", of_option (path tafFile ||| name tafFile))]).
Proof.
  split; [reflexivity |].
  intros Hlt Hm Hne. cbv zeta. apply truthy_string_nonempty in Hne.
  split; [reflexivity |]. split; [| reflexivity].
  unfold handle, handleLinkTag, model_number_for, existing_model.
  rewrite Hlt, Hm. change (truthy (Some m)) with (truthy m). rewrite Hne.
  cbn [app snd].
  destruct (link_server _) as [err | [|] [d | err]]; reflexivity.
Qed.

Lemma unlinked_no_model tafFile :
  unlinked tafFile -> existing_model tafFile = None.
Proof.
  unfold existing_model.
  intros [-> | (lt & -> & [-> | ->])]; reflexivity.
Qed.

(** X24.  Linking a tag to a file without tonie.  The model number is
    asked for first.  The status of that response is never looked at: when
    its body parses, the number is the [next_model_number] of the body,
    whatever the status, and [undefined] when the body has none; only when
    the request is rejected or the body does not parse is it "900001".  A
    generic tonie is created with that number next; when the creation is
    rejected, the link request is never sent, the callbacks [onSuccess]
    and [onClose] are not called, and the message of the error is shown;
    when it is accepted, the link request follows, with the same number. *)
Theorem handleLinkTag_creates_then_links tag tafFile linking :
  unlinked tafFile ->
  let r := handle (Some tag) tafFile linking in
  let modelNumber :=
    fst (getNextModelNumber API_URL model_server) in
  let create := toniesAPI_create API_BASE (newTonie modelNumber tafFile) in
  ((forall ok n, model_server next_request = Response ok (Fulfilled (Some n))
                 -> modelNumber = Str n)
   /\ (forall ok, model_server next_request = Response ok (Fulfilled None)
                  -> modelNumber = Undefined)
   /\ (forall ok err, model_server next_request = Response ok (Rejected err)
                      -> modelNumber = Str "900001")
   /\ (forall err, model_server next_request = FetchRejected err ->
                   modelNumber = Str "900001"))
  /\ (forall err,
         create_server create = Rejected err ->
         snd r = [Call next_request; Call create;
                  AlertLinkError (message err ||? "Unknown error")])
  /\ (forall v,
         create_server create = Fulfilled v ->
         calls (snd r)
         = [next_request; create;
            link_request API_URL tag modelNumber tafFile]).
Proof.
  intros Hun. cbv zeta. apply unlinked_no_model in Hun.
  assert (Hfetched : snd (getNextModelNumber API_URL model_server)
                     = [Call next_request]).
  { unfold getNextModelNumber.
    destruct (model_server _) as [e | ok [n | e]]; reflexivity. }
  split; [| split].
  - repeat split.
    + intros ok n H. unfold next_request in H.
      unfold getNextModelNumber. now rewrite H.
    + intros ok H. unfold next_request in H.
      unfold getNextModelNumber. now rewrite H.
    + intros ok err H. unfold next_request in H.
      unfold getNextModelNumber. now rewrite H.
    + intros err H. unfold next_request in H.
      unfold getNextModelNumber. now rewrite H.
  - intros err Hc.
    unfold handle, handleLinkTag, model_number_for. rewrite Hun.
    destruct (getNextModelNumber API_URL model_server) as [mn fetched].
    cbn [fst snd] in *. subst fetched. rewrite Hc. reflexivity.
  - intros v Hc.
    unfold handle, handleLinkTag, model_number_for. rewrite Hun.
    destruct (getNextModelNumber API_URL model_server) as [mn fetched].
    cbn [fst snd] in *. subst fetched. rewrite Hc.
    cbn [through_interceptor snd app].
    destruct (link_server _) as [err | [|] [d | err]]; reflexivity.
Qed.

(** X25.  The outcome of the link request decides alone what the user is
    told: [onSuccess] and [onClose] are called, after the success alert,
    exactly when the link response is ok.  A response that is not ok and
    whose body parses alerts the detail of the body, or "Failed to link
    RFID tag" when the detail is missing or empty; a response that is not
    ok and whose body does not parse alerts the message of the parse
    error; a rejected request alerts the message of its error; a missing
    or empty message is shown as "Unknown error".  This is stated for a
    file that already has a tonie with model [m]. *)
Theorem handleLinkTag_link_outcome tag tafFile lt m linking :
  linked_tonie tafFile = Some lt -> lt_model lt = Some m -> m <> "" ->
  let request := link_request API_URL tag (Str m) tafFile in
  let effects := snd (handle (Some tag) tafFile linking) in
  (forall json,
      link_server request = Response true json ->
      effects = [Call request;
                 AlertLinkSuccess (uid tag ||? "unknown")
                                  (lt_series lt ||? filename_of tafFile);
                 OnSuccess; OnClose])
  /\ (forall d,
         link_server request = Response false (Fulfilled (Some d)) ->
         d <> "" ->
         effects = [Call request; AlertLinkError d])
  /\ (link_server request = Response false (Fulfilled None)
      \/ link_server request = Response false (Fulfilled (Some "")) ->
      effects = [Call request; AlertLinkError "Failed to link RFID tag"])
  /\ (forall err,
         link_server request = Response false (Rejected err) ->
         effects = [Call request;
                    AlertLinkError (message err ||? "Unknown error")])
  /\ (forall err,
         link_server request = FetchRejected err ->
         effects = [Call request;
                    AlertLinkError (message err ||? "Unknown error")])
  /\ (In OnClose effects \/ In OnSuccess effects ->
      exists json, link_server request = Response true json).
Proof.
  intros Hlt Hm Hne. cbv zeta. apply truthy_string_nonempty in Hne.
  unfold handle, handleLinkTag, model_number_for, existing_model.
  rewrite Hlt, Hm. change (truthy (Some m)) with (truthy m). rewrite Hne.
  cbn [app snd].
  repeat split.
  - intros json ->. reflexivity.
  - intros d -> Hd. apply truthy_string_nonempty in Hd.
    unfold alert_text, new_Error. cbn [message].
    unfold or_default at 2. rewrite Hd.
    unfold or_default. now rewrite Hd.
  - intros [-> | ->]; reflexivity.
  - intros err ->. reflexivity.
  - intros err ->. reflexivity.
  - destruct (link_server _) as [err | [|] [d | err]];
      try (now eexists);
      intros [[H | [H | []]] | [H | [H | []]]]; discriminate.
Qed.

End TagSetupDialogFacts.


Lemma handleLinkTag_existing_tonie_witness :
  TagSetupDialog.calls
    (snd (TagSetupDialog.handleLinkTag "" "" model_answers rejecting_server
                                       link_accepts (Some free_tag)
                                       linked_file false))
  = [TagSetupDialog.link_request "" free_tag (Str "900001") linked_file].
Proof.
  apply (handleLinkTag_existing_tonie
           "" "" model_answers rejecting_server link_accepts free_tag
           linked_file
           (TagSetupDialog.mkLinkedTonie (Some "900001") (Some "Heidi"))
           "900001" false);
    [reflexivity | reflexivity | discriminate].
Defined.

Lemma handleLinkTag_creates_then_links_witness :
  snd (TagSetupDialog.handleLinkTag "" "" model_answers rejecting_server
                                    link_accepts (Some free_tag) new_file
                                    false)
  = [TagSetupDialog.Call
       (Fetch.request_of "" Fetch.TagSetupDialog_getNextModelNumber);
     TagSetupDialog.Call
       (Client.toniesAPI_create
          "" (TagSetupDialog.newTonie (Str "900002") new_file));
     TagSetupDialog.AlertLinkError "Network Error"]
  /\ fst (TagSetupDialog.getNextModelNumber "" model_refused) = Undefined.
Proof.
  split.
  - refine (proj1 (proj2 (handleLinkTag_creates_then_links
                            "" "" model_answers rejecting_server link_accepts
                            free_tag new_file false _))
                  down eq_refl).
    left; reflexivity.
  - refine (proj1 (proj2 (proj1 (handleLinkTag_creates_then_links
                                   "" "" model_refused rejecting_server
                                   link_accepts free_tag new_file false _)))
                  false eq_refl).
    left; reflexivity.
Defined.

Lemma handleLinkTag_link_outcome_witness :
  snd (TagSetupDialog.handleLinkTag "" "" model_answers rejecting_server
                                    link_accepts (Some free_tag) linked_file
                                    false)
  = [TagSetupDialog.Call
       (TagSetupDialog.link_request "" free_tag (Str "900001") linked_file);
     TagSetupDialog.AlertLinkSuccess "E00403500A1B2C3F" "Heidi";
     TagSetupDialog.OnSuccess; TagSetupDialog.OnClose]
  /\ snd (TagSetupDialog.handleLinkTag "" "" model_answers rejecting_server
                                       link_unreadable (Some free_tag)
                                       linked_file false)
     = [TagSetupDialog.Call
          (TagSetupDialog.link_request "" free_tag (Str "900001")
                                       linked_file);
        TagSetupDialog.AlertLinkError
          "Unexpected token < in JSON at position 0"].
Proof.
  assert (Hm : "900001" <> "") by discriminate.
  split.
  - exact (proj1 (handleLinkTag_link_outcome
                    "" "" model_answers rejecting_server link_accepts free_tag
                    linked_file
                    (TagSetupDialog.mkLinkedTonie (Some "900001")
                                                  (Some "Heidi"))
                    "900001" false eq_refl eq_refl Hm)
                 (Client.Fulfilled None) eq_refl).
  - exact (proj1 (proj2 (proj2 (proj2
             (handleLinkTag_link_outcome
                "" "" model_answers rejecting_server link_unreadable free_tag
                linked_file
                (TagSetupDialog.mkLinkedTonie (Some "900001") (Some "Heidi"))
                "900001" false eq_refl eq_refl Hm))))
             unreadable eq_refl).
Defined.

(** ** Saving the settings *)

Section SettingsDialogFacts.

Import Client SettingsDialog.

Variable API_URL : string.
Variable server : Request -> TagSetupDialog.Fetched value.
Variable hasOnConfigChange : bool.

Let save (st : State) :=
  Fetch.request_of API_URL
                   (Fetch.SettingsDialog_handleSave
                      (json_of_config (config st))).
Let restart := Fetch.request_of API_URL Fetch.SettingsDialog_restart.

(** X26.  Saving the settings.  The back end is restarted exactly when
    the save was accepted and the TeddyCloud URL or timeout differs from
    the configuration loaded before; when no configuration was loaded it
    is never restarted.
    Otherwise an accepted save notifies the parent, if it listens, and
    closes the dialog.  A save that is refused or fails sends nothing else,
    leaves the dialog open and sets an error.  Saving ends in every
    case. *)
Theorem handleSave_restarts_on_backend_change (st s : State) :
  let r := handleSave API_URL server hasOnConfigChange st s in
  saving (fst r) = false
  /\ (In (Call restart) (snd r) <->
      (exists json, server (save st) = TagSetupDialog.Response true json)
      /\ exists initial,
          initialConfig st = Some initial
          /\ (tc_url (teddycloud (config st)) <> tc_url (teddycloud initial)
              \/ tc_timeout (teddycloud (config st))
                 <> tc_timeout (teddycloud initial)))
  /\ (forall json,
         server (save st) = TagSetupDialog.Response true json ->
         backendSettingsChanged st = false ->
         snd r = ([Call (save st)]
                    ++ (if hasOnConfigChange
                        then [OnConfigChange
                                (selected_box (app (config st)))
                                (default_language (app (config st)))]
                        else [])
                    ++ [OnClose])%list
         /\ error (fst r) = None)
  /\ (forall json,
         server (save st) = TagSetupDialog.Response false json ->
         snd r = [Call (save st)]
         /\ error (fst r)
            = Some "Failed to save: Failed to save configuration")
  /\ (forall err,
         server (save st) = TagSetupDialog.FetchRejected err ->
         snd r = [Call (save st)]
         /\ error (fst r)
            = Some ("Failed to save: " ++ TonieEditor.interpolate (message err))).
Proof.
  cbv zeta. unfold handleSave. fold (save st). fold restart.
  assert (Hchanged :
            backendSettingsChanged st = true <->
            exists initial,
              initialConfig st = Some initial
              /\ (tc_url (teddycloud (config st))
                  <> tc_url (teddycloud initial)
                  \/ tc_timeout (teddycloud (config st))
                     <> tc_timeout (teddycloud initial))).
  { unfold backendSettingsChanged.
    destruct (initialConfig st) as [initial |].
    - rewrite orb_true_iff, !negb_true_iff, String.eqb_neq, Z.eqb_neq.
      split.
      + intros H. now exists initial.
      + intros (i & Hi & H). now injection Hi as <-.
    - split; [discriminate | intros (i & Hi & _); discriminate]. }
  assert (Hneq : Call restart <> Call (save st)).
  { intros H. apply (f_equal (fun e => match e with
                                       | Call request => method request
                                       | _ => GET
                                       end)) in H.
    discriminate H. }
  split.
  { destruct (server (save st)) as [err | [|] json];
      [| destruct (backendSettingsChanged st) |]; reflexivity. }
  split.
  { destruct (server (save st)) as [err | [|] json].
    - split.
      + intros [H | []]. now symmetry in H.
      + intros [(j & Hj) _]. discriminate.
    - destruct (backendSettingsChanged st) eqn:E.
      + split.
        * intros _. split; [now exists json | now apply Hchanged].
        * intros _. right. now left.
      + split.
        * cbn [snd]. intros H. exfalso.
          apply in_app_or in H as [[H | []] | H];
            [now symmetry in H |].
          apply in_app_or in H as [H | [H | []]]; [| discriminate].
          destruct hasOnConfigChange; [| contradiction].
          destruct H as [H | []]. discriminate.
        * intros [_ H]. apply Hchanged in H. discriminate.
    - split.
      + intros [H | []]. now symmetry in H.
      + intros [(j & Hj) _]. discriminate. }
  split.
  { intros json -> ->. now split. }
  split.
  { intros json ->. now split. }
  intros err ->. now split.
Qed.

End SettingsDialogFacts.


Lemma handleSave_restarts_on_backend_change_witness :
  In (SettingsDialog.Call
        (Fetch.request_of "" Fetch.SettingsDialog_restart))
     (snd (SettingsDialog.handleSave "" save_accepted true edited_settings
                                     edited_settings))
  /\ snd (SettingsDialog.handleSave "" save_refused true edited_settings
                                    edited_settings)
     = [SettingsDialog.Call
          (Fetch.request_of
             "" (Fetch.SettingsDialog_handleSave
                   (SettingsDialog.json_of_config
                      (SettingsDialog.config edited_settings))))].
Proof.
  split.
  - apply (handleSave_restarts_on_backend_change
             "" save_accepted true edited_settings edited_settings).
    split; [now eexists |].
    exists loaded_config. split; [reflexivity |]. left. discriminate.
  - apply (handleSave_restarts_on_backend_change
             "" save_refused true edited_settings edited_settings)
      with (json := Client.Fulfilled (Obj [])).
    reflexivity.
Defined.

(** ** The tonies list of the dashboard *)

Section DashboardFacts.

Import Client Dashboard.

Variable API_BASE : string.
Variable list_server : Request -> Settled ToniesResponse.
Variable delete_server : Request -> Settled value.

(** X27.  The tonies list.  A change of page size asks for the first page
    with the new size, a change of page for the offset
    [(newPage - 1) * pageSize]; each sends one request.  A load that is
    rejected keeps the tonies and the pagination shown before and sets the
    error "Failed to load tonies: ..."; loading ends in both cases. *)
Theorem tonies_pagination (st s : State) (newPage newPageSize : Z) :
  snd (handleToniesPageSizeChange API_BASE list_server st newPageSize s)
  = [Call (toniesAPI_getAll API_BASE [Num 0; Num newPageSize])]
  /\ snd (handleToniesPageChange API_BASE list_server st newPage s)
     = [Call (toniesAPI_getAll
                API_BASE [Num ((newPage - 1) * toniesPageSize st);
                          Num (toniesPageSize st)])]
  /\ (forall page pageSize,
         loading (fst (loadTonies API_BASE list_server st page pageSize s))
         = false)
  /\ (forall page pageSize err,
         (forall request, list_server request = Rejected err) ->
         fst (loadTonies API_BASE list_server st page pageSize s)
         = setLoading false
             (setError (Some ("Failed to load tonies: "
                                ++ TonieEditor.interpolate (message err))) s)).
Proof.
  split; [reflexivity |]. split; [reflexivity |]. split.
  - intros page pageSize. unfold loadTonies.
    now destruct (through_interceptor _).
  - intros page pageSize err H. unfold loadTonies. now rewrite H.
Qed.

(** X28.  Deleting a tonie.  When the user declines the prompt nothing is
    sent and nothing changes.  When the deletion is rejected, the list is
    not reloaded and the message of the error is shown.  When it is
    accepted, the list is reloaded for the page and page size of the
    current render, after the deletion. *)
Theorem handleDelete_confirms_first (st s : State) (tonie : TonieEditor.Tonie) :
  let delete := toniesAPI_delete API_BASE (TonieEditor.no tonie) in
  handleDelete API_BASE list_server delete_server false st tonie s = (s, [])
  /\ (forall err,
         delete_server delete = Rejected err ->
         handleDelete API_BASE list_server delete_server true st tonie s
         = (s, [Call delete;
                Alert ("Failed to delete: "
                         ++ TonieEditor.interpolate (message err))]))
  /\ (forall v,
         delete_server delete = Fulfilled v ->
         calls (snd (handleDelete API_BASE list_server delete_server true st
                                  tonie s))
         = [delete;
            toniesAPI_getAll
              API_BASE [Num ((toniesPage st - 1) * toniesPageSize st);
                        Num (toniesPageSize st)]]).
Proof.
  cbv zeta. split; [reflexivity |]. split.
  - intros err H. unfold handleDelete. now rewrite H.
  - intros v H. unfold handleDelete. rewrite H. reflexivity.
Qed.

End DashboardFacts.


Lemma tonies_pagination_witness :
  Dashboard.tonies
    (fst (Dashboard.loadTonies "" tonies_down dashboard (Some 2) None
                               dashboard))
  = [edited_tonie].
Proof.
  destruct (tonies_pagination "" tonies_down dashboard dashboard 2 50)
    as (_ & _ & _ & Hfail).
  rewrite (Hfail (Some 2) None down (fun _ => eq_refl)).
  reflexivity.
Defined.

Lemma handleDelete_confirms_first_witness :
  Dashboard.handleDelete "" tonies_down rejecting_server true dashboard
                         edited_tonie dashboard
  = (dashboard,
     [Dashboard.Call (Client.toniesAPI_delete "" "7");
      Dashboard.Alert "Failed to delete: Network Error"]).
Proof.
  exact (proj1 (proj2 (handleDelete_confirms_first
                         "" tonies_down rejecting_server dashboard dashboard
                         edited_tonie))
               down eq_refl).
Defined.

(** ** Translations *)

Section TranslationFacts.

Import Translation Text.

Variable en de : Translation.
Variable toLowerCase : string -> string.

Lemma string_app_assoc (a b c : string) : (a ++ b) ++ c = a ++ b ++ c.
Proof. induction a as [| x a IH]; cbn; [reflexivity | now rewrite IH]. Qed.

Lemma string_app_nil_r (a : string) : a ++ "" = a.
Proof. induction a as [| x a IH]; cbn; [reflexivity | now rewrite IH]. Qed.

Lemma split_dots_plain cur k :
  has_char "." k = false -> split_dots cur k = [cur ++ k].
Proof.
  revert cur. induction k as [| c k IH]; intros cur Hk; cbn.
  - now rewrite string_app_nil_r.
  - cbn in Hk. apply orb_false_iff in Hk as [Hc Hk].
    rewrite Hc, IH by exact Hk. now rewrite string_app_assoc.
Qed.

(** Once the value is [undefined], whatever keys remain, the key itself
    is what [t] returns. *)
Lemma walk_undefined keys :
  walk None keys = Some (inl tt) \/ walk None keys = Some (inr None).
Proof. destruct keys; [now right | now left]. Qed.

(** In the language "en" the walk starts at the English locale. *)
Lemma t_en key replacements :
  t en de "en" key replacements
  = match walk (Some en) (split_dots "" key) with
    | None => None
    | Some (inl _) => Some (RText key)
    | Some (inr (Some (Text s))) =>
        match replacements with
        | [] => Some (RText (if truthy s then s else key))
        | _ => option_map RText (replace_placeholders replacements None s)
        end
    | Some (inr (Some (Group entries))) => Some (RGroup entries)
    | Some (inr None) => Some (RText key)
    end.
Proof. reflexivity. Qed.

(** X29.  Languages and missing translations.  The detected language is
    always "en" or "de", whatever the browser reports.  In a language
    that has no locale, every key is returned as it is.  A key whose first
    segment is missing from the locale is returned as it is.  An empty
    translation is replaced by its key when no replacements are given, but
    returned empty when some are.  A key that stops at a group returns the
    group. *)
Theorem translation_fallbacks
        (language key first : string) (rest : list string)
        (entries sub : list (string * Translation))
        (replacements : list (string * string))
        (navigatorLanguage userLanguage : option string)
        (r : string * string) :
  In (detectBrowserLanguage toLowerCase navigatorLanguage userLanguage)
     SUPPORTED_LANGUAGES
  /\ (language <> "en" -> language <> "de" ->
      includes inherited_names language = false ->
      t en de language key replacements = Some (RText key))
  /\ (en = Group entries ->
      split_dots "" key = first :: rest ->
      read first entries = Missing ->
      t en de "en" key replacements = Some (RText key))
  /\ (en = Group entries -> has_char "." key = false ->
      own key entries = Some (Text "") ->
      t en de "en" key [] = Some (RText key)
      /\ t en de "en" key (r :: replacements) = Some (RText ""))
  /\ (en = Group entries -> has_char "." key = false ->
      own key entries = Some (Group sub) ->
      t en de "en" key replacements = Some (RGroup sub)).
Proof.
  split; [| split; [| split; [| split]]].
  - unfold detectBrowserLanguage.
    destruct (includes SUPPORTED_LANGUAGES _) eqn:E; [| now left].
    unfold includes in E. apply existsb_exists in E as (x & Hx & E).
    apply String.eqb_eq in E. now subst x.
  - intros Hen Hde Hinh. unfold t, read, translations. cbn [own].
    apply String.eqb_neq in Hen, Hde. rewrite Hen, Hde, Hinh.
    destruct (split_dots "" key); reflexivity.
  - intros Hen Hsplit Hmiss. rewrite t_en, Hen, Hsplit. cbn [walk].
    rewrite Hmiss.
    destruct (walk_undefined rest) as [-> | ->]; reflexivity.
  - intros Hen Hk Hown. rewrite !t_en, Hen.
    rewrite (split_dots_plain "" key Hk). cbn [append walk].
    unfold read. rewrite Hown. now split.
  - intros Hen Hk Hown. rewrite t_en, Hen.
    rewrite (split_dots_plain "" key Hk). cbn [append walk].
    unfold read. now rewrite Hown.
Qed.

(** A word in progress is completed by the word characters that follow,
    and closed by the brace. *)
Lemma pending_word replacements word w b :
  forallb is_word (list_ascii_of_string w) = true ->
  word ++ w <> "" ->
  replace_placeholders replacements (Some word) (w ++ "}" ++ b)
  = match substitute replacements (word ++ w),
          replace_placeholders replacements None b with
    | Some v, Some rest => Some (v ++ rest)
    | _, _ => None
    end.
Proof.
  revert word. induction w as [| c w IH]; intros word Hw Hne.
  - rewrite string_app_nil_r in *. cbn.
    apply String.eqb_neq in Hne. now rewrite Hne.
  - cbn in Hw. apply andb_prop in Hw as [Hc Hw].
    cbn [append replace_placeholders]. rewrite Hc.
    rewrite IH; [| exact Hw |].
    + now rewrite string_app_assoc.
    + rewrite string_app_assoc. now destruct word.
Qed.

Lemma plain_prefix replacements a s :
  has_char "{" a = false ->
  replace_placeholders replacements None (a ++ s)
  = option_map (append a) (replace_placeholders replacements None s).
Proof.
  intros Ha. induction a as [| c a IH]; cbn.
  - now destruct (replace_placeholders replacements None s).
  - cbn in Ha. apply orb_false_iff in Ha as [Hc Ha].
    rewrite Hc, IH by exact Ha.
    now destruct (replace_placeholders replacements None s).
Qed.

(** X30.  Placeholders.  A text without opening brace is returned
    unchanged, whatever replacements are given.  In a text read from the
    left, the first placeholder [{word}] is replaced by the value given
    for [word], and left as it is when no value is given; the rest of the
    text is treated in the same way. *)
Theorem placeholders_replaced
        (replacements : list (string * string)) (a w b v : string) :
  (has_char "{" a = false ->
   replace_placeholders replacements None a = Some a)
  /\ (has_char "{" a = false ->
      forallb is_word (list_ascii_of_string w) = true -> w <> "" ->
      (own w replacements = Some v ->
       replace_placeholders replacements None (a ++ "{" ++ w ++ "}" ++ b)
       = option_map (fun rest => a ++ v ++ rest)
                    (replace_placeholders replacements None b))
      /\ (own w replacements = None ->
          includes inherited_names w = false ->
          replace_placeholders replacements None (a ++ "{" ++ w ++ "}" ++ b)
          = option_map (fun rest => a ++ "{" ++ w ++ "}" ++ rest)
                       (replace_placeholders replacements None b))).
Proof.
  split.
  - intros Ha. rewrite <- (string_app_nil_r a) at 1.
    rewrite plain_prefix by exact Ha. cbn. now rewrite string_app_nil_r.
  - intros Ha Hw Hne.
    assert (Hstep :
              replace_placeholders replacements None
                                   (a ++ "{" ++ w ++ "}" ++ b)
              = option_map
                  (append a)
                  match substitute replacements w,
                        replace_placeholders replacements None b with
                  | Some v, Some rest => Some (v ++ rest)
                  | _, _ => None
                  end).
    { rewrite plain_prefix by exact Ha. f_equal.
      change (replace_placeholders replacements None
                                   ("{" ++ w ++ "}" ++ b))
        with (replace_placeholders replacements (Some "") (w ++ "}" ++ b)).
      now rewrite pending_word. }
    split.
    + intros Hown. rewrite Hstep. unfold substitute, read. rewrite Hown.
      now destruct (replace_placeholders replacements None b).
    + intros Hown Hinh. rewrite Hstep. unfold substitute, read.
      rewrite Hown, Hinh.
      destruct (replace_placeholders replacements None b); cbn;
        [| reflexivity].
      now rewrite !string_app_assoc.
Qed.

End TranslationFacts.


Lemma translation_fallbacks_witness :
  Translation.t english english "fr" "app.title" []
  = Some (Translation.RText "app.title")
  /\ Translation.t english english "en" "missing.key" []
     = Some (Translation.RText "missing.key")
  /\ Translation.t english english "en" "empty" []
     = Some (Translation.RText "empty").
Proof.
  pose (entries :=
          [("app", Translation.Group [("title", Translation.Text "Custom Tags")]);
           ("empty", Translation.Text "");
           ("stepOf", Translation.Text "Step {current} of {total}")]).
  split; [| split].
  - apply (proj1 (proj2 (translation_fallbacks
                           english english (fun s => s) "fr" "app.title" ""
                           [] [] [] [] None None ("", ""))));
      [discriminate | discriminate | reflexivity].
  - apply (proj1 (proj2 (proj2 (translation_fallbacks
                                  english english (fun s => s) "en"
                                  "missing.key" "missing" ["key"] entries []
                                  [] None None ("", "")))));
      reflexivity.
  - apply (proj1 (proj2 (proj2 (proj2 (translation_fallbacks
                                         english english (fun s => s) "en"
                                         "empty" "" [] entries [] [] None
                                         None ("", ""))))));
      reflexivity.
Defined.

Lemma placeholders_replaced_witness :
  Translation.replace_placeholders
    [("current", "2"); ("total", "6")] None "Step {current} of {total}"
  = Some "Step 2 of 6".
Proof.
  assert (Hw : "current" <> "") by discriminate.
  exact (eq_trans
           (proj1 (proj2 (placeholders_replaced
                            [("current", "2"); ("total", "6")]
                            "Step " "current" " of {total}" "2")
                         eq_refl eq_refl Hw)
                  eq_refl)
           eq_refl).
Defined.
